(** * Heavy3 Code Audit: retry, rendering, stream decoding and council fan-in

    A shallow embedding of [skill/scripts/review.py] and
    [skill/scripts/council.py].  Python values are modelled as follows:
    - [str] as [string], one [ascii] per character, so that lengths and
      slices count characters as Python does (the scripts write one
      character outside ASCII into a prompt, the arrow U+2192 of the PR
      block in review.py: it is the single character [PyStr.arrow]);
      [int] as [Z]; loop counters produced by [range] as [nat]; readings
      of [time.time()] as rationals;
    - decoded JSON values as the inductive [json], Python dicts as
      association lists in document order, their keys distinct;
    - exceptions as records carrying their class, their message and the
      response attached to them; a computation that may raise as
      [py_result];
    - the requests sent, the sleeps, the clock readings and the output as
      an explicit [world] threaded through a small state-and-exception
      monad [M]; what the network answers to the k-th request is given by
      a script, and a streamed body by the list of its decoded lines;
    - the three concurrent workers of the council as three runs of
      [call_reviewer], each in a world of its own, whose results are
      collected in an arbitrary completion order. *)

From Stdlib Require Import ZArith QArith String Ascii List Lia Permutation Sorted.
From stdpp Require Import base gmap strings list pretty.

Set Warnings "-register-all".
Local Open Scope string_scope.
Local Open Scope Z_scope.

(** ** Python strings *)

Module PyStr.

Definition nl : string := String "010"%char "".

(** The arrow U+2192, one character to [len] and to slicing: it stands at
    the code 146, outside the ASCII range. *)
Definition arrow : string := String "146"%char "".

Fixpoint take (n : nat) (s : string) : string :=
  match n, s with
  | S n', String c s' => String c (take n' s')
  | _, _ => ""
  end.

(** [s[n:]] for a constant [n >= 0]. *)
Fixpoint drop (n : nat) (s : string) : string :=
  match n, s with
  | S n', String _ s' => drop n' s'
  | _, _ => s
  end.

(** [s[:k]] for an arbitrary integer [k]: a negative bound counts from
    the end of the string. *)
Definition slice_to (k : Z) (s : string) : string :=
  if 0 <=? k then take (Z.to_nat k) s
  else take (Z.to_nat (Z.of_nat (String.length s) + k)) s.

Definition len (s : string) : Z := Z.of_nat (String.length s).

(** [str.startswith] *)
Fixpoint startswith (s p : string) {struct p} : bool :=
  match p, s with
  | "", _ => true
  | String a p', String b s' => if Ascii.eqb a b then startswith s' p' else false
  | String _ _, "" => false
  end.

(** [needle in hay] *)
Fixpoint contains (hay needle : string) : bool :=
  startswith hay needle ||
  match hay with
  | "" => false
  | String _ hay' => contains hay' needle
  end.

(** [str.endswith] *)
Definition endswith (s p : string) : bool :=
  startswith (String.rev s) (String.rev p).

(** The ASCII characters removed by [str.strip()]. *)
Definition is_py_space (c : ascii) : bool :=
  let n := nat_of_ascii c in
  ((9 <=? n) && (n <=? 13) || (28 <=? n) && (n <=? 32))%nat.

Fixpoint lstrip (s : string) : string :=
  match s with
  | String c s' => if is_py_space c then lstrip s' else s
  | "" => ""
  end.

Definition strip (s : string) : string :=
  String.rev (lstrip (String.rev (lstrip s))).

Definition lower_char (c : ascii) : ascii :=
  let n := nat_of_ascii c in
  if ((65 <=? n) && (n <=? 90))%nat then ascii_of_nat (n + 32) else c.

Fixpoint lower (s : string) : string :=
  match s with
  | "" => ""
  | String c s' => String (lower_char c) (lower s')
  end.

(** [''.join(parts)] *)
Definition join (parts : list string) : string :=
  fold_right String.append "" parts.

Definition truthy (s : string) : bool :=
  match s with "" => false | _ => true end.

(** [s1] occurs in [s2] as a contiguous substring. *)
Definition occurs (needle hay : string) : Prop :=
  exists a b, hay = a +:+ needle +:+ b.

End PyStr.

(** ** Decoded JSON values and Python exceptions *)

Inductive json : Type :=
| JNull
| JBool (b : bool)
| JNum (z : Z)
| JStr (s : string)
| JArr (l : list json)
| JObj (l : list (string * json)).

(** The exception classes that the two scripts raise, catch or let pass.
    [ConnectTimeout] derives from both [ConnectionError] and [Timeout];
    [SystemExit] is the only one that is not an [Exception]. *)
Inductive exn_class : Type :=
| SystemExit
| Timeout
| ConnectTimeout
| ConnectionError
| HTTPError
| JSONDecodeError
| AttributeError
| IndexError
| KeyError
| TypeError
| OtherException.

(** What the scripts read from a [requests] response: the status, the body
    text, the outcome of [response.json()] ([None] when the body is not
    JSON) and, for a streamed body, the lines of [iter_lines()]. *)
Record response : Type := {
  status_code : Z;
  text : string;
  json_body : option json;
  iter_lines : list string
}.

Record exn : Type := {
  exn_cls : exn_class;
  exn_msg : string;          (* str(e) *)
  exn_response : option response   (* e.response *)
}.

Inductive py_result (A : Type) : Type :=
| Ret (a : A)
| Raise (e : exn).
Arguments Ret {A} a.
Arguments Raise {A} e.

Definition isinstance_Timeout (e : exn) : bool :=
  match exn_cls e with Timeout | ConnectTimeout => true | _ => false end.
Definition isinstance_ConnectionError (e : exn) : bool :=
  match exn_cls e with ConnectionError | ConnectTimeout => true | _ => false end.
Definition isinstance_HTTPError (e : exn) : bool :=
  match exn_cls e with HTTPError => true | _ => false end.
Definition isinstance_JSONDecodeError (e : exn) : bool :=
  match exn_cls e with JSONDecodeError => true | _ => false end.
Definition isinstance_Exception (e : exn) : bool :=
  match exn_cls e with SystemExit => false | _ => true end.

Definition mk_exn (c : exn_class) (msg : string) : exn :=
  {| exn_cls := c; exn_msg := msg; exn_response := None |}.

(** ** Operations on decoded JSON values *)

Module Py.

(** [bool(v)] *)
Definition truthy (j : json) : bool :=
  match j with
  | JNull => false
  | JBool b => b
  | JNum z => negb (z =? 0)
  | JStr s => PyStr.truthy s
  | JArr l => match l with [] => false | _ => true end
  | JObj l => match l with [] => false | _ => true end
  end.

Definition type_name (j : json) : string :=
  match j with
  | JNull => "NoneType"
  | JBool _ => "bool"
  | JNum _ => "int"
  | JStr _ => "str"
  | JArr _ => "list"
  | JObj _ => "dict"
  end.

Fixpoint dict_lookup (k : string) (l : list (string * json)) : option json :=
  match l with
  | [] => None
  | (k', v) :: l' => if String.eqb k k' then Some v else dict_lookup k l'
  end.

(** [v.get(k, default)]: only a dict has the method. *)
Definition get (j : json) (k : string) (default : json) : py_result json :=
  match j with
  | JObj l => Ret (match dict_lookup k l with Some v => v | None => default end)
  | _ => Raise (mk_exn AttributeError
                  ("'" +:+ type_name j +:+ "' object has no attribute 'get'"))
  end.

(** [v[0]] *)
Definition index0 (j : json) : py_result json :=
  match j with
  | JArr (x :: _) => Ret x
  | JArr [] => Raise (mk_exn IndexError "list index out of range")
  | JStr (String c _) => Ret (JStr (String c ""))
  | JStr "" => Raise (mk_exn IndexError "string index out of range")
  | JObj _ => Raise (mk_exn KeyError "0")
  | _ => Raise (mk_exn TypeError
                  ("'" +:+ type_name j +:+ "' object is not subscriptable"))
  end.

(** [v[k]] for a string key *)
Definition item (j : json) (k : string) : py_result json :=
  match j with
  | JObj l => match dict_lookup k l with
              | Some v => Ret v
              | None => Raise (mk_exn KeyError ("'" +:+ k +:+ "'"))
              end
  | JArr _ => Raise (mk_exn TypeError "list indices must be integers or slices, not str")
  | JStr _ => Raise (mk_exn TypeError "string indices must be integers, not 'str'")
  | _ => Raise (mk_exn TypeError
                  ("'" +:+ type_name j +:+ "' object is not subscriptable"))
  end.

Definition isinstance_dict (j : json) : bool :=
  match j with JObj _ => true | _ => false end.

(** [response.json()] *)
Definition response_json (r : response) : py_result json :=
  match json_body r with
  | Some j => Ret j
  | None => Raise (mk_exn JSONDecodeError "Expecting value: line 1 column 1 (char 0)")
  end.

Definition pbind {A B} (c : py_result A) (k : A -> py_result B) : py_result B :=
  match c with
  | Ret a => k a
  | Raise e => Raise e
  end.

(** [try: c  except <classes>: h] *)
Definition catch {A} (c : py_result A) (caught : exn -> bool)
           (h : exn -> py_result A) : py_result A :=
  match c with
  | Ret a => Ret a
  | Raise e => if caught e then h e else Raise e
  end.

End Py.

Notation "'let?' x ':=' c 'in' k" := (Py.pbind c (fun x => k))
  (at level 10, x name, c at level 200, k at level 200).

(** ** The world of one call: requests, sleeps, clock readings, output *)

(** The body of the chat-completion request. *)
Record payload : Type := {
  p_model : string;
  p_system : string;               (* messages[0].content *)
  p_user : string;                 (* messages[1].content *)
  p_stream : option bool;
  p_max_output_tokens : option Z;
  p_transforms : list string;
  p_plugins : option string;       (* engine of the web plugin *)
  p_provider : bool;               (* provider.require_parameters is set *)
  p_reasoning : option string      (* reasoning.effort *)
}.

Record world : Type := {
  sent : list payload;    (* requests issued so far, oldest first *)
  ticks : nat;            (* time.time() readings taken so far *)
  sleeps : list Z;        (* time.sleep durations, oldest first *)
  stdout : list string;   (* chunks written to the primary output *)
  stderr : list string    (* lines written to the diagnostic stream *)
}.

Definition calls (w : world) : nat := length (sent w).

Definition world0 : world :=
  {| sent := []; ticks := 0; sleeps := []; stdout := []; stderr := [] |}.

Definition M (A : Type) : Type := world -> py_result A * world.

Definition ret {A} (a : A) : M A := fun w => (Ret a, w).
Definition raise {A} (e : exn) : M A := fun w => (Raise e, w).
Definition lift {A} (r : py_result A) : M A := fun w => (r, w).
Definition bind {A B} (c : M A) (k : A -> M B) : M B :=
  fun w => match c w with
           | (Ret a, w') => k a w'
           | (Raise e, w') => (Raise e, w')
           end.

(** Runs [c] and hands its outcome, value or exception, to the handlers
    of the enclosing [try]. *)
Definition try_ {A} (c : M A) : M (py_result A) :=
  fun w => let '(r, w') := c w in (Ret r, w').

Notation "'let*' x ':=' c 'in' k" := (bind c (fun x => k))
  (at level 10, x name, c at level 200, k at level 200).
Notation "c ;;; k" := (bind c (fun _ => k))
  (at level 100, k at level 200, right associativity).

Definition sleep (d : Z) : M unit :=
  fun w => (Ret tt, {| sent := sent w; ticks := ticks w;
                       sleeps := sleeps w ++ [d];
                       stdout := stdout w; stderr := stderr w |}).

Definition print (s : string) : M unit :=
  fun w => (Ret tt, {| sent := sent w; ticks := ticks w; sleeps := sleeps w;
                       stdout := stdout w ++ [s]; stderr := stderr w |}).

Definition eprint (s : string) : M unit :=
  fun w => (Ret tt, {| sent := sent w; ticks := ticks w; sleeps := sleeps w;
                       stdout := stdout w; stderr := stderr w ++ [s] |}).

(** [time.time()] against a clock given by its successive readings. *)
Definition time_time (clock : nat -> Q) : M Q :=
  fun w => (Ret (clock (ticks w)),
            {| sent := sent w; ticks := S (ticks w); sleeps := sleeps w;
               stdout := stdout w; stderr := stderr w |}).

(** [int(x)] on a rational: truncation toward zero. *)
Definition py_int (q : Q) : Z := Z.quot (Qnum q) (Zpos (Qden q)).

(** [int((now - start) * 1000)] *)
Definition elapsed_millis (start now : Q) : Z :=
  py_int ((now - start) * 1000)%Q.

(** The zero-argument network operation handed to the retry wrapper
    ([make_request]: [requests.post] followed by [raise_for_status]).
    [script k] is what the network does on the [k]-th request. *)
Definition make_request (p : payload) (script : nat -> py_result response)
  : M response :=
  fun w => (script (calls w),
            {| sent := sent w ++ [p]; ticks := ticks w; sleeps := sleeps w;
               stdout := stdout w; stderr := stderr w |}).

(** A script that replays [l] and then keeps answering [dflt]. *)
Definition script_of (l : list (py_result response)) (dflt : py_result response)
  : nat -> py_result response :=
  fun k => nth k l dflt.

Definition http_response (status : Z) (body : option json) : response :=
  {| status_code := status; text := ""; json_body := body; iter_lines := [] |}.

(** What [raise_for_status] raises for a response with an error status. *)
Definition http_error (r : response) : exn :=
  {| exn_cls := HTTPError;
     exn_msg := pretty (status_code r) +:+ " Error";
     exn_response := Some r |}.

(** [get_api_key]: [key_source] is what the environment, or failing that
    the [.env] file, holds for [OPENROUTER_API_KEY]; without a key the
    process exits with status 1. *)
Definition get_api_key (key_source : option string) : M string :=
  match key_source with
  | Some key =>
      if PyStr.truthy key then ret key
      else print "ERROR: OPENROUTER_API_KEY not found." ;;; raise (mk_exn SystemExit "1")
  | None => print "ERROR: OPENROUTER_API_KEY not found." ;;; raise (mk_exn SystemExit "1")
  end.

(** The retry configuration, the same in both scripts. *)
Definition MAX_RETRIES : nat := 3.
Definition INITIAL_BACKOFF_SECONDS : Z := 2.

(** [INITIAL_BACKOFF_SECONDS * (2 ** attempt)] *)
Definition backoff_wait (attempt : nat) : Z :=
  INITIAL_BACKOFF_SECONDS * 2 ^ Z.of_nat attempt.

(** [status >= 500 or status == 429] *)
Definition retryable_status (status : Z) : bool :=
  (500 <=? status) || (status =? 429).

(** [raise last_error] after the loop; raising [None] is a [TypeError]. *)
Definition raise_last {A} (last_error : option exn) : M A :=
  match last_error with
  | Some e => raise e
  | None => raise (mk_exn TypeError "exceptions must derive from BaseException")
  end.

(** ** The review context *)

(** A context is the decoded JSON document handed to the scripts; a key
    that is absent from a dict is [None] here, and the ordered (path, text)
    dicts are association lists in document order. *)

Record exchange : Type := {
  ex_role : option string;
  ex_content : option string
}.

Record conversation : Type := {
  original_request : option string;
  approach_notes : option string;
  relevant_exchanges : option (list exchange);
  previous_review_findings : option string
}.

Record pull_request : Type := {
  pr_number : option Z;
  pr_title : option string;
  pr_author : option string;
  pr_head_branch : option string;
  pr_base_branch : option string;
  pr_additions : option Z;
  pr_deletions : option Z;
  pr_body : option string
}.

Record context : Type := {
  conversation_context : option conversation;
  plan_content : option string;
  pr_metadata : option pull_request;
  diff : option string;
  file_contents : option (list (string * string));
  documentation : option (list (string * string));
  test_files : option (list (string * string));
  dependent_files : option (list (string * string))
}.

Module Ctx.

Import PyStr.

Definition is_some {A} (o : option A) : bool :=
  match o with Some _ => true | None => false end.

(** Truth value of [d.get(key)] for a string, a list and a dict value. *)
Definition str_truthy (o : option string) : bool :=
  match o with Some s => truthy s | None => false end.

Definition list_truthy {A} (o : option (list A)) : bool :=
  match o with Some (_ :: _) => true | _ => false end.

(** A dict is true when it holds at least one key. *)
Definition conversation_nonempty (cc : conversation) : bool :=
  is_some (original_request cc) || is_some (approach_notes cc)
  || is_some (relevant_exchanges cc) || is_some (previous_review_findings cc).

Definition conversation_truthy (o : option conversation) : bool :=
  match o with Some cc => conversation_nonempty cc | None => false end.

Definition pull_request_nonempty (pr : pull_request) : bool :=
  is_some (pr_number pr) || is_some (pr_title pr) || is_some (pr_author pr)
  || is_some (pr_head_branch pr) || is_some (pr_base_branch pr)
  || is_some (pr_additions pr) || is_some (pr_deletions pr)
  || is_some (pr_body pr).

Definition pull_request_truthy (o : option pull_request) : bool :=
  match o with Some pr => pull_request_nonempty pr | None => false end.

(** [d.get(key, dflt)] inside an f-string, for a string and an integer. *)
Definition fmt (dflt : string) (o : option string) : string :=
  match o with Some s => s | None => dflt end.

Definition fmt_int (dflt : string) (o : option Z) : string :=
  match o with Some z => pretty z | None => dflt end.

(** The parts appended for one exchange of the discussion. *)
Definition exchange_part (msg : exchange) : string :=
  let role := match ex_role msg with
              | Some r => if String.eqb r "user" then "User" else "Agent"
              | None => "Agent"
              end in
  let content := take 500 (fmt "" (ex_content msg)) in
  "- **" +:+ role +:+ ":** " +:+ content +:+ nl.

(** The first block of [build_user_message], the same in both scripts. *)
Definition developer_intent_parts (ctx : context) : list string :=
  match conversation_context ctx with
  | Some cc =>
      if conversation_nonempty cc then
        ["## Developer Intent" +:+ nl +:+ nl]
        ++ (if str_truthy (original_request cc)
            then ["**Original Request:** " +:+ fmt "" (original_request cc) +:+ nl +:+ nl]
            else [])
        ++ (if str_truthy (approach_notes cc)
            then ["**Approach Notes:** " +:+ fmt "" (approach_notes cc) +:+ nl +:+ nl]
            else [])
        ++ (match relevant_exchanges cc with
            | Some (m :: ms) =>
                ["**Relevant Discussion:**" +:+ nl]
                ++ map exchange_part (m :: ms) ++ [nl]
            | _ => []
            end)
        ++ (if str_truthy (previous_review_findings cc)
            then ["**Prior Review Notes:** " +:+ fmt "" (previous_review_findings cc)
                    +:+ nl +:+ nl]
            else [])
        ++ ["---" +:+ nl +:+ nl]
      else []
  | None => []
  end.

(** [if review_type == "plan"], with the script's placeholder text. *)
Definition plan_parts (placeholder : string) (ctx : context) (review_type : string)
  : list string :=
  if String.eqb review_type "plan" then
    ["## Plan to Review" +:+ nl; fmt placeholder (plan_content ctx); nl +:+ nl]
  else [].

Definition diff_parts (ctx : context) : list string :=
  match diff ctx with
  | Some d =>
      if truthy d then
        ["## Code Changes (Diff)" +:+ nl +:+ "```diff" +:+ nl; d;
         nl +:+ "```" +:+ nl +:+ nl]
      else []
  | None => []
  end.

(** [### path], the text inside a code fence. *)
Definition fenced_file (item : string * string) : string :=
  "### " +:+ fst item +:+ nl +:+ "```" +:+ nl +:+ snd item +:+ nl
    +:+ "```" +:+ nl +:+ nl.

(** [### path], the text as it is. *)
Definition plain_file (item : string * string) : string :=
  "### " +:+ fst item +:+ nl +:+ snd item +:+ nl +:+ nl.

Definition files_parts (header : string) (render : string * string -> string)
           (o : option (list (string * string))) : list string :=
  match o with
  | Some (f :: fs) => [header +:+ nl] ++ map render (f :: fs)
  | _ => []
  end.

Definition file_contents_parts (ctx : context) : list string :=
  files_parts "## Full File Contents" fenced_file (file_contents ctx).
Definition documentation_parts (ctx : context) : list string :=
  files_parts "## Relevant Documentation" plain_file (documentation ctx).
Definition test_files_parts (ctx : context) : list string :=
  files_parts "## Related Test Files" fenced_file (test_files ctx).
Definition dependent_files_parts (ctx : context) : list string :=
  files_parts "## Cross-File Dependencies" fenced_file (dependent_files ctx).

(** [if len(s) > max_context: s = s[:max_context] + marker] *)
Definition truncate_context (marker : string) (max_context : Z) (user_message : string)
  : string :=
  if max_context <? len user_message
  then slice_to max_context user_message +:+ marker
  else user_message.

End Ctx.

(** The optional sections of the rendered prompt, their headers, and the
    context field each one renders. *)
Inductive optional_section : Type :=
| DeveloperIntent
| PullRequestInformation
| CodeChanges
| FullFileContents
| RelevantDocumentation
| RelatedTestFiles
| CrossFileDependencies.

Definition header (s : optional_section) : string :=
  match s with
  | DeveloperIntent => "## Developer Intent"
  | PullRequestInformation => "## Pull Request Information"
  | CodeChanges => "## Code Changes (Diff)"
  | FullFileContents => "## Full File Contents"
  | RelevantDocumentation => "## Relevant Documentation"
  | RelatedTestFiles => "## Related Test Files"
  | CrossFileDependencies => "## Cross-File Dependencies"
  end.

(** The field of the section is present and not empty. *)
Definition field_present (s : optional_section) (ctx : context) : bool :=
  match s with
  | DeveloperIntent => Ctx.conversation_truthy (conversation_context ctx)
  | PullRequestInformation => Ctx.pull_request_truthy (pr_metadata ctx)
  | CodeChanges => Ctx.str_truthy (diff ctx)
  | FullFileContents => Ctx.list_truthy (file_contents ctx)
  | RelevantDocumentation => Ctx.list_truthy (documentation ctx)
  | RelatedTestFiles => Ctx.list_truthy (test_files ctx)
  | CrossFileDependencies => Ctx.list_truthy (dependent_files ctx)
  end.

(** The renderer writes the section: its field is present and not empty
    and, for the pull request block, the review is a PR review. *)
Definition emitted (s : optional_section) (ctx : context) (review_type : string) : bool :=
  field_present s ctx
  && match s with
     | PullRequestInformation => String.eqb review_type "pr"
     | _ => true
     end.

(** ** review.py: the single reviewer *)

Module Review.

Record config : Type := {
  model : string;
  enable_web_search : option bool;
  max_context : option Z;
  max_output_tokens : option Z;
  reasoning : option string
}.

Section WithPython.

(** Python's [str()] on a decoded JSON value, used by f-strings and
    [print]; [json.loads], with [None] for a [JSONDecodeError]; and the
    three system prompts, whose text plays no role here. *)
Variable py_str : json -> string.
Variable json_loads : string -> option json.
Variables PLAN_REVIEW_PROMPT CODE_REVIEW_PROMPT PR_REVIEW_PROMPT : string.

(** *** The Backoff Executor ([retry_with_backoff], lines 39-79) *)

(** The diagnostic extracted from the body of an HTTP error response. *)
Definition http_error_message (resp : response) : json :=
  let extracted :=
    let? error_body := Py.response_json resp in
    let? err := Py.get error_body "error" JNull in
    if Py.isinstance_dict err then
      let? err' := Py.get error_body "error" (JObj []) in
      Py.get err' "message" (JStr "")
    else
      let? err' := Py.get error_body "error" (JStr "") in
      Ret (JStr (py_str err')) in
  match extracted with
  | Ret msg => msg
  | Raise _ => if PyStr.truthy (text resp)
               then JStr (PyStr.take 500 (text resp))
               else JStr ""
  end.

Definition retry_note (what : string) (attempt max_retries : nat) : string :=
  what +:+ " Retrying in " +:+ pretty (backoff_wait attempt) +:+ "s... (attempt "
    +:+ pretty (attempt + 2)%nat +:+ "/" +:+ pretty max_retries +:+ ")".

(** The body of [for attempt in range(max_retries)], over the attempt
    numbers that remain. *)
Fixpoint retry_loop (func : M response) (max_retries : nat)
         (attempts : list nat) (last_error : option exn) : M response :=
  match attempts with
  | [] => raise_last last_error
  | attempt :: rest =>
      let* r := try_ func in
      match r with
      | Ret v => ret v
      | Raise e =>
          if isinstance_Timeout e then
            (if (attempt <? max_retries - 1)%nat then
               print (retry_note "Request timed out." attempt max_retries) ;;;
               sleep (backoff_wait attempt)
             else ret tt) ;;;
            retry_loop func max_retries rest (Some e)
          else if isinstance_HTTPError e then
            match exn_response e with
            | Some resp =>
                let status := status_code resp in
                let error_msg := http_error_message resp in
                (if Py.truthy error_msg then
                   eprint ("HTTP " +:+ pretty status +:+ ": " +:+ py_str error_msg)
                 else ret tt) ;;;
                if retryable_status status then
                  if (attempt <? max_retries - 1)%nat then
                    print (retry_note ("Server error (" +:+ pretty status +:+ ").")
                                      attempt max_retries) ;;;
                    sleep (backoff_wait attempt) ;;;
                    retry_loop func max_retries rest (Some e)
                  else raise e
                else raise e
            | None => raise e
            end
          else if isinstance_ConnectionError e then
            (if (attempt <? max_retries - 1)%nat then
               print (retry_note "Connection error." attempt max_retries) ;;;
               sleep (backoff_wait attempt)
             else ret tt) ;;;
            retry_loop func max_retries rest (Some e)
          else raise e
      end
  end.

Definition retry_with_backoff (func : M response) (max_retries : nat) : M response :=
  retry_loop func max_retries (seq 0 max_retries) None.

(** *** The Context Renderer ([build_user_message], lines 355-420) *)

Definition pr_parts (ctx : context) (review_type : string) : list string :=
  if String.eqb review_type "pr" then
    match pr_metadata ctx with
    | Some pr =>
        if Ctx.pull_request_nonempty pr then
          ["## Pull Request Information" +:+ PyStr.nl;
           "**PR #" +:+ Ctx.fmt_int "N/A" (pr_number pr) +:+ "**: "
             +:+ Ctx.fmt "No title" (pr_title pr) +:+ PyStr.nl;
           "**Author**: " +:+ Ctx.fmt "Unknown" (pr_author pr) +:+ PyStr.nl;
           "**Branch**: " +:+ Ctx.fmt "?" (pr_head_branch pr) +:+ " " +:+ PyStr.arrow
             +:+ " " +:+ Ctx.fmt "?" (pr_base_branch pr) +:+ PyStr.nl;
           "**Changes**: +" +:+ Ctx.fmt_int "0" (pr_additions pr) +:+ " / -"
             +:+ Ctx.fmt_int "0" (pr_deletions pr) +:+ PyStr.nl +:+ PyStr.nl]
          ++ (if Ctx.str_truthy (pr_body pr)
              then ["### PR Description" +:+ PyStr.nl; Ctx.fmt "" (pr_body pr);
                    PyStr.nl +:+ PyStr.nl]
              else [])
        else []
    | None => []
    end
  else [].

(** The list [parts] as it stands before the final join. *)
Definition build_parts (ctx : context) (review_type : string) : list string :=
  Ctx.developer_intent_parts ctx
  ++ Ctx.plan_parts "No plan content provided" ctx review_type
  ++ pr_parts ctx review_type
  ++ Ctx.diff_parts ctx
  ++ Ctx.file_contents_parts ctx
  ++ Ctx.documentation_parts ctx
  ++ Ctx.test_files_parts ctx
  ++ Ctx.dependent_files_parts ctx.

Definition build_user_message (ctx : context) (review_type : string) : string :=
  PyStr.join (build_parts ctx review_type).

Definition get_system_prompt (review_type : string) : string :=
  if String.eqb review_type "plan" then PLAN_REVIEW_PROMPT
  else if String.eqb review_type "pr" then PR_REVIEW_PROMPT
  else CODE_REVIEW_PROMPT.

Definition truncation_marker : string :=
  PyStr.nl +:+ PyStr.nl +:+ "[... truncated due to length ...]".

(** The user message as it is transmitted: the rendered prompt, cut to
    [max_context] characters when it is longer. *)
Definition user_message_for (cfg : config) (ctx : context) (review_type : string)
  : string :=
  Ctx.truncate_context truncation_marker
    (match max_context cfg with Some k => k | None => 200000 end)
    (build_user_message ctx review_type).

Definition section_parts (s : optional_section) (ctx : context) (review_type : string)
  : list string :=
  match s with
  | DeveloperIntent => Ctx.developer_intent_parts ctx
  | PullRequestInformation => pr_parts ctx review_type
  | CodeChanges => Ctx.diff_parts ctx
  | FullFileContents => Ctx.file_contents_parts ctx
  | RelevantDocumentation => Ctx.documentation_parts ctx
  | RelatedTestFiles => Ctx.test_files_parts ctx
  | CrossFileDependencies => Ctx.dependent_files_parts ctx
  end.

(** *** Extraction from a buffered response ([extract_content], lines 433-474) *)

(** [tokens > 0] *)
Definition gt0 (j : json) : py_result bool :=
  match j with
  | JNum z => Ret (0 <? z)
  | JBool b => Ret b
  | _ => Raise (mk_exn TypeError
                  ("'>' not supported between instances of '" +:+ Py.type_name j
                     +:+ "' and 'int'"))
  end.

Definition is_str (j : json) (s : string) : bool :=
  match j with JStr s' => String.eqb s' s | _ => false end.

Definition extract_content (result : json) : py_result json :=
  Py.catch
    (let? choices := Py.get result "choices" (JArr []) in
     if negb (Py.truthy choices) then
       Ret (JStr "ERROR: No choices in API response. The model may have failed to generate a response.")
     else
       let? first := Py.index0 choices in
       let? message := Py.get first "message" (JObj []) in
       let? content := Py.get message "content" (JStr "") in
       if negb (Py.truthy content) then
         let? err := Py.get result "error" JNull in
         if Py.truthy err then
           let? err' := Py.item result "error" in
           let? error_msg := Py.get err' "message" (JStr "Unknown error") in
           Ret (JStr ("ERROR: API returned error: " +:+ py_str error_msg))
         else
           let? first' := Py.index0 choices in
           let? finish := Py.get first' "finish_reason" (JStr "unknown") in
           let? usage := Py.get result "usage" (JObj []) in
           let? tokens := Py.get usage "completion_tokens" (JNum 0) in
           if is_str finish "length" then
             Ret (JStr ("ERROR: Response truncated (finish_reason=length, "
                          +:+ py_str tokens
                          +:+ " tokens). Model may have exhausted output budget on reasoning."))
           else if is_str finish "content_filter" then
             Ret (JStr "ERROR: Content blocked by safety filter (finish_reason=content_filter)")
           else
             let? _ := gt0 tokens in
             Ret (JStr "ERROR: Empty content in API response. The model returned no text.")
       else Ret content)
    (fun e => match exn_cls e with
              | IndexError | KeyError | TypeError => true
              | _ => false
              end)
    (fun e => Ret (JStr ("ERROR: Unexpected response format from API: " +:+ exn_msg e))).

(** *** The Stream Decoder (the streaming branch of [call_openrouter], lines 559-584) *)

(** [data.get('choices', [{}])[0].get('delta', {}).get('content', '')] *)
Definition delta_content (data : json) : py_result json :=
  let? choices := Py.get data "choices" (JArr [JObj []]) in
  let? first := Py.index0 choices in
  let? delta := Py.get first "delta" (JObj []) in
  Py.get delta "content" (JStr "").

(** The loop over [response.iter_lines()], carrying the fragments
    gathered so far and the number of payloads that failed to parse. *)
Fixpoint stream_loop (lines : list string) (full_content : list json)
         (malformed_count : nat) : M (list json * nat) :=
  match lines with
  | [] => ret (full_content, malformed_count)
  | line_str :: rest =>
      if PyStr.truthy line_str then
        if PyStr.startswith line_str "data: " then
          let data_str := PyStr.drop 6 line_str in
          if String.eqb (PyStr.strip data_str) "[DONE]" then
            ret (full_content, malformed_count)
          else
            match json_loads data_str with
            | Some data =>
                let* content := lift (delta_content data) in
                if Py.truthy content then
                  print (py_str content) ;;;
                  stream_loop rest (full_content ++ [content]) malformed_count
                else stream_loop rest full_content malformed_count
            | None => stream_loop rest full_content (S malformed_count)
            end
        else stream_loop rest full_content malformed_count
      else stream_loop rest full_content malformed_count
  end.

(** [''.join(full_content)]: every item has to be a [str]. *)
Fixpoint join_content (i : nat) (l : list json) : py_result string :=
  match l with
  | [] => Ret ""
  | JStr s :: l' => let? r := join_content (S i) l' in Ret (s +:+ r)
  | j :: _ => Raise (mk_exn TypeError
                       ("sequence item " +:+ pretty i +:+ ": expected str instance, "
                          +:+ Py.type_name j +:+ " found"))
  end.

Definition decode_stream (lines : list string) : M json :=
  let* acc := stream_loop lines [] 0 in
  print PyStr.nl ;;;
  (if (0 <? snd acc)%nat then
     eprint ("[WARNING] Skipped " +:+ pretty (snd acc)
               +:+ " malformed SSE chunk(s) during streaming")
   else ret tt) ;;;
  let* s := lift (join_content 0 (fst acc)) in
  ret (JStr s).

(** *** The Single Reviewer Client ([call_openrouter], lines 477-601) *)

Definition opt_default {A} (d : A) (o : option A) : A :=
  match o with Some a => a | None => d end.

Definition effective_model (cfg : config) : string :=
  if opt_default true (enable_web_search cfg) then
    if negb (PyStr.endswith (model cfg) ":online")
       && negb (PyStr.contains (model cfg) ":free")
    then model cfg +:+ ":online"
    else model cfg
  else model cfg.

Definition build_payload (cfg : config) (review_type : string) (ctx : context)
           (stream : bool) : payload :=
  let user_message := user_message_for cfg ctx review_type in
  let reasoning := opt_default "high" (reasoning cfg) in
  let with_reasoning := PyStr.truthy reasoning && negb (String.eqb reasoning "none") in
  {| p_model := effective_model cfg;
     p_system := get_system_prompt review_type;
     p_user := user_message;
     p_stream := Some stream;
     p_max_output_tokens := Some (opt_default 8192 (max_output_tokens cfg));
     p_transforms := ["middle-out"];
     p_plugins := if opt_default true (enable_web_search cfg)
                     && PyStr.contains (effective_model cfg) ":online"
                  then Some "exa" else None;
     p_provider := with_reasoning;
     p_reasoning := if with_reasoning then Some reasoning else None |}.

(** [error_detail] in the [HTTPError] handler of [call_openrouter]. *)
Definition http_error_detail (e : exn) : py_result json :=
  Py.catch
    (match exn_response e with
     | Some resp =>
         let? body := Py.response_json resp in
         let? err := Py.get body "error" (JObj []) in
         Py.get err "message" (JStr "")
     | None => Ret (JStr "")
     end)
    (fun e' => match exn_cls e' with
               | JSONDecodeError | KeyError | TypeError => true
               | _ => false
               end)
    (fun _ => Ret (JStr "")).

(** The three [except] clauses of [call_openrouter]. *)
Definition on_failure (e : exn) : py_result json :=
  if isinstance_Timeout e then
    Ret (JStr "ERROR: Request timed out after retries. The model may be overloaded. Try again later.")
  else if isinstance_HTTPError e then
    let? error_detail := http_error_detail e in
    Ret (JStr ("ERROR: API request failed: " +:+ exn_msg e +:+ PyStr.nl
                 +:+ py_str error_detail))
  else if isinstance_Exception e then
    Ret (JStr ("ERROR: Unexpected error: " +:+ exn_msg e))
  else Raise e.

Definition call_openrouter (key_source : option string)
           (script : nat -> py_result response)
           (cfg : config) (review_type : string) (ctx : context) (stream : bool)
  : M json :=
  let* api_key := get_api_key key_source in
  let payload := build_payload cfg review_type ctx stream in
  let* r := try_ (let* resp := retry_with_backoff (make_request payload script)
                                                  MAX_RETRIES in
                  if stream then decode_stream (iter_lines resp)
                  else let* result := lift (Py.response_json resp) in
                       lift (extract_content result)) in
  match r with
  | Ret v => ret v
  | Raise e => lift (on_failure e)
  end.

End WithPython.
End Review.

(** ** council.py: three reviewers in parallel *)

(** Python's [list.sort(key=...)] is stable, and the outcome of a stable
    sort is determined by the keys; a stable insertion sort stands for it. *)
Fixpoint insert_by_key {A} (key : A -> nat) (x : A) (l : list A) : list A :=
  match l with
  | [] => [x]
  | y :: l' => if (key x <=? key y)%nat then x :: y :: l'
               else y :: insert_by_key key x l'
  end.

Fixpoint sort_by_key {A} (key : A -> nat) (l : list A) : list A :=
  match l with
  | [] => []
  | x :: l' => insert_by_key key x (sort_by_key key l')
  end.

Module Council.

Record config : Type := {
  reasoning : option string;
  max_context : option Z;
  council_models : gmap string string;   (* empty when the key is absent *)
  enable_web_search : option bool
}.

(** One entry of the council configuration. *)
Record member : Type := {
  m_role : string;
  m_model : string;
  m_name : string;
  m_search_engine : option string
}.

(** The dict returned by [call_reviewer]; [tokens] is present on success
    and [error] on failure. *)
Record review : Type := {
  role : string;
  name : string;
  model : string;
  content : json;
  elapsed_ms : Z;
  tokens : option (json * json);
  error : option string
}.

Record council_result : Type := {
  reviews : list review;
  total_ms : Z;
  council_type : string
}.

Definition opt_default {A} (d : A) (o : option A) : A :=
  match o with Some a => a | None => d end.

Definition DEFAULT_COUNCIL_MODELS : gmap string string :=
  <["correctness" := "openai/gpt-5.2"]>
    (<["performance" := "google/gemini-3-pro-preview"]>
       (<["security" := "x-ai/grok-4"]> ∅)).

(** *** The Backoff Executor ([retry_with_backoff], lines 33-62) *)

Definition retry_note (role_name what : string) (attempt max_retries : nat) : string :=
  "[" +:+ role_name +:+ "] " +:+ what +:+ " Retrying in "
    +:+ pretty (backoff_wait attempt) +:+ "s... ("
    +:+ pretty (attempt + 2)%nat +:+ "/" +:+ pretty max_retries +:+ ")".

Fixpoint retry_loop (func : M response) (role_name : string) (max_retries : nat)
         (attempts : list nat) (last_error : option exn) : M response :=
  match attempts with
  | [] => raise_last last_error
  | attempt :: rest =>
      let* r := try_ func in
      match r with
      | Ret v => ret v
      | Raise e =>
          if isinstance_Timeout e then
            (if (attempt <? max_retries - 1)%nat then
               print (retry_note role_name "Timeout." attempt max_retries) ;;;
               sleep (backoff_wait attempt)
             else ret tt) ;;;
            retry_loop func role_name max_retries rest (Some e)
          else if isinstance_HTTPError e then
            match exn_response e with
            | Some resp =>
                let status := status_code resp in
                if retryable_status status then
                  if (attempt <? max_retries - 1)%nat then
                    print (retry_note role_name
                             ("Server error (" +:+ pretty status +:+ ").")
                             attempt max_retries) ;;;
                    sleep (backoff_wait attempt) ;;;
                    retry_loop func role_name max_retries rest (Some e)
                  else raise e
                else raise e
            | None => raise e
            end
          else if isinstance_ConnectionError e then
            (if (attempt <? max_retries - 1)%nat then
               print (retry_note role_name "Connection error." attempt max_retries) ;;;
               sleep (backoff_wait attempt)
             else ret tt) ;;;
            retry_loop func role_name max_retries rest (Some e)
          else raise e
      end
  end.

Definition retry_with_backoff (func : M response) (role_name : string)
           (max_retries : nat) : M response :=
  retry_loop func role_name max_retries (seq 0 max_retries) None.

(** *** The Context Renderer ([build_user_message], lines 274-338) *)

Definition pr_parts (ctx : context) (review_type : string) : list string :=
  if String.eqb review_type "pr" then
    match pr_metadata ctx with
    | Some pr =>
        if Ctx.pull_request_nonempty pr then
          ["## Pull Request Information" +:+ PyStr.nl;
           "**PR #" +:+ Ctx.fmt_int "None" (pr_number pr) +:+ "**: "
             +:+ Ctx.fmt "None" (pr_title pr) +:+ PyStr.nl;
           "**Author**: " +:+ Ctx.fmt "None" (pr_author pr) +:+ PyStr.nl;
           "**Branch**: " +:+ Ctx.fmt "None" (pr_head_branch pr) +:+ " -> "
             +:+ Ctx.fmt "None" (pr_base_branch pr) +:+ PyStr.nl;
           "**Changes**: +" +:+ Ctx.fmt_int "0" (pr_additions pr) +:+ " / -"
             +:+ Ctx.fmt_int "0" (pr_deletions pr) +:+ PyStr.nl +:+ PyStr.nl]
          ++ (if Ctx.str_truthy (pr_body pr)
              then ["### PR Description" +:+ PyStr.nl; Ctx.fmt "" (pr_body pr);
                    PyStr.nl +:+ PyStr.nl]
              else [])
        else []
    | None => []
    end
  else [].

Definition build_parts (ctx : context) (review_type : string) : list string :=
  Ctx.developer_intent_parts ctx
  ++ Ctx.plan_parts "No plan content" ctx review_type
  ++ pr_parts ctx review_type
  ++ Ctx.diff_parts ctx
  ++ Ctx.file_contents_parts ctx
  ++ Ctx.documentation_parts ctx
  ++ Ctx.test_files_parts ctx
  ++ Ctx.dependent_files_parts ctx.

Definition build_user_message (ctx : context) (review_type : string) : string :=
  PyStr.join (build_parts ctx review_type).

Definition truncation_marker : string :=
  PyStr.nl +:+ PyStr.nl +:+ "[... truncated ...]".

(** The user message handed to every reviewer: the rendered prompt, cut to
    [max_context] characters when it is longer. *)
Definition user_message_for (cfg : config) (ctx : context) (review_type : string)
  : string :=
  Ctx.truncate_context truncation_marker (opt_default 200000 (max_context cfg))
                       (build_user_message ctx review_type).

Definition section_parts (s : optional_section) (ctx : context) (review_type : string)
  : list string :=
  match s with
  | DeveloperIntent => Ctx.developer_intent_parts ctx
  | PullRequestInformation => pr_parts ctx review_type
  | CodeChanges => Ctx.diff_parts ctx
  | FullFileContents => Ctx.file_contents_parts ctx
  | RelevantDocumentation => Ctx.documentation_parts ctx
  | RelatedTestFiles => Ctx.test_files_parts ctx
  | CrossFileDependencies => Ctx.dependent_files_parts ctx
  end.

Section WithPython.

(** Python's [str()] on a decoded JSON value, and the role prompts of
    the two councils, whose text plays no role here. *)
Variable py_str : json -> string.
Variables CODE_correctness CODE_security CODE_performance : string.
Variables PLAN_design PLAN_security PLAN_scalability : string.

Definition CODE_PROMPTS : gmap string string :=
  <["correctness" := CODE_correctness]>
    (<["security" := CODE_security]>
       (<["performance" := CODE_performance]> ∅)).

Definition PLAN_PROMPTS : gmap string string :=
  <["design" := PLAN_design]>
    (<["security" := PLAN_security]>
       (<["scalability" := PLAN_scalability]> ∅)).

Definition extract_content (result : json) : py_result json :=
  Py.catch
    (let? choices := Py.get result "choices" (JArr []) in
     if negb (Py.truthy choices) then
       Ret (JStr "ERROR: No choices in API response")
     else
       let? first := Py.index0 choices in
       let? message := Py.get first "message" (JObj []) in
       let? content := Py.get message "content" (JStr "") in
       if negb (Py.truthy content) then
         let? err := Py.get result "error" JNull in
         if Py.truthy err then
           let? err' := Py.item result "error" in
           let? msg := Py.get err' "message" (JStr "Unknown error") in
           Ret (JStr ("ERROR: " +:+ py_str msg))
         else Ret (JStr "ERROR: Empty content in API response")
       else Ret content)
    (fun e => match exn_cls e with
              | IndexError | KeyError | TypeError => true
              | _ => false
              end)
    (fun e => Ret (JStr ("ERROR: Unexpected response format: " +:+ exn_msg e))).

Definition system_prompt_for (role review_type : string) : string :=
  let prompts := if String.eqb review_type "code" || String.eqb review_type "pr"
                 then CODE_PROMPTS else PLAN_PROMPTS in
  match prompts !! role with
  | Some p => p
  | None => opt_default "" (prompts !! "correctness")
  end.

Definition build_payload (role model user_message review_type reasoning : string)
           (search_engine : option string) : payload :=
  {| p_model := model;
     p_system := system_prompt_for role review_type;
     p_user := user_message;
     p_stream := None;
     p_max_output_tokens := None;
     p_transforms := [];
     p_plugins := match search_engine with
                  | Some eng => if PyStr.truthy eng then Some eng else None
                  | None => None
                  end;
     p_provider := negb (String.eqb reasoning "none");
     p_reasoning :=
       if negb (String.eqb reasoning "none")
          && (PyStr.contains (PyStr.lower model) "gpt"
              || PyStr.contains (PyStr.lower model) "o1")
       then Some reasoning else None |}.

(** One reviewer call against its own network [script] and [clock]
    ([call_reviewer], lines 366-427). *)
Definition call_reviewer (script : nat -> py_result response) (clock : nat -> Q)
           (role model name user_message review_type api_key reasoning : string)
           (search_engine : option string) : M review :=
  let payload := build_payload role model user_message review_type reasoning
                               search_engine in
  let* start := time_time clock in
  let* r := try_ (let* resp := retry_with_backoff (make_request payload script)
                                                  name MAX_RETRIES in
                  let* result := lift (Py.response_json resp) in
                  let* now := time_time clock in
                  let elapsed := elapsed_millis start now in
                  let* text := lift (extract_content result) in
                  let* usage_in := lift (Py.get result "usage" (JObj [])) in
                  let* tokens_in := lift (Py.get usage_in "prompt_tokens" (JNum 0)) in
                  let* usage_out := lift (Py.get result "usage" (JObj [])) in
                  let* tokens_out :=
                    lift (Py.get usage_out "completion_tokens" (JNum 0)) in
                  ret {| role := role; name := name; model := model;
                         content := text; elapsed_ms := elapsed;
                         tokens := Some (tokens_in, tokens_out);
                         error := None |}) in
  match r with
  | Ret v => ret v
  | Raise e =>
      if isinstance_Exception e then
        let* now := time_time clock in
        ret {| role := role; name := name; model := model;
               content := JStr ("ERROR: " +:+ exn_msg e +:+ " (after "
                                  +:+ pretty MAX_RETRIES +:+ " retries)");
               elapsed_ms := elapsed_millis start now;
               tokens := None;
               error := Some (exn_msg e) |}
      else raise e
  end.

(** *** The council ([get_council_config], lines 430-489; [run_council], lines 492-561) *)

Definition get_council_config (cfg : config) (council_type : string) : list member :=
  let models := council_models cfg ∪ DEFAULT_COUNCIL_MODELS in
  let web := opt_default false (enable_web_search cfg) in
  let model_of (key : string) : string :=
    opt_default "" (models !! key) +:+ (if web then ":online" else "") in
  let engine (e : string) : option string := if web then Some e else None in
  if String.eqb council_type "code" then
    [ {| m_role := "correctness"; m_model := model_of "correctness";
         m_name := "Correctness Expert"; m_search_engine := engine "native" |};
      {| m_role := "performance"; m_model := model_of "performance";
         m_name := "Performance Critic"; m_search_engine := engine "exa" |};
      {| m_role := "security"; m_model := model_of "security";
         m_name := "Security Analyst"; m_search_engine := engine "exa" |} ]
  else
    [ {| m_role := "design"; m_model := model_of "correctness";
         m_name := "Design Expert"; m_search_engine := engine "native" |};
      {| m_role := "scalability"; m_model := model_of "performance";
         m_name := "Scalability Analyst"; m_search_engine := engine "exa" |};
      {| m_role := "security"; m_model := model_of "security";
         m_name := "Security Architect"; m_search_engine := engine "exa" |} ].

(** [{r["role"]: i for i, r in enumerate(council)}] *)
Fixpoint role_order_from (i : nat) (council : list member) (acc : gmap string nat)
  : gmap string nat :=
  match council with
  | [] => acc
  | m :: council' => role_order_from (S i) council' (<[m_role m := i]> acc)
  end.

Definition role_order (council : list member) : gmap string nat :=
  role_order_from 0 council ∅.

(** [lambda r: role_order.get(r["role"], 99)] *)
Definition sort_key (council : list member) (r : review) : nat :=
  opt_default 99%nat (role_order council !! role r).

(** The three workers.  Each runs [call_reviewer] for its member in a
    world of its own, against the network script and the clock that [net]
    and [clocks] give for the member's role; [future.result()] hands
    back what the worker returned, or raises what it raised. *)
Definition worker (net : string -> nat -> py_result response)
           (clocks : string -> nat -> Q)
           (user_message review_type api_key reasoning : string) (m : member)
  : py_result review :=
  fst (call_reviewer (net (m_role m)) (clocks (m_role m))
                     (m_role m) (m_model m) (m_name m)
                     user_message review_type api_key reasoning
                     (m_search_engine m) world0).

(** [for future in as_completed(futures)]: the members in the order in
    which their workers finish. *)
Fixpoint collect (run : member -> py_result review) (completed : list member)
         (reviews : list review) : py_result (list review) :=
  match completed with
  | [] => Ret reviews
  | m :: rest =>
      let? result := run m in
      collect run rest (reviews ++ [result])
  end.

(** [completion] is the order in which the futures complete: the
    members of the council, each once.  The progress lines written to
    the diagnostic stream are left out. *)
Definition run_council (key_source : option string) (cfg : config)
           (net : string -> nat -> py_result response)
           (clocks : string -> nat -> Q) (main_clock : nat -> Q)
           (completion : list member)
           (ctx : context) (review_type : string) : M council_result :=
  let* api_key := get_api_key key_source in
  let reasoning := opt_default "high" (reasoning cfg) in
  let council_type := if String.eqb review_type "plan" then "plan" else "code" in
  let council := get_council_config cfg council_type in
  let user_message := user_message_for cfg ctx review_type in
  let* start := time_time main_clock in
  let* reviews :=
    lift (collect (worker net clocks user_message review_type api_key reasoning)
                  completion []) in
  let* _ := time_time main_clock in
  let reviews := sort_by_key (sort_key council) reviews in
  let* now := time_time main_clock in
  ret {| reviews := reviews;
         total_ms := elapsed_millis start now;
         council_type := council_type |}.

End WithPython.
End Council.

(** ** A reference decoder for JSON text *)

(** [Json.loads] stands for [json.loads] on the fragment of JSON without
    fractional numbers and [\u] escapes, and [Json.str] for [str()]; they
    give the sections above a concrete Python to run against. *)
Module Json.

Definition is_ws (c : ascii) : bool :=
  let n := nat_of_ascii c in
  ((n =? 32) || (n =? 9) || (n =? 10) || (n =? 13))%nat.

Fixpoint skip_ws (s : string) : string :=
  match s with
  | String c s' => if is_ws c then skip_ws s' else s
  | "" => ""
  end.

Definition digit_of (c : ascii) : option Z :=
  let n := nat_of_ascii c in
  if ((48 <=? n) && (n <=? 57))%nat then Some (Z.of_nat (n - 48)) else None.

Fixpoint parse_digits (s : string) (acc : Z) : Z * string :=
  match s with
  | String c s' =>
      match digit_of c with
      | Some d => parse_digits s' (10 * acc + d)
      | None => (acc, s)
      end
  | "" => (acc, s)
  end.

(** An integer without superfluous leading zeros. *)
Definition parse_nat_lit (s : string) : option (Z * string) :=
  match s with
  | String c s' =>
      match digit_of c with
      | Some 0 => match s' with
                  | String c' _ => match digit_of c' with
                                   | Some _ => None
                                   | None => Some (0, s')
                                   end
                  | "" => Some (0, s')
                  end
      | Some d => Some (parse_digits s' d)
      | None => None
      end
  | "" => None
  end.

Definition unescape (c : ascii) : option ascii :=
  let n := nat_of_ascii c in
  if (n =? 34)%nat then Some c               (* quote *)
  else if (n =? 92)%nat then Some c          (* backslash *)
  else if (n =? 47)%nat then Some c          (* slash *)
  else if (n =? 98)%nat then Some (ascii_of_nat 8)
  else if (n =? 102)%nat then Some (ascii_of_nat 12)
  else if (n =? 110)%nat then Some (ascii_of_nat 10)
  else if (n =? 114)%nat then Some (ascii_of_nat 13)
  else if (n =? 116)%nat then Some (ascii_of_nat 9)
  else None.

(** The characters of a string literal after its opening quote. *)
Fixpoint parse_string_body (s : string) : option (string * string) :=
  match s with
  | "" => None
  | String c s' =>
      if (nat_of_ascii c =? 34)%nat then Some ("", s')
      else if (nat_of_ascii c =? 92)%nat then
        match s' with
        | String e s'' =>
            match unescape e, parse_string_body s'' with
            | Some ch, Some (r, rest) => Some (String ch r, rest)
            | _, _ => None
            end
        | "" => None
        end
      else if (nat_of_ascii c <? 32)%nat then None
      else match parse_string_body s' with
           | Some (r, rest) => Some (String c r, rest)
           | None => None
           end
  end.

Definition keyword (kw : string) (v : json) (s : string) : option (json * string) :=
  if PyStr.startswith s kw then Some (v, PyStr.drop (String.length kw) s) else None.

Fixpoint parse_value (fuel : nat) (s : string) : option (json * string) :=
  match fuel with
  | O => None
  | S fuel' =>
      match skip_ws s with
      | "" => None
      | String c rest =>
          let n := nat_of_ascii c in
          if (n =? 123)%nat then                      (* an object *)
            match skip_ws rest with
            | String c' rest' =>
                if (nat_of_ascii c' =? 125)%nat then Some (JObj [], rest')
                else match parse_members fuel' rest with
                     | Some (kvs, r) => Some (JObj kvs, r)
                     | None => None
                     end
            | "" => None
            end
          else if (n =? 91)%nat then                  (* an array *)
            match skip_ws rest with
            | String c' rest' =>
                if (nat_of_ascii c' =? 93)%nat then Some (JArr [], rest')
                else match parse_elements fuel' rest with
                     | Some (vs, r) => Some (JArr vs, r)
                     | None => None
                     end
            | "" => None
            end
          else if (n =? 34)%nat then
            match parse_string_body rest with
            | Some (str, r) => Some (JStr str, r)
            | None => None
            end
          else if (n =? 45)%nat then                  (* a negative number *)
            match parse_nat_lit rest with
            | Some (z, r) => Some (JNum (- z), r)
            | None => None
            end
          else if (n =? 116)%nat then keyword "true" (JBool true) (String c rest)
          else if (n =? 102)%nat then keyword "false" (JBool false) (String c rest)
          else if (n =? 110)%nat then keyword "null" JNull (String c rest)
          else match parse_nat_lit (String c rest) with
               | Some (z, r) => Some (JNum z, r)
               | None => None
               end
      end
  end
with parse_elements (fuel : nat) (s : string) : option (list json * string) :=
  match fuel with
  | O => None
  | S fuel' =>
      match parse_value fuel' s with
      | Some (v, rest) =>
          match skip_ws rest with
          | String c rest' =>
              if (nat_of_ascii c =? 44)%nat then
                match parse_elements fuel' rest' with
                | Some (vs, r) => Some (v :: vs, r)
                | None => None
                end
              else if (nat_of_ascii c =? 93)%nat then Some ([v], rest')
              else None
          | "" => None
          end
      | None => None
      end
  end
with parse_members (fuel : nat) (s : string)
     : option (list (string * json) * string) :=
  match fuel with
  | O => None
  | S fuel' =>
      match skip_ws s with
      | String q rest =>
          if (nat_of_ascii q =? 34)%nat then
            match parse_string_body rest with
            | Some (key, after_key) =>
                match skip_ws after_key with
                | String colon after_colon =>
                    if (nat_of_ascii colon =? 58)%nat then
                      match parse_value fuel' after_colon with
                      | Some (v, rest') =>
                          match skip_ws rest' with
                          | String c rest'' =>
                              if (nat_of_ascii c =? 44)%nat then
                                match parse_members fuel' rest'' with
                                | Some (kvs, r) => Some ((key, v) :: kvs, r)
                                | None => None
                                end
                              else if (nat_of_ascii c =? 125)%nat
                                   then Some ([(key, v)], rest'')
                                   else None
                          | "" => None
                          end
                      | None => None
                      end
                    else None
                | "" => None
                end
            | None => None
            end
          else None
      | "" => None
      end
  end.

Definition loads (s : string) : option json :=
  match parse_value (S (String.length s)) s with
  | Some (v, rest) => match skip_ws rest with "" => Some v | _ => None end
  | None => None
  end.

(** [repr()], with a string shown between single quotes as it is. *)
Fixpoint repr (j : json) : string :=
  match j with
  | JNull => "None"
  | JBool true => "True"
  | JBool false => "False"
  | JNum z => pretty z
  | JStr s => "'" +:+ s +:+ "'"
  | JArr l =>
      "[" +:+ (fix elements (l : list json) : string :=
                 match l with
                 | [] => ""
                 | x :: l' => match l' with
                              | [] => repr x
                              | _ :: _ => repr x +:+ ", " +:+ elements l'
                              end
                 end) l +:+ "]"
  | JObj l =>
      "{" +:+ (fix members (l : list (string * json)) : string :=
                 match l with
                 | [] => ""
                 | (k, v) :: l' =>
                     match l' with
                     | [] => "'" +:+ k +:+ "': " +:+ repr v
                     | _ :: _ => "'" +:+ k +:+ "': " +:+ repr v +:+ ", " +:+ members l'
                     end
                 end) l +:+ "}"
  end.

Definition str (j : json) : string :=
  match j with
  | JStr s => s
  | _ => repr j
  end.

(** JSON text is written below with single quotes; [dq] puts the double
    quotes back. *)
Fixpoint dq (s : string) : string :=
  match s with
  | "" => ""
  | String c s' =>
      String (if (nat_of_ascii c =? 39)%nat then ascii_of_nat 34 else c) (dq s')
  end.

End Json.



(** ** Transient failures and example networks *)

(** The failures the wrapper retries: a timeout, a connection failure, and
    an HTTP error whose response carries a status [>= 500] or [429]. *)
Definition transient (e : exn) : bool :=
  isinstance_Timeout e
  || (if isinstance_HTTPError e then
        match exn_response e with
        | Some resp => retryable_status (status_code resp)
        | None => false
        end
      else isinstance_ConnectionError e).

Definition transient_failure (r : py_result response) : bool :=
  match r with
  | Ret _ => false
  | Raise e => transient e
  end.

Definition ok200 : response := http_response 200 (Some (JObj [])).

Definition script_500_500_200 : nat -> py_result response :=
  script_of [Raise (http_error (http_response 500 None));
             Raise (http_error (http_response 500 None));
             Ret ok200] (Ret ok200).

Definition script_400 : nat -> py_result response :=
  script_of [Raise (http_error (http_response 400 None))] (Ret ok200).

Definition script_always_500 : nat -> py_result response :=
  fun _ => Raise (http_error (http_response 500 None)).

Definition some_payload : payload :=
  {| p_model := "m"; p_system := ""; p_user := "u"; p_stream := None;
     p_max_output_tokens := None; p_transforms := []; p_plugins := None;
     p_provider := false; p_reasoning := None |}.

(** The attempt that settles a run over attempts [c, c+1, ..., c+n-1]:
    the first whose outcome is not a transient failure, or else the last. *)
Definition settles_at (script : nat -> py_result response) (c n k : nat) : Prop :=
  (k < n)%nat
  /\ (forall i, (i < k)%nat -> transient_failure (script (c + i)%nat) = true)
  /\ (transient_failure (script (c + k)%nat) = false \/ S k = n).

(** An HTTP error raised without a response object. *)
Definition bare_http_error (msg : string) : exn :=
  {| exn_cls := HTTPError; exn_msg := msg; exn_response := None |}.

Definition script_bare_500 : nat -> py_result response :=
  script_of [Raise (bare_http_error "500 Server Error")] (Ret ok200).

(** ** Example inputs *)

Definition ctx_diff : context :=
  {| conversation_context := None; plan_content := None; pr_metadata := None;
     diff := Some "0123456789"; file_contents := None; documentation := None;
     test_files := None; dependent_files := None |}.

Definition some_pull_request : pull_request :=
  {| pr_number := Some 42; pr_title := Some "Fix login"; pr_author := None;
     pr_head_branch := None; pr_base_branch := None; pr_additions := None;
     pr_deletions := None; pr_body := None |}.

Definition ctx_pull_request : context :=
  {| conversation_context := None; plan_content := None;
     pr_metadata := Some some_pull_request;
     diff := Some "0123456789"; file_contents := None; documentation := None;
     test_files := None; dependent_files := None |}.

Definition review_config (L : Z) : Review.config :=
  {| Review.model := "moonshotai/kimi-k2.5";
     Review.enable_web_search := Some false;
     Review.max_context := Some L;
     Review.max_output_tokens := None;
     Review.reasoning := Some "high" |}.

Definition council_config (L : Z) : Council.config :=
  {| Council.reasoning := Some "high";
     Council.max_context := Some L;
     Council.council_models := ∅;
     Council.enable_web_search := None |}.

(** ** Reading the stream line by line *)

(** What one line of the stream makes the decoder do: pass over it, stop at
    the sentinel, count a payload that does not parse, keep a fragment, or
    fail on a payload of an unexpected shape. *)
Inductive line_step : Type :=
| Skip
| Stop
| Bad
| Fragment (c : json)
| Crash (e : exn).

(** The payload of a line that carries the [data: ] prefix. *)
Definition data_payload (line : string) : option string :=
  if PyStr.truthy line && PyStr.startswith line "data: "
  then Some (PyStr.drop 6 line) else None.

Definition is_done (payload : string) : bool :=
  String.eqb (PyStr.strip payload) "[DONE]".

Definition classify (json_loads : string -> option json) (line : string) : line_step :=
  match data_payload line with
  | None => Skip
  | Some d =>
      if is_done d then Stop
      else match json_loads d with
           | None => Bad
           | Some data =>
               match Review.delta_content data with
               | Ret c => if Py.truthy c then Fragment c else Skip
               | Raise e => Crash e
               end
           end
  end.

(** The fragments a stream yields, in arrival order, after those in [acc]. *)
Fixpoint fragments_of (json_loads : string -> option json) (lines : list string)
         (acc : list json) : py_result (list json) :=
  match lines with
  | [] => Ret acc
  | line :: rest =>
      match classify json_loads line with
      | Skip | Bad => fragments_of json_loads rest acc
      | Stop => Ret acc
      | Fragment c => fragments_of json_loads rest (acc ++ [c])
      | Crash e => Raise e
      end
  end.

(** The payloads that fail to parse before the stream ends. *)
Fixpoint count_malformed (json_loads : string -> option json) (lines : list string) : nat :=
  match lines with
  | [] => 0
  | line :: rest =>
      match classify json_loads line with
      | Skip | Fragment _ => count_malformed json_loads rest
      | Bad => S (count_malformed json_loads rest)
      | Stop | Crash _ => 0
      end
  end.

(** A line whose payload is not the sentinel and fails to parse. *)
Definition malformed (json_loads : string -> option json) (line : string) : Prop :=
  exists d, data_payload line = Some d /\ is_done d = false /\ json_loads d = None.

(** Every payload of the stream, the sentinel apart, fails to parse. *)
Definition all_malformed (json_loads : string -> option json) (lines : list string) : Prop :=
  forall line d, In line lines -> data_payload line = Some d -> is_done d = false ->
                 json_loads d = None.

(** A result that reports an error to the caller. *)
Definition is_error_text (j : json) : bool :=
  match j with
  | JStr s => PyStr.startswith s "ERROR:"
  | _ => false
  end.

(** A network that answers the first request with a stream of [lines]. *)
Definition stream_response (lines : list string) : response :=
  {| status_code := 200; text := ""; json_body := None; iter_lines := lines |}.

Definition script_stream (lines : list string) : nat -> py_result response :=
  fun _ => Ret (stream_response lines).

Definition line_A : string := Json.dq "data: {'choices':[{'delta':{'content':'A'}}]}".
Definition line_B : string := Json.dq "data: {'choices':[{'delta':{'content':'B'}}]}".
Definition line_malformed : string := "data: {malformed".
Definition line_done : string := "data: [DONE]".
Definition line_empty_choices : string := Json.dq "data: {'choices': []}".
Definition line_role_only : string :=
  Json.dq "data: {'choices':[{'delta':{'role':'assistant'}}]}".
Definition line_comment : string := ": OPENROUTER PROCESSING".

(** A network that answers every request with status 400 and the JSON
    body [{"error": "Bad request"}]. *)
Definition script_400_text_error : nat -> py_result response :=
  fun _ => Raise (http_error
                    (http_response 400 (Some (JObj [("error", JStr "Bad request")])))).

(** The text a stream decodes to: its fragments, joined. *)
Definition decoded (json_loads : string -> option json) (lines : list string)
  : py_result json :=
  match fragments_of json_loads lines [] with
  | Ret f => match Review.join_content 0 f with
             | Ret s => Ret (JStr s)
             | Raise e => Raise e
             end
  | Raise e => Raise e
  end.

(** What the [try] block of [call_openrouter] comes to once attempt [k]
    has settled the retries. *)
Definition openrouter_body (py_str : json -> string) (json_loads : string -> option json)
           (outcome : py_result response) (stream : bool) : py_result json :=
  match outcome with
  | Ret resp =>
      if stream then decoded json_loads (iter_lines resp)
      else let? result := Py.response_json resp in
           Review.extract_content py_str result
  | Raise e => Raise e
  end.

(** ** Council runs *)

Definition council_type_of (review_type : string) : string :=
  if String.eqb review_type "plan" then "plan" else "code".

(** The clock never runs backwards. *)
Definition monotone_clock (clock : nat -> Q) : Prop :=
  forall i j, (i <= j)%nat -> (clock i <= clock j)%Q.

(** The network operation fails with exceptions only, never by ending
    the process. *)
Definition raises_only_exceptions (script : nat -> py_result response) : Prop :=
  forall k e, script k = Raise e -> isinstance_Exception e = true.

(** A failed member's slot: an error tag, and a content that reports it. *)
Definition error_slot (r : Council.review) : Prop :=
  exists msg, Council.error r = Some msg
              /\ Council.tokens r = None
              /\ Council.content r
                 = JStr ("ERROR: " +:+ msg +:+ " (after 3 retries)").

Definition blank_review : Council.review :=
  {| Council.role := ""; Council.name := ""; Council.model := "";
     Council.content := JNull; Council.elapsed_ms := 0;
     Council.tokens := None; Council.error := None |}.

(** The review that the worker of member [m] hands back. *)
Definition review_of (py_str : json -> string) (C1 C2 C3 C4 C5 C6 : string)
           (net : string -> nat -> py_result response) (clocks : string -> nat -> Q)
           (user_message review_type api_key reasoning : string) (m : Council.member)
  : Council.review :=
  match Council.worker py_str C1 C2 C3 C4 C5 C6 net clocks user_message review_type
                       api_key reasoning m with
  | Ret r => r
  | Raise _ => blank_review
  end.

(** A network on which the performance reviewer times out on every
    attempt and the other two are answered at once. *)
Definition answer : response :=
  http_response 200
    (Some (JObj [("choices", JArr [JObj [("message", JObj [("content", JStr "Looks fine.")])]]);
                 ("usage", JObj [("prompt_tokens", JNum 1500);
                                 ("completion_tokens", JNum 200)])])).

Definition net_one_timeout (role : string) : nat -> py_result response :=
  if String.eqb role "performance"
  then fun _ => Raise (mk_exn Timeout "Read timed out.")
  else fun _ => Ret answer.

(** A clock that advances by one second at every reading. *)
Definition ticking (role : string) (i : nat) : Q := inject_Z (Z.of_nat i).

Definition some_council : list Council.member :=
  Council.get_council_config (council_config 200000) "code".

(** The members in the order security, correctness, performance. *)
Definition some_completion : list Council.member :=
  match some_council with
  | [a; b; c] => [c; a; b]
  | l => l
  end.

(** A computation that, when it raises, raises an [Exception]. *)
Definition benign {A} (r : py_result A) : Prop :=
  match r with
  | Ret _ => True
  | Raise e => isinstance_Exception e = true
  end.

(** ** The environment: [load_dotenv] and the key look-up of [get_api_key] *)

(** [os.environ] is a finite map from names to values (as on POSIX, names
    are case-sensitive); the [.env] file is the list of its lines, or
    [None] when the file does not exist. *)
Module Env.

Definition KEY : string := "OPENROUTER_API_KEY".

(** [s.partition(sep)] for a one-character separator. *)
Fixpoint partition (sep : ascii) (s : string) : string * string * string :=
  match s with
  | "" => ("", "", "")
  | String c s' =>
      if Ascii.eqb c sep then ("", String sep "", s')
      else let '(a, m, b) := partition sep s' in (String c a, m, b)
  end.

(** [s.strip(c)] for a one-character set. *)
Fixpoint lstrip_char (c : ascii) (s : string) : string :=
  match s with
  | String x s' => if Ascii.eqb x c then lstrip_char c s' else s
  | "" => ""
  end.

Definition strip_char (c : ascii) (s : string) : string :=
  String.rev (lstrip_char c (String.rev (lstrip_char c s))).

(** [os.environ.setdefault(key, value)] *)
Definition setdefault (key value : string) (environ : gmap string string)
  : gmap string string :=
  match environ !! key with
  | Some _ => environ
  | None => <[key := value]> environ
  end.

(** The body of [for line in f]. *)
Definition load_line (environ : gmap string string) (line : string)
  : gmap string string :=
  let line := PyStr.strip line in
  if PyStr.truthy line && negb (PyStr.startswith line "#") && PyStr.contains line "="
  then
    let '(key, _, value) := partition "="%char line in
    let key := PyStr.strip key in
    let value := strip_char "'"%char (strip_char "034"%char (PyStr.strip value)) in
    if PyStr.truthy key && PyStr.truthy value
    then setdefault key value environ
    else environ
  else environ.

Definition load_dotenv (env_file : option (list string)) (environ : gmap string string)
  : gmap string string :=
  match env_file with
  | Some lines => fold_left load_line lines environ
  | None => environ
  end.

(** What [get_api_key] ends up holding in [key]: the variable of the
    environment, or, when that one is unset or empty, the variable after
    [load_dotenv()]. *)
Definition key_source (env_file : option (list string)) (environ : gmap string string)
  : option string :=
  let key := environ !! KEY in
  if negb (Ctx.str_truthy key)
  then load_dotenv env_file environ !! KEY
  else key.

End Env.

(** ** review.py: the [--model] argument *)

Module ReviewArgs.



End ReviewArgs.

(** ** list-free-models.py: the table of free models *)

Module FreeModels.

Definition THINKING_KEYWORDS : list string :=
  ["thinking"; "r1"; "o1"; "o3"; "reasoner"; "reason"; "deepthink"; "think"; "cot"].

Definition NON_THINKING_KEYWORDS : list string :=
  ["instruct"; "chat"; "fast"; "turbo"; "mini"; "lite"; "small"].

(** [is_thinking_model] (lines 31-48): each loop returns at the first
    keyword that occurs in the lower-cased id and name. *)
Definition is_thinking_model (model_id model_name : string) : string :=
  let combined := PyStr.lower (model_id +:+ " " +:+ model_name) in
  if existsb (PyStr.contains combined) THINKING_KEYWORDS then "THINKING"
  else if existsb (PyStr.contains combined) NON_THINKING_KEYWORDS then "STANDARD"
  else "UNKNOWN".

(** The tag shown for a thinking status (lines 146-151). *)
Definition tag (thinking_status : string) : string :=
  if String.eqb thinking_status "THINKING" then "THINKING"
  else if String.eqb thinking_status "STANDARD" then "standard"
  else "-".

(** [model_id if len(model_id) <= 41 else model_id[:38] + "..."] (line 154) *)
Definition display_id (model_id : string) : string :=
  if (String.length model_id <=? 41)%nat then model_id
  else PyStr.take 38 model_id +:+ "...".

Fixpoint spaces (n : nat) : string :=
  match n with
  | O => ""
  | S n' => String " "%char (spaces n')
  end.

(** The format specification [{s:<w}]: left-aligned, padded with spaces to
    [w] characters, and left as it is when longer. *)
Definition ljust (w : nat) (s : string) : string :=
  s +:+ spaces (w - String.length s).

(** The Model ID and Type columns of a table row (line 156). *)
Definition id_column (model_id : string) : string := ljust 43 (display_id model_id).

Definition type_column (model_id model_name : string) : string :=
  ljust 10 (tag (is_thinking_model model_id model_name)).

End FreeModels.

(** ** Contexts that differ in one field *)

(** The context [ctx] with its [plan_content] replaced. *)
Definition with_plan_content (ctx : context) (plan : option string) : context :=
  {| conversation_context := conversation_context ctx;
     plan_content := plan;
     pr_metadata := pr_metadata ctx;
     diff := diff ctx;
     file_contents := file_contents ctx;
     documentation := documentation ctx;
     test_files := test_files ctx;
     dependent_files := dependent_files ctx |}.

(** A context whose discussion holds one long answer of the agent. *)
Definition long_answer : exchange :=
  {| ex_role := Some "assistant";
     ex_content := Some (PyStr.join (repeat "0123456789" 60)) |}.

Definition ctx_discussion : context :=
  {| conversation_context :=
       Some {| original_request := Some "Add a login form";
               approach_notes := None;
               relevant_exchanges := Some [long_answer];
               previous_review_findings := None |};
     plan_content := None; pr_metadata := None;
     diff := Some "0123456789"; file_contents := None; documentation := None;
     test_files := None; dependent_files := None |}.

(** ** Outcomes of the look-ups on a decoded response *)

(** The exceptions that [.get], [[0]], [[key]] and [> 0] raise on a decoded
    value of the wrong type or shape. *)
Definition lookup_error (e : exn) : bool :=
  match exn_cls e with
  | AttributeError | IndexError | KeyError | TypeError => true
  | _ => false
  end.

(** A step that yields a value or fails with a look-up error. *)
Definition lookup_step {A} (r : py_result A) : Prop :=
  match r with
  | Ret _ => True
  | Raise e => lookup_error e = true
  end.

(** A step that yields a value that is true, or fails with a look-up error. *)
Definition true_or_lookup_error (r : py_result json) : Prop :=
  match r with
  | Ret v => Py.truthy v = true
  | Raise e => lookup_error e = true
  end.

(** The body of the response attached to a failure can be read for its
    diagnostic: the failure is not an HTTP error, or it carries no
    response, or the body is not JSON, or the body is an object whose
    [error] entry is absent or an object. *)
Definition detail_readable (e : exn) : bool :=
  isinstance_Timeout e
  || negb (isinstance_HTTPError e)
  || match exn_response e with
     | None => true
     | Some resp =>
         match json_body resp with
         | None => true
         | Some (JObj d) =>
             match Py.dict_lookup "error" d with
             | None | Some (JObj _) => true
             | Some _ => false
             end
         | Some _ => false
         end
     end.

(** The diagnostic read from such a body: the [message] of its [error]
    object, and the empty string when there is none. *)
Definition readable_detail (e : exn) : json :=
  match exn_response e with
  | Some resp =>
      match json_body resp with
      | Some (JObj d) =>
          match Py.dict_lookup "error" d with
          | Some (JObj err) =>
              match Py.dict_lookup "message" err with
              | Some msg => msg
              | None => JStr ""
              end
          | _ => JStr ""
          end
      | _ => JStr ""
      end
  | None => JStr ""
  end.

(** A buffered answer whose body is the JSON object [body]. *)
Definition buffered (body : list (string * json)) : response :=
  http_response 200 (Some (JObj body)).

(** A network that fails twice with status 503 and then answers with
    [answer]. *)
Definition script_503_503_answer : nat -> py_result response :=
  script_of [Raise (http_error (http_response 503 None));
             Raise (http_error (http_response 503 None))] (Ret answer).

(** A network that answers every request with status 401 and the JSON
    body [{"error": {"message": "No auth credentials found"}}]. *)
Definition script_401 : nat -> py_result response :=
  fun _ => Raise (http_error
                    (http_response 401
                       (Some (JObj [("error",
                                     JObj [("message",
                                            JStr "No auth credentials found")])])))).

(** The configuration [cfg] after [config["model"] = m]. *)
Definition with_model (cfg : Review.config) (m : string) : Review.config :=
  {| Review.model := m;
     Review.enable_web_search := Review.enable_web_search cfg;
     Review.max_context := Review.max_context cfg;
     Review.max_output_tokens := Review.max_output_tokens cfg;
     Review.reasoning := Review.reasoning cfg |}.

(** [config.get("enable_web_search", True)] of review.py. *)
Definition web_search (cfg : Review.config) : bool :=
  Review.opt_default true (Review.enable_web_search cfg).

(** ** Shapes of the lines of a [.env] file *)










(** ** Council configurations and reviewer answers *)

(** The configuration [cfg] after [council_models[role] = model]. *)
Definition with_council_model (cfg : Council.config) (role model : string)
  : Council.config :=
  {| Council.reasoning := Council.reasoning cfg;
     Council.max_context := Council.max_context cfg;
     Council.council_models := <[role := model]> (Council.council_models cfg);
     Council.enable_web_search := Council.enable_web_search cfg |}.

(** The three entries of [council_models] that [get_council_config] reads. *)
Definition council_keys_read : list string := ["correctness"; "performance"; "security"].

(** The model configured under [key]: the entry of [council_models], or
    the default of that key. *)
Definition configured_model (cfg : Council.config) (key : string) : string :=
  Council.opt_default (Council.opt_default "" (Council.DEFAULT_COUNCIL_MODELS !! key))
                      (Council.council_models cfg !! key).

(** [config.get("enable_web_search", False)] of council.py. *)
Definition council_web_search (cfg : Council.config) : bool :=
  Council.opt_default false (Council.enable_web_search cfg).

(** The review types that the command line accepts. *)
Definition cli_review_type (review_type : string) : bool :=
  String.eqb review_type "plan" || String.eqb review_type "code"
  || String.eqb review_type "pr".




(** The second member of the default code council. *)
Definition performance_critic : Council.member :=
  {| Council.m_role := "performance";
     Council.m_model := "google/gemini-3-pro-preview";
     Council.m_name := "Performance Critic";
     Council.m_search_engine := None |}.

(** ** Well-formed streams *)

(** A chunk of a stream, as the pair of its payload text and of the text
    fragment it carries: the payload is not the sentinel, it parses, and
    its first choice holds a delta with the fragment, which is not empty,
    as content. *)
Definition chunk_carries (json_loads : string -> option json) (chunk : string * string)
  : Prop :=
  is_done (fst chunk) = false
  /\ PyStr.truthy (snd chunk) = true
  /\ exists data, json_loads (fst chunk) = Some data
                  /\ Review.delta_content data = Ret (JStr (snd chunk)).

(** The line of the stream that carries a payload. *)
Definition data_line (payload : string) : string := "data: " +:+ payload.

(** The stream ends with its last chunk or with the sentinel, after which
    anything may follow. *)
Definition stream_end (tail : list string) : Prop :=
  tail = [] \/ exists after, tail = data_line "[DONE]" :: after.

(** A network that answers with a stream of three chunks and the sentinel. *)
Definition script_three_chunks : nat -> py_result response :=
  script_stream
    [data_line (Json.dq "{'choices':[{'delta':{'content':'First'}}]}");
     data_line (Json.dq "{'choices':[{'delta':{'content':' Second'}}]}");
     data_line (Json.dq "{'choices':[{'delta':{'content':' Third'}}]}");
     data_line "[DONE]"].

(** A network that answers with a buffered body whose first choice has
    an empty content. *)
Definition script_empty_content : nat -> py_result response :=
  fun _ => Ret (buffered [("choices",
                           JArr [JObj [("message", JObj [("content", JStr "")])]])]).


(** * Properties *)

(** ** Running the monad *)

Ltac run_step :=
  unfold bind, try_, ret, raise, lift, print, eprint, sleep, make_request,
    time_time, raise_last, calls in *; cbn [fst snd sent ticks sleeps stdout stderr] in *.

Ltac settle_run :=
  eexists; repeat split; cbn; rewrite ?length_app, ?app_nil_r; cbn; try lia; reflexivity.

(** ** The Backoff Executor *)

Lemma transient_cases e :
  transient e = false ->
  isinstance_Timeout e = false
  /\ (isinstance_HTTPError e = true ->
      match exn_response e with
      | Some resp => retryable_status (status_code resp) = false
      | None => True
      end)
  /\ (isinstance_HTTPError e = false -> isinstance_ConnectionError e = false).
Proof.
  unfold transient. intros H.
  destruct (isinstance_Timeout e); [discriminate|]. cbn in H.
  split; [reflexivity|]. destruct (isinstance_HTTPError e).
  - split; [|discriminate]. intros _. destruct (exn_response e); [assumption|exact I].
  - split; [discriminate|]. intros _. assumption.
Qed.

Section RetryRuns.

Variable p : payload.
Variable script : nat -> py_result response.

Lemma council_retry_loop_run role_name k :
  forall n c last w,
    length (sent w) = c ->
    settles_at script c n k ->
    exists w',
      Council.retry_loop (make_request p script) role_name (c + n) (seq c n) last w
      = (script (c + k)%nat, w')
      /\ length (sent w') = S (c + k)
      /\ sleeps w' = (sleeps w ++ map backoff_wait (seq c k))%list
      /\ sent w' = (sent w ++ repeat p (S k))%list
/\ ticks w' = ticks w.
Proof.
  induction k as [|k IH]; intros n c last w Hc (Hk & Hpre & Hlast).
  - destruct n as [|n]; [lia|]. cbn [seq Council.retry_loop].
    run_step. rewrite Hc, Nat.add_0_r in *.
    destruct (script c) as [v|e] eqn:Hs.
    + settle_run.
    + cbn in Hlast. destruct Hlast as [Hnt|Hn].
      * destruct (transient_cases e Hnt) as (HT & HH & HC). rewrite HT.
        destruct (isinstance_HTTPError e) eqn:EH.
        -- specialize (HH eq_refl). destruct (exn_response e) as [resp|].
           ++ rewrite HH. settle_run.
           ++ settle_run.
        -- rewrite (HC eq_refl).
           settle_run.
      * assert (n = 0)%nat by lia. subst n.
        replace (c <? c + 1 - 1)%nat with false by (symmetry; apply Nat.ltb_ge; lia).
        cbn [seq Council.retry_loop].
        destruct (isinstance_Timeout e).
        { run_step. settle_run. }
        destruct (isinstance_HTTPError e).
        { destruct (exn_response e) as [resp|];
            [destruct (retryable_status (status_code resp))|];
            settle_run. }
        destruct (isinstance_ConnectionError e).
        { run_step. settle_run. }
        settle_run.
  - destruct n as [|n]; [lia|].
    assert (Hc0 : transient_failure (script c) = true).
    { specialize (Hpre 0%nat). rewrite Nat.add_0_r in Hpre. apply Hpre. lia. }
    cbn [seq Council.retry_loop]. run_step. rewrite Hc.
    destruct (script c) as [v|e] eqn:Hs; [discriminate|]. cbn in Hc0.
    replace (c <? c + S n - 1)%nat with true by (symmetry; apply Nat.ltb_lt; lia).
    set (w1 := {| sent := (sent w ++ [p])%list; ticks := ticks w; sleeps := sleeps w;
                  stdout := stdout w; stderr := stderr w |}).
    assert (Hrec : forall what,
               exists w',
                 Council.retry_loop (make_request p script) role_name (c + S n)
                   (seq (S c) n) (Some e)
                   {| sent := sent w1; ticks := ticks w1;
                      sleeps := (sleeps w1 ++ [backoff_wait c])%list;
                      stdout := (stdout w1 ++ [what])%list; stderr := stderr w1 |}
                 = (script (c + S k)%nat, w')
                 /\ length (sent w') = S (c + S k)
                 /\ sleeps w' = (sleeps w ++ map backoff_wait (seq c (S k)))%list
                 /\ sent w' = (sent w ++ repeat p (S (S k)))%list
/\ ticks w' = ticks w).
    { intros what.
      destruct (IH n (S c) (Some e)
                  {| sent := sent w1; ticks := ticks w1;
                     sleeps := (sleeps w1 ++ [backoff_wait c])%list;
                     stdout := (stdout w1 ++ [what])%list; stderr := stderr w1 |})
        as (w' & E & L & Sl & Se & Ti).
      - cbn. rewrite length_app. cbn. lia.
      - split; [lia|]. split.
        + intros i Hi. replace (S c + i)%nat with (c + S i)%nat by lia.
          apply Hpre. lia.
        + replace (S c + k)%nat with (c + S k)%nat by lia.
          destruct Hlast; [left; assumption|right; lia].
      - exists w'. replace (S c + n)%nat with (c + S n)%nat in E by lia.
        replace (S c + k)%nat with (c + S k)%nat in E, L by lia.
        repeat split; [exact E|exact L| | |exact Ti].
        + rewrite Sl. cbn. rewrite <- app_assoc. reflexivity.
        + rewrite Se. cbn. rewrite <- app_assoc. reflexivity. }
    unfold transient in Hc0.
    destruct (isinstance_Timeout e); [apply Hrec|].
    cbn in Hc0. destruct (isinstance_HTTPError e).
    + destruct (exn_response e) as [resp|]; [|discriminate].
      rewrite Hc0. apply Hrec.
    + rewrite Hc0. apply Hrec.
Qed.

Lemma review_retry_loop_run py_str k :
  forall n c last w,
    length (sent w) = c ->
    settles_at script c n k ->
    exists w',
      Review.retry_loop py_str (make_request p script) (c + n) (seq c n) last w
      = (script (c + k)%nat, w')
      /\ length (sent w') = S (c + k)
      /\ sleeps w' = (sleeps w ++ map backoff_wait (seq c k))%list
      /\ sent w' = (sent w ++ repeat p (S k))%list
/\ ticks w' = ticks w.
Proof.
  induction k as [|k IH]; intros n c last w Hc (Hk & Hpre & Hlast).
  - destruct n as [|n]; [lia|]. cbn [seq Review.retry_loop].
    run_step. rewrite Hc, Nat.add_0_r in *.
    destruct (script c) as [v|e] eqn:Hs.
    + settle_run.
    + cbn in Hlast. destruct Hlast as [Hnt|Hn].
      * destruct (transient_cases e Hnt) as (HT & HH & HC). rewrite HT.
        destruct (isinstance_HTTPError e) eqn:EH.
        -- specialize (HH eq_refl). destruct (exn_response e) as [resp|].
           ++ rewrite HH.
              destruct (Py.truthy (Review.http_error_message py_str resp)); settle_run.
           ++ settle_run.
        -- rewrite (HC eq_refl). settle_run.
      * assert (n = 0)%nat by lia. subst n.
        replace (c <? c + 1 - 1)%nat with false by (symmetry; apply Nat.ltb_ge; lia).
        cbn [seq Review.retry_loop].
        destruct (isinstance_Timeout e).
        { run_step. settle_run. }
        destruct (isinstance_HTTPError e).
        { destruct (exn_response e) as [resp|];
            [destruct (Py.truthy (Review.http_error_message py_str resp));
             destruct (retryable_status (status_code resp))|];
            settle_run. }
        destruct (isinstance_ConnectionError e).
        { run_step. settle_run. }
        settle_run.
  - destruct n as [|n]; [lia|].
    assert (Hc0 : transient_failure (script c) = true).
    { specialize (Hpre 0%nat). rewrite Nat.add_0_r in Hpre. apply Hpre. lia. }
    cbn [seq Review.retry_loop]. run_step. rewrite Hc.
    destruct (script c) as [v|e] eqn:Hs; [discriminate|]. cbn in Hc0.
    replace (c <? c + S n - 1)%nat with true by (symmetry; apply Nat.ltb_lt; lia).
    assert (Hrec : forall w2,
               sent w2 = (sent w ++ [p])%list ->
               sleeps w2 = (sleeps w ++ [backoff_wait c])%list ->
               ticks w2 = ticks w ->
               exists w',
                 Review.retry_loop py_str (make_request p script) (c + S n)
                   (seq (S c) n) (Some e) w2
                 = (script (c + S k)%nat, w')
                 /\ length (sent w') = S (c + S k)
                 /\ sleeps w' = (sleeps w ++ map backoff_wait (seq c (S k)))%list
                 /\ sent w' = (sent w ++ repeat p (S (S k)))%list
/\ ticks w' = ticks w).
    { intros w2 Hsent Hsleeps Hticks.
      destruct (IH n (S c) (Some e) w2) as (w' & E & L & Sl & Se & Ti).
      - rewrite Hsent, length_app. cbn. lia.
      - split; [lia|]. split.
        + intros i Hi. replace (S c + i)%nat with (c + S i)%nat by lia.
          apply Hpre. lia.
        + replace (S c + k)%nat with (c + S k)%nat by lia.
          destruct Hlast; [left; assumption|right; lia].
      - exists w'. replace (S c + n)%nat with (c + S n)%nat in E by lia.
        replace (S c + k)%nat with (c + S k)%nat in E, L by lia.
        repeat split; [exact E|exact L| | |rewrite Ti; exact Hticks].
        + rewrite Sl, Hsleeps. cbn. rewrite <- app_assoc. reflexivity.
        + rewrite Se, Hsent. cbn. rewrite <- app_assoc. reflexivity. }
    unfold transient in Hc0.
    destruct (isinstance_Timeout e); [apply Hrec; reflexivity|].
    cbn in Hc0. destruct (isinstance_HTTPError e).
    + destruct (exn_response e) as [resp|]; [|discriminate].
      rewrite Hc0.
      destruct (Py.truthy (Review.http_error_message py_str resp));
        apply Hrec; reflexivity.
    + rewrite Hc0. apply Hrec; reflexivity.
Qed.

End RetryRuns.

(** Every run over at least one attempt is settled by some attempt. *)
Lemma settles_exists script :
  forall n c, (0 < n)%nat -> exists k, settles_at script c n k.
Proof.
  induction n as [|n IH]; intros c Hn; [lia|].
  destruct n as [|n].
  - exists 0%nat. repeat split; [lia| |right; reflexivity]. intros i Hi. lia.
  - destruct (transient_failure (script c)) eqn:Hc.
    + destruct (IH (S c)) as (k & Hk & Hpre & Hlast); [lia|].
      exists (S k). split; [lia|]. split.
      * intros [|i] Hi.
        -- rewrite Nat.add_0_r. exact Hc.
        -- replace (c + S i)%nat with (S c + i)%nat by lia. apply Hpre. lia.
      * replace (c + S k)%nat with (S c + k)%nat by lia.
        destruct Hlast; [left; assumption|right; lia].
    + exists 0%nat. split; [lia|]. split; [intros i Hi; lia|].
      left. rewrite Nat.add_0_r. exact Hc.
Qed.

Lemma review_retry_run py_str p script max k w :
  sent w = [] ->
  settles_at script 0 max k ->
  exists w',
    Review.retry_with_backoff py_str (make_request p script) max w = (script k, w')
    /\ calls w' = S k
    /\ sleeps w' = (sleeps w ++ map backoff_wait (seq 0 k))%list
    /\ sent w' = repeat p (S k)
    /\ ticks w' = ticks w.
Proof.
  intros Hw Hs. unfold Review.retry_with_backoff.
  destruct (review_retry_loop_run p script py_str k max 0%nat None w)
    as (w' & E & L & Sl & Se & Ti); [rewrite Hw; reflexivity|exact Hs|].
  exists w'. cbn in E, L. unfold calls. rewrite Hw in Se. cbn in Se.
  repeat split; assumption.
Qed.

Lemma council_retry_run p script role_name max k w :
  sent w = [] ->
  settles_at script 0 max k ->
  exists w',
    Council.retry_with_backoff (make_request p script) role_name max w = (script k, w')
    /\ calls w' = S k
    /\ sleeps w' = (sleeps w ++ map backoff_wait (seq 0 k))%list
    /\ sent w' = repeat p (S k)
    /\ ticks w' = ticks w.
Proof.
  intros Hw Hs. unfold Council.retry_with_backoff.
  destruct (council_retry_loop_run p script role_name k max 0%nat None w)
    as (w' & E & L & Sl & Se & Ti); [rewrite Hw; reflexivity|exact Hs|].
  exists w'. cbn in E, L. unfold calls. rewrite Hw in Se. cbn in Se.
  repeat split; assumption.
Qed.

Lemma settles_500_500_200 : settles_at script_500_500_200 0 MAX_RETRIES 2.
Proof.
  split; [unfold MAX_RETRIES; lia|]. split; [|left; reflexivity].
  intros [|[|i]] Hi; [reflexivity|reflexivity|lia].
Qed.

Lemma settles_400 : settles_at script_400 0 MAX_RETRIES 0.
Proof.
  split; [unfold MAX_RETRIES; lia|]. split; [intros i Hi; lia|left; reflexivity].
Qed.

Lemma settles_always_500 : settles_at script_always_500 0 MAX_RETRIES 2.
Proof.
  split; [unfold MAX_RETRIES; lia|]. split; [|right; reflexivity].
  intros i Hi. reflexivity.
Qed.

(** C3.  [retry_with_backoff], in review.py and in council.py alike, goes
    on to the next attempt only after a transient failure (timeout,
    connection failure, HTTP status [>= 500] or [429]) and makes at most
    [max_retries] attempts.  The run is settled by attempt [k], the first
    whose outcome is not a transient failure or else the last one: exactly
    [k + 1] requests are made and the outcome of attempt [k] is the outcome
    of the run, so a success is returned, any other error propagates at
    once, and after the last attempt the last failure is raised again.
    Every run is settled by some attempt.  With the default of 3 attempts,
    500, 500, success makes 3 requests and returns the success, and 400
    makes 1 request and raises that error. *)
Theorem retry_with_backoff_attempts :
  forall (py_str : json -> string) (p : payload) (role_name : string),
    (forall script max k,
        settles_at script 0 max k ->
        (S k <= max)%nat
        /\ (exists w', Review.retry_with_backoff py_str (make_request p script) max world0
                       = (script k, w') /\ calls w' = S k)
        /\ (exists w', Council.retry_with_backoff (make_request p script) role_name max
                         world0
                       = (script k, w') /\ calls w' = S k))
    /\ (forall script max, (0 < max)%nat -> exists k, settles_at script 0 max k)
    /\ (exists w', Review.retry_with_backoff py_str (make_request p script_500_500_200)
                     MAX_RETRIES world0 = (Ret ok200, w') /\ calls w' = 3%nat)
    /\ (exists w', Council.retry_with_backoff (make_request p script_500_500_200)
                     role_name MAX_RETRIES world0 = (Ret ok200, w') /\ calls w' = 3%nat)
    /\ (exists w', Review.retry_with_backoff py_str (make_request p script_400)
                     MAX_RETRIES world0
                   = (Raise (http_error (http_response 400 None)), w')
                   /\ calls w' = 1%nat)
    /\ (exists w', Council.retry_with_backoff (make_request p script_400)
                     role_name MAX_RETRIES world0
                   = (Raise (http_error (http_response 400 None)), w')
                   /\ calls w' = 1%nat).
Proof.
  intros py_str p role_name.
  assert (G : forall script max k,
             settles_at script 0 max k ->
             (S k <= max)%nat
             /\ (exists w', Review.retry_with_backoff py_str (make_request p script) max
                              world0 = (script k, w') /\ calls w' = S k)
             /\ (exists w', Council.retry_with_backoff (make_request p script) role_name
                              max world0 = (script k, w') /\ calls w' = S k)).
  { intros script max k Hs. split; [destruct Hs; lia|]. split.
    - destruct (review_retry_run py_str p script max k world0 eq_refl Hs)
        as (w' & E & C & _). exists w'. split; assumption.
    - destruct (council_retry_run p script role_name max k world0 eq_refl Hs)
        as (w' & E & C & _). exists w'. split; assumption. }
  split; [exact G|]. split; [intros script max Hmax; apply settles_exists; exact Hmax|].
  destruct (G _ _ _ settles_500_500_200) as (_ & R5 & C5).
  destruct (G _ _ _ settles_400) as (_ & R4 & C4).
  repeat split; assumption.
Qed.

Lemma retry_with_backoff_attempts_witness :
  settles_at script_always_500 0 MAX_RETRIES 2
  /\ (exists w', Review.retry_with_backoff Json.str
                   (make_request some_payload script_always_500) MAX_RETRIES world0
                 = (script_always_500 2%nat, w') /\ calls w' = 3%nat).
Proof.
  split.
  - exact settles_always_500.
  - exact (proj1 (proj2 (proj1 (retry_with_backoff_attempts Json.str some_payload "Reviewer")
                           script_always_500 MAX_RETRIES 2%nat settles_always_500))).
Defined.

(** C4, as the claim states it, fails: a fully retried run with the
    defaults sleeps twice, 2 then 4; there is no third wait of 8. *)
Lemma backoff_waits_counterexample :
  sleeps (snd (Review.retry_with_backoff Json.str
                 (make_request some_payload script_always_500) MAX_RETRIES world0))
  = [2; 4]
  /\ sleeps (snd (Council.retry_with_backoff
                    (make_request some_payload script_always_500) "Reviewer"
                    MAX_RETRIES world0))
     = [2; 4]
  /\ sleeps (snd (Review.retry_with_backoff Json.str
                    (make_request some_payload script_always_500) MAX_RETRIES world0))
     <> [2; 4; 8].
Proof.
  repeat split; try reflexivity. vm_compute. discriminate.
Qed.

(** C4, amended.  Before the retry that follows failed attempt [a]
    (counted from 0) the wrapper sleeps [INITIAL_BACKOFF_SECONDS * 2 ^ a];
    nothing is slept after the attempt that settles the run.  A run
    settled by attempt [k] therefore sleeps [k] times, [k] being less
    than [max_retries], and with the defaults a fully retried run sleeps
    2 and then 4. *)
Theorem backoff_waits :
  forall (py_str : json -> string) (p : payload) (role_name : string)
         script max k,
    settles_at script 0 max k ->
    sleeps (snd (Review.retry_with_backoff py_str (make_request p script) max world0))
    = map (fun a => INITIAL_BACKOFF_SECONDS * 2 ^ Z.of_nat a) (seq 0 k)
    /\ sleeps (snd (Council.retry_with_backoff (make_request p script) role_name max
                      world0))
       = map (fun a => INITIAL_BACKOFF_SECONDS * 2 ^ Z.of_nat a) (seq 0 k)
    /\ (k < max)%nat
    /\ (max = MAX_RETRIES -> k = 2%nat ->
        sleeps (snd (Review.retry_with_backoff py_str (make_request p script) max world0))
        = [2; 4]).
Proof.
  intros py_str p role_name script max k Hs.
  destruct (review_retry_run py_str p script max k world0 eq_refl Hs)
    as (w1 & E1 & _ & S1 & _).
  destruct (council_retry_run p script role_name max k world0 eq_refl Hs)
    as (w2 & E2 & _ & S2 & _).
  rewrite E1, E2. cbn [snd]. rewrite S1, S2. cbn [sleeps world0 app].
  repeat split; try reflexivity.
  - destruct Hs; assumption.
  - intros _ ->. reflexivity.
Qed.

Lemma backoff_waits_witness :
  settles_at script_always_500 0 MAX_RETRIES 2
  /\ sleeps (snd (Review.retry_with_backoff Json.str
                    (make_request some_payload script_always_500) MAX_RETRIES world0))
     = [2; 4].
Proof.
  split.
  - exact settles_always_500.
  - exact (proj2 (proj2 (proj2 (backoff_waits Json.str some_payload "Reviewer"
                                  script_always_500 MAX_RETRIES 2%nat settles_always_500)))
             eq_refl eq_refl).
Defined.

(** C10.  An HTTP error that carries no response object is not transient:
    at the attempt where it first occurs [retry_with_backoff] raises it
    again at once, with no further request and no sleep after it, in both
    scripts; the same error carrying a response with status [>= 500] or
    [429] is a transient failure and is retried. *)
Theorem http_error_without_response_propagates :
  forall (py_str : json -> string) (p : payload) (role_name : string)
         script max k e,
    (k < max)%nat ->
    (forall i, (i < k)%nat -> transient_failure (script i) = true) ->
    script k = Raise e ->
    isinstance_HTTPError e = true ->
    exn_response e = None ->
    (exists w', Review.retry_with_backoff py_str (make_request p script) max world0
                = (Raise e, w')
                /\ calls w' = S k /\ sleeps w' = map backoff_wait (seq 0 k))
    /\ (exists w', Council.retry_with_backoff (make_request p script) role_name max world0
                   = (Raise e, w')
                   /\ calls w' = S k /\ sleeps w' = map backoff_wait (seq 0 k))
    /\ transient e = false
    /\ (forall resp, retryable_status (status_code resp) = true ->
                     transient {| exn_cls := exn_cls e; exn_msg := exn_msg e;
                                  exn_response := Some resp |} = true).
Proof.
  intros py_str p role_name script max k e Hk Hpre Hsk HH Hnone.
  assert (Hnt : transient e = false).
  { unfold transient, isinstance_Timeout, isinstance_ConnectionError,
      isinstance_HTTPError in *.
    rewrite Hnone. destruct (exn_cls e); try discriminate. reflexivity. }
  assert (Hs : settles_at script 0 max k).
  { split; [exact Hk|]. split; [exact Hpre|]. left. cbn. rewrite Hsk. exact Hnt. }
  destruct (review_retry_run py_str p script max k world0 eq_refl Hs)
    as (w1 & E1 & C1 & S1 & _).
  destruct (council_retry_run p script role_name max k world0 eq_refl Hs)
    as (w2 & E2 & C2 & S2 & _).
  rewrite Hsk in E1, E2. repeat split.
  - exists w1. repeat split; assumption.
  - exists w2. repeat split; assumption.
  - exact Hnt.
  - intros resp Hr. unfold transient, isinstance_Timeout, isinstance_ConnectionError,
      isinstance_HTTPError in *. cbn.
    destruct (exn_cls e); try discriminate. cbn. exact Hr.
Qed.

Lemma http_error_without_response_propagates_witness :
  (0 < MAX_RETRIES)%nat
  /\ script_bare_500 0%nat = Raise (bare_http_error "500 Server Error")
  /\ exists w', Review.retry_with_backoff Json.str
                  (make_request some_payload script_bare_500) MAX_RETRIES world0
                = (Raise (bare_http_error "500 Server Error"), w')
                /\ calls w' = 1%nat /\ sleeps w' = [].
Proof.
  split; [unfold MAX_RETRIES; lia|]. split; [reflexivity|].
  refine (proj1 (http_error_without_response_propagates Json.str some_payload "Reviewer"
                   script_bare_500 MAX_RETRIES 0%nat (bare_http_error "500 Server Error")
                   _ _ eq_refl eq_refl eq_refl)).
  - unfold MAX_RETRIES; lia.
  - intros i Hi. lia.
Defined.

(** ** Strings *)

Lemma str_app_cons (x : ascii) (a b : string) :
  String x a +:+ b = String x (a +:+ b).
Proof. reflexivity. Qed.

Lemma str_app_nil_l (a : string) : "" +:+ a = a.
Proof. reflexivity. Qed.

Lemma str_app_assoc (a b c : string) : (a +:+ b) +:+ c = a +:+ (b +:+ c).
Proof.
  induction a as [|x a IH]; [reflexivity|].
  rewrite !str_app_cons, IH. reflexivity.
Qed.

Lemma str_app_nil_r (a : string) : a +:+ "" = a.
Proof.
  induction a as [|x a IH]; [reflexivity|]. rewrite str_app_cons, IH. reflexivity.
Qed.

Lemma str_length_app (a b : string) :
  String.length (a +:+ b) = (String.length a + String.length b)%nat.
Proof.
  induction a as [|x a IH]; [reflexivity|].
  rewrite str_app_cons. cbn [String.length]. rewrite IH. reflexivity.
Qed.

Lemma take_length (n : nat) (s : string) :
  (n <= String.length s)%nat -> String.length (PyStr.take n s) = n.
Proof.
  revert s. induction n as [|n IH]; intros s Hn; [destruct s; reflexivity|].
  destruct s as [|c s]; cbn in *; [lia|]. rewrite IH; [reflexivity|lia].
Qed.

Lemma take_all (n : nat) (s : string) :
  (String.length s <= n)%nat -> PyStr.take n s = s.
Proof.
  revert s. induction n as [|n IH]; intros s Hn.
  - destruct s; cbn in *; [reflexivity|lia].
  - destruct s as [|c s]; cbn in *; [reflexivity|]. rewrite IH; [reflexivity|lia].
Qed.

Lemma rev_app_acc (s acc : string) :
  String.rev_app s acc = String.rev_app s "" +:+ acc.
Proof.
  revert acc. induction s as [|c s IH]; intros acc; cbn; [reflexivity|].
  rewrite (IH (String c acc)), (IH (String c "")), str_app_assoc. reflexivity.
Qed.

Lemma rev_app_distr (a b : string) :
  String.rev (a +:+ b) = String.rev b +:+ String.rev a.
Proof.
  unfold String.rev. induction a as [|c a IH].
  - rewrite str_app_nil_l. cbn [String.rev_app]. rewrite str_app_nil_r. reflexivity.
  - rewrite str_app_cons. cbn [String.rev_app].
    rewrite (rev_app_acc (a +:+ b)), IH, (rev_app_acc a (String c "")), str_app_assoc.
    reflexivity.
Qed.

Lemma startswith_app (p s : string) : PyStr.startswith (p +:+ s) p = true.
Proof.
  induction p as [|c p IH]; [reflexivity|].
  rewrite str_app_cons. cbn [PyStr.startswith]. rewrite Ascii.eqb_refl. exact IH.
Qed.

Lemma startswith_app_l (a b t : string) :
  PyStr.startswith a t = true -> PyStr.startswith (a +:+ b) t = true.
Proof.
  revert a. induction t as [|c t IH]; intros a Ht; [reflexivity|].
  destruct a as [|d a]; [discriminate|].
  rewrite str_app_cons. cbn [PyStr.startswith] in *.
  destruct (Ascii.eqb c d); [|discriminate]. apply IH. exact Ht.
Qed.

Lemma endswith_app (a b : string) : PyStr.endswith (a +:+ b) b = true.
Proof. unfold PyStr.endswith. rewrite rev_app_distr. apply startswith_app. Qed.

Lemma occurs_prefix (h t : string) : PyStr.occurs h (h +:+ t).
Proof. exists "", t. reflexivity. Qed.

Lemma occurs_join (x : string) (parts : list string) :
  In x parts -> PyStr.occurs x (PyStr.join parts).
Proof.
  induction parts as [|y parts IH]; intros Hx; [destruct Hx|].
  destruct Hx as [->|Hx].
  - exists "", (PyStr.join parts). reflexivity.
  - destruct (IH Hx) as (a & b & E). exists (y +:+ a), b.
    cbn. fold (PyStr.join parts). rewrite E, str_app_assoc. reflexivity.
Qed.

Lemma occurs_trans (a b c : string) :
  PyStr.occurs a b -> PyStr.occurs b c -> PyStr.occurs a c.
Proof.
  intros (x & y & ->) (u & v & ->). exists (u +:+ x), (y +:+ v).
  rewrite !str_app_assoc. reflexivity.
Qed.

(** ** The truncation boundary *)

Lemma truncate_long marker (L : Z) (s : string) :
  0 <= L -> L < PyStr.len s ->
  Ctx.truncate_context marker L s = PyStr.take (Z.to_nat L) s +:+ marker
  /\ PyStr.len (Ctx.truncate_context marker L s) = L + PyStr.len marker
  /\ forall tail, PyStr.endswith marker tail = true ->
                  PyStr.endswith (Ctx.truncate_context marker L s) tail = true.
Proof.
  intros H0 HL. unfold Ctx.truncate_context, PyStr.slice_to.
  apply Z.ltb_lt in HL as HL'. rewrite HL'.
  apply Z.leb_le in H0 as H0'. rewrite H0'.
  split; [reflexivity|]. split.
  - unfold PyStr.len in *. rewrite str_length_app, take_length by lia. lia.
  - intros tail Ht. unfold PyStr.endswith in *.
    rewrite rev_app_distr. apply startswith_app_l. exact Ht.
Qed.

Lemma truncate_short marker (L : Z) (s : string) :
  PyStr.len s <= L -> Ctx.truncate_context marker L s = s.
Proof.
  intros HL. unfold Ctx.truncate_context.
  replace (L <? PyStr.len s) with false by (symmetry; apply Z.ltb_ge; exact HL).
  reflexivity.
Qed.

(** C8, as the claim states it, fails.  In review.py the marker reads
    [[... truncated due to length ...]], so the transmitted message does
    not end with [[... truncated ...]]; and a negative [max_context] cuts
    characters off the end, so that the length bound fails. *)
Lemma truncation_boundary_counterexample :
  4 < PyStr.len (Review.build_user_message ctx_diff "code")
  /\ PyStr.endswith
       (p_user (Review.build_payload "" "" "" (review_config 4) "code" ctx_diff true))
       "[... truncated ...]" = false
  /\ -1 < PyStr.len (Council.build_user_message ctx_diff "code")
  /\ (-1 + PyStr.len Council.truncation_marker
      <? PyStr.len (Council.user_message_for (council_config (-1)) ctx_diff "code"))
     = true.
Proof. vm_compute. repeat split; reflexivity. Qed.

(** C8, amended.  For a maximum context length [L >= 0]: a rendered prompt
    longer than [L] is transmitted as its first [L] characters followed by
    the script's marker, two newlines and then [[... truncated ...]] in
    council.py or [[... truncated due to length ...]] in review.py, so its
    length is [L] plus the length of that marker and it ends with the
    bracketed text; a rendered prompt of length at most [L] is transmitted
    unchanged. *)
Theorem truncation_boundary :
  forall (P1 P2 P3 C1 C2 C3 C4 C5 C6 : string)
         (rcfg : Review.config) (ccfg : Council.config) (ctx : context)
         (review_type role model reasoning : string) (engine : option string)
         (stream : bool) (L : Z),
    0 <= L ->
    Review.max_context rcfg = Some L ->
    Council.max_context ccfg = Some L ->
    let sent_r := p_user (Review.build_payload P1 P2 P3 rcfg review_type ctx stream) in
    let sent_c :=
      p_user (Council.build_payload C1 C2 C3 C4 C5 C6 role model
                (Council.user_message_for ccfg ctx review_type)
                review_type reasoning engine) in
    let rendered_r := Review.build_user_message ctx review_type in
    let rendered_c := Council.build_user_message ctx review_type in
    (L < PyStr.len rendered_r ->
     sent_r = PyStr.take (Z.to_nat L) rendered_r +:+ Review.truncation_marker
     /\ PyStr.len sent_r = L + PyStr.len Review.truncation_marker
     /\ PyStr.endswith sent_r "[... truncated due to length ...]" = true)
    /\ (PyStr.len rendered_r <= L -> sent_r = rendered_r)
    /\ (L < PyStr.len rendered_c ->
        sent_c = PyStr.take (Z.to_nat L) rendered_c +:+ Council.truncation_marker
        /\ PyStr.len sent_c = L + PyStr.len Council.truncation_marker
        /\ PyStr.endswith sent_c "[... truncated ...]" = true)
    /\ (PyStr.len rendered_c <= L -> sent_c = rendered_c).
Proof.
  intros P1 P2 P3 C1 C2 C3 C4 C5 C6 rcfg ccfg ctx review_type role model reasoning
         engine stream L H0 Hr Hc.
  cbn [p_user Review.build_payload Council.build_payload].
  unfold Review.user_message_for, Council.user_message_for. rewrite Hr, Hc.
  cbn [Council.opt_default].
  repeat split.
  - apply truncate_long; assumption.
  - apply truncate_long; assumption.
  - apply (truncate_long Review.truncation_marker L _ H0 H). reflexivity.
  - intros Hle. apply truncate_short. exact Hle.
  - apply truncate_long; assumption.
  - apply truncate_long; assumption.
  - apply (truncate_long Council.truncation_marker L _ H0 H). reflexivity.
  - intros Hle. apply truncate_short. exact Hle.
Qed.

Lemma truncation_boundary_witness :
  0 <= 4
  /\ PyStr.len
       (p_user (Council.build_payload "" "" "" "" "" "" "security" "x-ai/grok-4"
                  (Council.user_message_for (council_config 4) ctx_diff "code")
                  "code" "high" None))
     = 4 + PyStr.len Council.truncation_marker.
Proof.
  split; [lia|].
  refine (proj1 (proj2 (proj1 (proj2 (proj2
            (truncation_boundary "" "" "" "" "" "" "" "" ""
               (review_config 4) (council_config 4) ctx_diff
               "code" "security" "x-ai/grok-4" "high" None true 4
               _ eq_refl eq_refl))) _))).
  - lia.
  - vm_compute. reflexivity.
Defined.

(** The arrow of review.py's pull request block counts as one character,
    to the length test and to the slice alike: the prompt of a PR review
    of [ctx_pull_request] has 157 characters, it is transmitted unchanged
    when [max_context] is 157, and it is cut after its first 156
    characters when [max_context] is 156. *)
Lemma pr_prompt_boundary :
  PyStr.len (Review.build_user_message ctx_pull_request "pr") = 157
  /\ Review.user_message_for (review_config 157) ctx_pull_request "pr"
     = Review.build_user_message ctx_pull_request "pr"
  /\ Review.user_message_for (review_config 156) ctx_pull_request "pr"
     = PyStr.take 156 (Review.build_user_message ctx_pull_request "pr")
         +:+ Review.truncation_marker
  /\ PyStr.len (Review.user_message_for (review_config 156) ctx_pull_request "pr")
     = 156 + PyStr.len Review.truncation_marker.
Proof. vm_compute. repeat split; reflexivity. Qed.

(** ** The Context Renderer *)

Lemma startswith_occurs (s p : string) :
  PyStr.startswith s p = true <-> exists t, s = p +:+ t.
Proof.
  revert s. induction p as [|c p IH]; intros s.
  - split; [intros _; exists s; reflexivity|reflexivity].
  - destruct s as [|d s]; cbn [PyStr.startswith].
    + split; [discriminate|]. intros (t & E). rewrite str_app_cons in E. discriminate.
    + destruct (Ascii.eqb_spec c d) as [->|Hcd].
      * rewrite IH. split; intros (t & E); exists t.
        -- rewrite str_app_cons, E. reflexivity.
        -- rewrite str_app_cons in E. injection E as E. exact E.
      * split; [discriminate|]. intros (t & E). rewrite str_app_cons in E.
        injection E as E1 E2. congruence.
Qed.

(** The boolean test [needle in hay] decides [PyStr.occurs]. *)
Lemma contains_occurs (hay needle : string) :
  PyStr.contains hay needle = true <-> PyStr.occurs needle hay.
Proof.
  induction hay as [|c hay IH]; cbn [PyStr.contains].
  - rewrite orb_false_r, startswith_occurs. split.
    + intros (t & E). exists "", t. exact E.
    + intros ([|x a] & b & E).
      * exists b. exact E.
      * rewrite str_app_cons in E. discriminate.
  - rewrite orb_true_iff, startswith_occurs, IH. split.
    + intros [(t & E)|(a & b & E)].
      * exists "", t. exact E.
      * exists (String c a), b. rewrite str_app_cons, E. reflexivity.
    + intros ([|x a] & b & E).
      * left. exists b. exact E.
      * right. rewrite str_app_cons in E. injection E as E1 E2.
        exists a, b. exact E2.
Qed.

Lemma review_section_in_parts s ctx review_type x :
  In x (Review.section_parts s ctx review_type) ->
  In x (Review.build_parts ctx review_type).
Proof.
  unfold Review.build_parts. rewrite !in_app_iff. destruct s; cbn; tauto.
Qed.

Lemma council_section_in_parts s ctx review_type x :
  In x (Council.section_parts s ctx review_type) ->
  In x (Council.build_parts ctx review_type).
Proof.
  unfold Council.build_parts. rewrite !in_app_iff. destruct s; cbn; tauto.
Qed.

Lemma files_parts_head h render o :
  Ctx.list_truthy o = true ->
  exists rest, Ctx.files_parts h render o = (h +:+ PyStr.nl) :: rest.
Proof.
  destruct o as [[|f fs]|]; try discriminate. intros _. eexists. reflexivity.
Qed.

Lemma files_parts_nil h render o :
  Ctx.list_truthy o = false -> Ctx.files_parts h render o = [].
Proof. destruct o as [[|f fs]|]; try discriminate; reflexivity. Qed.

Lemma shared_section_head s ctx :
  s <> PullRequestInformation ->
  field_present s ctx = true ->
  exists tail rest,
    (Review.section_parts s ctx = fun _ => (header s +:+ tail) :: rest)
    /\ (Council.section_parts s ctx = fun _ => (header s +:+ tail) :: rest).
Proof.
  intros Hs Hp. destruct s; try congruence; cbn in Hp;
    unfold Review.section_parts, Council.section_parts.
  - unfold Ctx.developer_intent_parts, Ctx.conversation_truthy in *.
    destruct (conversation_context ctx) as [cc|]; [|discriminate]. rewrite Hp.
    eexists (PyStr.nl +:+ PyStr.nl), _. split; reflexivity.
  - unfold Ctx.diff_parts, Ctx.str_truthy in *.
    destruct (diff ctx) as [d|]; [|discriminate]. rewrite Hp.
    eexists (PyStr.nl +:+ "```diff" +:+ PyStr.nl), _. split; reflexivity.
  - destruct (files_parts_head "## Full File Contents" Ctx.fenced_file _ Hp) as (rest & E).
    unfold Ctx.file_contents_parts. rewrite E. exists PyStr.nl, rest. split; reflexivity.
  - destruct (files_parts_head "## Relevant Documentation" Ctx.plain_file _ Hp)
      as (rest & E).
    unfold Ctx.documentation_parts. rewrite E. exists PyStr.nl, rest. split; reflexivity.
  - destruct (files_parts_head "## Related Test Files" Ctx.fenced_file _ Hp) as (rest & E).
    unfold Ctx.test_files_parts. rewrite E. exists PyStr.nl, rest. split; reflexivity.
  - destruct (files_parts_head "## Cross-File Dependencies" Ctx.fenced_file _ Hp)
      as (rest & E).
    unfold Ctx.dependent_files_parts. rewrite E. exists PyStr.nl, rest. split; reflexivity.
Qed.

Lemma emitted_section_head s ctx review_type :
  emitted s ctx review_type = true ->
  exists tail rest_r rest_c,
    Review.section_parts s ctx review_type = (header s +:+ tail) :: rest_r
    /\ Council.section_parts s ctx review_type = (header s +:+ tail) :: rest_c.
Proof.
  unfold emitted. intros He. apply andb_true_iff in He as [Hp Hg].
  assert (Hshared : s <> PullRequestInformation ->
                    exists tail rest_r rest_c,
                      Review.section_parts s ctx review_type = (header s +:+ tail) :: rest_r
                      /\ Council.section_parts s ctx review_type
                         = (header s +:+ tail) :: rest_c).
  { intros Hs. destruct (shared_section_head s ctx Hs Hp) as (tail & rest & Er & Ec).
    exists tail, rest, rest. rewrite Er, Ec. split; reflexivity. }
  destruct s; try (apply Hshared; discriminate).
  cbn in Hp. unfold Ctx.pull_request_truthy in Hp.
  cbn [Review.section_parts Council.section_parts].
  unfold Review.pr_parts, Council.pr_parts. rewrite Hg.
  destruct (pr_metadata ctx) as [pr|]; [|discriminate]. rewrite Hp.
  eexists PyStr.nl, _, _. split; reflexivity.
Qed.

Lemma silent_section_nil s ctx review_type :
  emitted s ctx review_type = false ->
  Review.section_parts s ctx review_type = []
  /\ Council.section_parts s ctx review_type = [].
Proof.
  unfold emitted. intros He. apply andb_false_iff in He.
  destruct s; cbn in He; cbn [Review.section_parts Council.section_parts];
    try (destruct He as [He|He]; [|discriminate]).
  - unfold Ctx.developer_intent_parts, Ctx.conversation_truthy in *.
    destruct (conversation_context ctx) as [cc|]; [rewrite He|]; split; reflexivity.
  - unfold Review.pr_parts, Council.pr_parts, Ctx.pull_request_truthy in *.
    destruct He as [He|He].
    + destruct (String.eqb review_type "pr"); [|split; reflexivity].
      destruct (pr_metadata ctx) as [pr|]; [rewrite He|]; split; reflexivity.
    + rewrite He. split; reflexivity.
  - unfold Ctx.diff_parts, Ctx.str_truthy in *.
    destruct (diff ctx) as [d|]; [rewrite He|]; split; reflexivity.
  - unfold Ctx.file_contents_parts. rewrite (files_parts_nil _ _ _ He). split; reflexivity.
  - unfold Ctx.documentation_parts. rewrite (files_parts_nil _ _ _ He). split; reflexivity.
  - unfold Ctx.test_files_parts. rewrite (files_parts_nil _ _ _ He). split; reflexivity.
  - unfold Ctx.dependent_files_parts. rewrite (files_parts_nil _ _ _ He).
    split; reflexivity.
Qed.

(** C9, as the claim states it, fails: in a code review a context that
    carries pull request metadata is rendered without the
    [## Pull Request Information] header, by both scripts. *)
Lemma section_headers_counterexample :
  field_present PullRequestInformation ctx_pull_request = true
  /\ PyStr.contains (Review.build_user_message ctx_pull_request "code")
                    (header PullRequestInformation) = false
  /\ PyStr.contains (Council.build_user_message ctx_pull_request "code")
                    (header PullRequestInformation) = false.
Proof. vm_compute. repeat split; reflexivity. Qed.

(** C9, amended.  In both scripts the renderer writes an optional section
    exactly when its field is present and not empty and, for the pull
    request block, the review type is [pr].  A section that is written
    starts with its header, which then occurs in the rendered prompt; a
    section that is not written contributes no part at all, so its header
    is not emitted.  The rendered prompt is the concatenation of the plan
    block and the seven optional sections in their fixed order. *)
Theorem section_headers :
  forall (ctx : context) (review_type : string) (s : optional_section),
    (emitted s ctx review_type = true ->
     (exists tail rest_r rest_c,
         Review.section_parts s ctx review_type = (header s +:+ tail) :: rest_r
         /\ Council.section_parts s ctx review_type = (header s +:+ tail) :: rest_c)
     /\ PyStr.occurs (header s) (Review.build_user_message ctx review_type)
     /\ PyStr.occurs (header s) (Council.build_user_message ctx review_type))
    /\ (emitted s ctx review_type = false ->
        Review.section_parts s ctx review_type = []
        /\ Council.section_parts s ctx review_type = [])
    /\ Review.build_user_message ctx review_type
       = PyStr.join (Review.section_parts DeveloperIntent ctx review_type
                     ++ Ctx.plan_parts "No plan content provided" ctx review_type
                     ++ concat (map (fun s' => Review.section_parts s' ctx review_type)
                                    [PullRequestInformation; CodeChanges; FullFileContents;
                                     RelevantDocumentation; RelatedTestFiles;
                                     CrossFileDependencies]))
    /\ Council.build_user_message ctx review_type
       = PyStr.join (Council.section_parts DeveloperIntent ctx review_type
                     ++ Ctx.plan_parts "No plan content" ctx review_type
                     ++ concat (map (fun s' => Council.section_parts s' ctx review_type)
                                    [PullRequestInformation; CodeChanges; FullFileContents;
                                     RelevantDocumentation; RelatedTestFiles;
                                     CrossFileDependencies])).
Proof.
  intros ctx review_type s. split; [|split; [|split]].
  - intros He. destruct (emitted_section_head s ctx review_type He)
      as (tail & rest_r & rest_c & Er & Ec).
    split; [exists tail, rest_r, rest_c; split; assumption|]. split.
    + apply (occurs_trans _ (header s +:+ tail)); [apply occurs_prefix|].
      apply occurs_join, (review_section_in_parts s). rewrite Er. left. reflexivity.
    + apply (occurs_trans _ (header s +:+ tail)); [apply occurs_prefix|].
      apply occurs_join, (council_section_in_parts s). rewrite Ec. left. reflexivity.
  - apply silent_section_nil.
  - unfold Review.build_user_message, Review.build_parts. cbn [map concat Review.section_parts].
    rewrite app_nil_r. reflexivity.
  - unfold Council.build_user_message, Council.build_parts.
    cbn [map concat Council.section_parts]. rewrite app_nil_r. reflexivity.
Qed.

Lemma section_headers_witness :
  emitted CodeChanges ctx_pull_request "code" = true
  /\ PyStr.occurs (header CodeChanges) (Review.build_user_message ctx_pull_request "code")
  /\ emitted PullRequestInformation ctx_pull_request "code" = false
  /\ Council.section_parts PullRequestInformation ctx_pull_request "code" = [].
Proof.
  split; [reflexivity|]. split.
  - exact (proj1 (proj2 (proj1 (section_headers ctx_pull_request "code" CodeChanges)
                           eq_refl))).
  - split; [reflexivity|].
    exact (proj2 (proj1 (proj2 (section_headers ctx_pull_request "code"
                                  PullRequestInformation)) eq_refl)).
Defined.

(** ** The Stream Decoder *)

Section Stream.

Variable py_str : json -> string.
Variable json_loads : string -> option json.

Lemma stream_loop_step line rest acc n w :
  Review.stream_loop py_str json_loads (line :: rest) acc n w
  = match classify json_loads line with
    | Skip => Review.stream_loop py_str json_loads rest acc n w
    | Stop => (Ret (acc, n), w)
    | Bad => Review.stream_loop py_str json_loads rest acc (S n) w
    | Fragment c =>
        Review.stream_loop py_str json_loads rest (acc ++ [c]) n
          {| sent := sent w; ticks := ticks w; sleeps := sleeps w;
             stdout := stdout w ++ [py_str c]; stderr := stderr w |}
    | Crash e => (Raise e, w)
    end.
Proof.
  cbn [Review.stream_loop]. unfold classify, data_payload, is_done.
  destruct (PyStr.truthy line); [|reflexivity].
  destruct (PyStr.startswith line "data: "); [|reflexivity]. cbn [andb].
  destruct (String.eqb (PyStr.strip (PyStr.drop 6 line)) "[DONE]"); [reflexivity|].
  destruct (json_loads (PyStr.drop 6 line)) as [data|]; [|reflexivity].
  run_step. destruct (Review.delta_content data) as [c|e]; [|reflexivity].
  destruct (Py.truthy c); reflexivity.
Qed.

(** The loop gathers the fragments of the stream and counts the payloads
    that do not parse; it touches neither the requests nor the clock. *)
Lemma stream_loop_run lines :
  forall acc n w,
  exists w',
    Review.stream_loop py_str json_loads lines acc n w
    = (match fragments_of json_loads lines acc with
       | Ret f => Ret (f, (n + count_malformed json_loads lines)%nat)
       | Raise e => Raise e
       end, w')
    /\ sent w' = sent w /\ ticks w' = ticks w /\ sleeps w' = sleeps w.
Proof.
  induction lines as [|line rest IH]; intros acc n w.
  - exists w. cbn. rewrite Nat.add_0_r. repeat split; reflexivity.
  - rewrite stream_loop_step. cbn [fragments_of count_malformed].
    destruct (classify json_loads line) as [| | |c|e].
    + apply IH.
    + exists w. rewrite Nat.add_0_r. repeat split; reflexivity.
    + destruct (IH acc (S n) w) as (w' & E & H). exists w'.
      rewrite E, Nat.add_succ_r. split; [reflexivity|exact H].
    + destruct (IH (acc ++ [c])%list n
                  {| sent := sent w; ticks := ticks w; sleeps := sleeps w;
                     stdout := (stdout w ++ [py_str c])%list; stderr := stderr w |})
        as (w' & E & H).
      exists w'. split; [exact E|exact H].
    + exists w. repeat split; reflexivity.
Qed.

Lemma decode_stream_run lines w :
  exists w',
    Review.decode_stream py_str json_loads lines w
    = (match fragments_of json_loads lines [] with
       | Ret f => match Review.join_content 0 f with
                  | Ret s => Ret (JStr s)
                  | Raise e => Raise e
                  end
       | Raise e => Raise e
       end, w')
    /\ sent w' = sent w /\ ticks w' = ticks w /\ sleeps w' = sleeps w.
Proof.
  unfold Review.decode_stream.
  destruct (stream_loop_run lines [] 0%nat w) as (w1 & E & Hs & Ht & Hsl).
  unfold bind at 1. rewrite E.
  destruct (fragments_of json_loads lines []) as [f|e].
  - cbn [fst snd]. run_step.
    destruct (0 <? 0 + count_malformed json_loads lines)%nat; cbn;
      destruct (Review.join_content 0 f) as [s|e]; eexists; (split; [reflexivity|]);
      cbn; repeat split; assumption.
  - exists w1. repeat split; assumption.
Qed.

Lemma malformed_classify line : malformed json_loads line -> classify json_loads line = Bad.
Proof.
  intros (d & Hd & Hdone & Hl). unfold classify. rewrite Hd, Hdone, Hl. reflexivity.
Qed.

Lemma fragments_drop_malformed bad l2 :
  classify json_loads bad = Bad ->
  forall l1 acc,
    fragments_of json_loads (l1 ++ bad :: l2) acc = fragments_of json_loads (l1 ++ l2) acc.
Proof.
  intros Hb. induction l1 as [|x l1 IH]; intros acc; cbn [app fragments_of].
  - rewrite Hb. reflexivity.
  - destruct (classify json_loads x); try reflexivity; apply IH.
Qed.

Lemma fragments_drop_skipped line l2 :
  classify json_loads line = Skip ->
  forall l1 acc,
    fragments_of json_loads (l1 ++ line :: l2) acc = fragments_of json_loads (l1 ++ l2) acc.
Proof.
  intros Hb. induction l1 as [|x l1 IH]; intros acc; cbn [app fragments_of].
  - rewrite Hb. reflexivity.
  - destruct (classify json_loads x); try reflexivity; apply IH.
Qed.

(** A line without the [data: ] prefix is passed over. *)
Lemma unprefixed_skipped line :
  PyStr.startswith line "data: " = false -> classify json_loads line = Skip.
Proof.
  intros H. unfold classify, data_payload. rewrite H, andb_false_r. reflexivity.
Qed.

(** A payload that parses and whose delta holds no content, the keys on
    the way being absent or leading to objects, is passed over. *)
Lemma contentless_skipped line d data c :
  data_payload line = Some d -> is_done d = false ->
  json_loads d = Some data ->
  Review.delta_content data = Ret c -> Py.truthy c = false ->
  classify json_loads line = Skip.
Proof.
  intros Hd Hdone Hl Hc Ht. unfold classify. rewrite Hd, Hdone, Hl, Hc, Ht. reflexivity.
Qed.

(** Lines that are passed over leave the decoded text as it is. *)
Lemma decode_stream_drop_skipped line l1 l2 w :
  classify json_loads line = Skip ->
  fst (Review.decode_stream py_str json_loads (l1 ++ line :: l2) w)
  = fst (Review.decode_stream py_str json_loads (l1 ++ l2) w).
Proof.
  intros Hs.
  destruct (decode_stream_run (l1 ++ line :: l2) w) as (w1 & E1 & _).
  destruct (decode_stream_run (l1 ++ l2) w) as (w2 & E2 & _).
  rewrite E1, E2. cbn [fst]. rewrite (fragments_drop_skipped line l2 Hs). reflexivity.
Qed.

Lemma all_malformed_classify lines :
  all_malformed json_loads lines ->
  forall line, In line lines ->
               classify json_loads line = Skip \/ classify json_loads line = Stop
               \/ classify json_loads line = Bad.
Proof.
  intros Hall line Hin. unfold classify.
  destruct (data_payload line) as [d|] eqn:Hd; [|left; reflexivity].
  destruct (is_done d) eqn:Hdone; [right; left; reflexivity|].
  rewrite (Hall line d Hin Hd Hdone). right; right; reflexivity.
Qed.

Lemma all_malformed_fragments lines :
  all_malformed json_loads lines ->
  forall acc, fragments_of json_loads lines acc = Ret acc.
Proof.
  induction lines as [|line rest IH]; intros Hall acc; [reflexivity|].
  cbn [fragments_of].
  assert (Hrest : all_malformed json_loads rest).
  { intros l d Hin. apply Hall. right. exact Hin. }
  destruct (all_malformed_classify _ Hall line (or_introl eq_refl)) as [E|[E|E]];
    rewrite E; try reflexivity; apply IH; exact Hrest.
Qed.

End Stream.

(** ** The Single Reviewer Client *)

Lemma call_openrouter_run py_str json_loads P1 P2 P3 key script cfg review_type ctx
      stream k :
  PyStr.truthy key = true ->
  settles_at script 0 MAX_RETRIES k ->
  exists w',
    Review.call_openrouter py_str json_loads P1 P2 P3 (Some key) script cfg review_type
                           ctx stream world0
    = (match openrouter_body py_str json_loads (script k) stream with
       | Ret v => Ret v
       | Raise e => Review.on_failure py_str e
       end, w')
    /\ sent w' = repeat (Review.build_payload P1 P2 P3 cfg review_type ctx stream) (S k).
Proof.
  intros Hkey Hs. unfold Review.call_openrouter, get_api_key. rewrite Hkey.
  destruct (review_retry_run py_str
              (Review.build_payload P1 P2 P3 cfg review_type ctx stream)
              script MAX_RETRIES k world0 eq_refl Hs) as (w1 & E & _ & _ & Hsent & _).
  unfold bind at 1. unfold ret at 1. unfold bind at 1. unfold try_ at 1.
  unfold bind at 1. rewrite E. unfold openrouter_body.
  destruct (script k) as [resp|e].
  - destruct stream.
    + destruct (decode_stream_run py_str json_loads (iter_lines resp) w1)
        as (w2 & E2 & Hs2 & _). rewrite E2. fold (decoded json_loads (iter_lines resp)).
      destruct (decoded json_loads (iter_lines resp)) as [v|e]; run_step.
      * exists w2. rewrite Hs2. split; [reflexivity|exact Hsent].
      * exists w2. rewrite Hs2. split; [reflexivity|exact Hsent].
    + run_step. destruct (Py.response_json resp) as [result|e]; cbn.
      * destruct (Review.extract_content py_str result) as [v|e]; cbn;
          exists w1; (split; [reflexivity|exact Hsent]).
      * exists w1. split; [reflexivity|exact Hsent].
  - run_step. exists w1. split; [reflexivity|exact Hsent].
Qed.

(** Every request that [call_openrouter] sends carries the payload built
    from the configuration, and with it the truncated user message. *)
Lemma call_openrouter_transmits py_str json_loads P1 P2 P3 key script cfg review_type ctx
      stream q :
  PyStr.truthy key = true ->
  In q (sent (snd (Review.call_openrouter py_str json_loads P1 P2 P3 (Some key) script cfg
                     review_type ctx stream world0))) ->
  q = Review.build_payload P1 P2 P3 cfg review_type ctx stream
  /\ p_user q = Review.user_message_for cfg ctx review_type.
Proof.
  intros Hkey Hq.
  destruct (settles_exists script MAX_RETRIES 0) as (k & Hk); [unfold MAX_RETRIES; lia|].
  destruct (call_openrouter_run py_str json_loads P1 P2 P3 key script cfg review_type ctx
              stream k Hkey Hk) as (w' & E & Hsent).
  rewrite E in Hq. cbn [snd] in Hq. rewrite Hsent in Hq. apply repeat_spec in Hq.
  subst q. split; reflexivity.
Qed.

Lemma settles_first_ok script resp max :
  (0 < max)%nat -> script 0%nat = Ret resp -> settles_at script 0 max 0.
Proof.
  intros Hmax Hs. split; [exact Hmax|]. split; [intros i Hi; lia|].
  left. cbn. rewrite Hs. reflexivity.
Qed.

Lemma on_failure_error_text py_str e v :
  Review.on_failure py_str e = Ret v -> is_error_text v = true.
Proof.
  unfold Review.on_failure. destruct (isinstance_Timeout e).
  - intros [= <-]. reflexivity.
  - destruct (isinstance_HTTPError e).
    + destruct (Review.http_error_detail e) as [d|e']; cbn; [|discriminate].
      intros [= <-]. reflexivity.
    + destruct (isinstance_Exception e); [|discriminate]. intros [= <-]. reflexivity.
Qed.

(** When the request fails for good and [call_openrouter] returns, what
    it returns is an error text. *)
Lemma call_openrouter_failure_reported py_str json_loads P1 P2 P3 key script cfg
      review_type ctx stream k e v :
  PyStr.truthy key = true ->
  settles_at script 0 MAX_RETRIES k ->
  script k = Raise e ->
  fst (Review.call_openrouter py_str json_loads P1 P2 P3 (Some key) script cfg review_type
         ctx stream world0) = Ret v ->
  is_error_text v = true.
Proof.
  intros Hkey Hk He.
  destruct (call_openrouter_run py_str json_loads P1 P2 P3 key script cfg review_type ctx
              stream k Hkey Hk) as (w' & E & _).
  rewrite E, He. cbn [fst openrouter_body]. apply on_failure_error_text.
Qed.

(** The claim's stream, with any payloads that decode to the fragments
    [A] and [B], and with anything at all after the sentinel. *)
Lemma decode_stream_AB py_str json_loads pA pB dA dB rest w :
  json_loads pA = Some dA -> Review.delta_content dA = Ret (JStr "A") ->
  json_loads pB = Some dB -> Review.delta_content dB = Ret (JStr "B") ->
  is_done pA = false -> is_done pB = false ->
  json_loads "{malformed" = None ->
  fst (Review.decode_stream py_str json_loads
         (("data: " +:+ pA) :: line_malformed :: ("data: " +:+ pB) :: line_done :: rest) w)
  = Ret (JStr "AB").
Proof.
  intros HA HdA HB HdB HnA HnB Hbad.
  destruct (decode_stream_run py_str json_loads
              (("data: " +:+ pA) :: line_malformed :: ("data: " +:+ pB) :: line_done :: rest) w)
    as (w' & E & _). rewrite E. cbn [fst fragments_of].
  assert (CA : classify json_loads ("data: " +:+ pA) = Fragment (JStr "A")).
  { unfold classify. change (data_payload ("data: " +:+ pA)) with (Some pA).
    cbv beta iota. rewrite HnA, HA, HdA. reflexivity. }
  assert (CB : classify json_loads ("data: " +:+ pB) = Fragment (JStr "B")).
  { unfold classify. change (data_payload ("data: " +:+ pB)) with (Some pB).
    cbv beta iota. rewrite HnB, HB, HdB. reflexivity. }
  assert (CM : classify json_loads line_malformed = Bad).
  { unfold classify. change (data_payload line_malformed) with (Some "{malformed").
    cbv beta iota. change (is_done "{malformed") with false. cbv iota. rewrite Hbad. reflexivity. }
  assert (CD : classify json_loads line_done = Stop) by reflexivity.
  rewrite CA, CM, CB, CD. reflexivity.
Qed.

(** C5.  On the claim's stream the decoder returns [AB]: the payload that
    does not parse is skipped and what follows the sentinel is not read;
    lines without the prefix, empty lines and a delta that carries only a
    role contribute nothing.  But a payload that parses and has no content
    because its [choices] list is empty does not contribute nothing:
    indexing the empty list fails, the stream is abandoned, and the caller
    gets an error text instead of the fragments [A] and [B]. *)
Theorem stream_decoding_on_empty_choices :
  fst (Review.call_openrouter Json.str Json.loads "" "" "" (Some "sk-test")
         (script_stream [line_A; line_malformed; line_B; line_done; line_A])
         (review_config 200000) "code" ctx_diff true world0)
  = Ret (JStr "AB")
  /\ fst (Review.call_openrouter Json.str Json.loads "" "" "" (Some "sk-test")
            (script_stream [line_comment; line_role_only; line_A; ""; line_malformed;
                            line_B; line_done])
            (review_config 200000) "code" ctx_diff true world0)
     = Ret (JStr "AB")
  /\ Json.loads (PyStr.drop 6 line_empty_choices) = Some (JObj [("choices", JArr [])])
  /\ fst (Review.call_openrouter Json.str Json.loads "" "" "" (Some "sk-test")
            (script_stream [line_A; line_empty_choices; line_B; line_done])
            (review_config 200000) "code" ctx_diff true world0)
     = Ret (JStr "ERROR: Unexpected error: list index out of range").
Proof. vm_compute. repeat split; reflexivity. Qed.

(** C6.  A payload that does not parse is recovered locally: it is
    skipped and counted, and leaving its line out of the stream changes
    nothing of what the decoder returns.  But the code does not make the
    exception that the claim asks for: when every payload of the stream
    fails to parse, so that no fragment is extracted, the streaming path
    of [call_openrouter] gives the caller the empty string, which is no
    error text, and only writes a warning to the diagnostic stream; so it
    does for the stream whose only payload is malformed.  The buffered
    path of the same function does report an answer without content as an
    error. *)
Theorem malformed_chunks_silently_empty :
  fst (Review.call_openrouter Json.str Json.loads "" "" "" (Some "sk-test")
         (script_stream [line_malformed; line_done])
         (review_config 200000) "code" ctx_diff true world0)
  = Ret (JStr "")
  /\ is_error_text (JStr "") = false
  /\ stderr (snd (Review.call_openrouter Json.str Json.loads "" "" "" (Some "sk-test")
                    (script_stream [line_malformed; line_done])
                    (review_config 200000) "code" ctx_diff true world0))
     = ["[WARNING] Skipped 1 malformed SSE chunk(s) during streaming"]
  /\ fst (Review.call_openrouter Json.str Json.loads "" "" "" (Some "sk-test")
            script_empty_content (review_config 200000) "code" ctx_diff false world0)
     = Ret (JStr "ERROR: Empty content in API response. The model returned no text.")
  /\ (forall (py_str : json -> string) (json_loads : string -> option json)
             (P1 P2 P3 key : string) (script : nat -> py_result response)
             (cfg : Review.config) (review_type : string) (ctx : context)
             (resp : response),
         all_malformed json_loads (iter_lines resp) ->
         PyStr.truthy key = true ->
         script 0%nat = Ret resp ->
         fst (Review.stream_loop py_str json_loads (iter_lines resp) [] 0 world0)
         = Ret ([], count_malformed json_loads (iter_lines resp))
         /\ fst (Review.call_openrouter py_str json_loads P1 P2 P3 (Some key) script cfg
                   review_type ctx true world0)
            = Ret (JStr ""))
  /\ (forall (py_str : json -> string) (json_loads : string -> option json)
             (l1 l2 : list string) (bad : string) (w : world),
         malformed json_loads bad ->
         fst (Review.decode_stream py_str json_loads (l1 ++ bad :: l2) w)
         = fst (Review.decode_stream py_str json_loads (l1 ++ l2) w)).
Proof.
  split; [vm_compute; reflexivity|]. split; [reflexivity|].
  split; [vm_compute; reflexivity|]. split; [vm_compute; reflexivity|]. split.
  - intros py_str json_loads P1 P2 P3 key script cfg review_type ctx resp Hall Hkey Hs.
    split.
    { destruct (stream_loop_run py_str json_loads (iter_lines resp) [] 0%nat world0)
        as (w1 & E1 & _).
      rewrite E1, (all_malformed_fragments json_loads _ Hall). reflexivity. }
    destruct (call_openrouter_run py_str json_loads P1 P2 P3 key script cfg review_type
                ctx true 0%nat Hkey
                (settles_first_ok script resp MAX_RETRIES ltac:(unfold MAX_RETRIES; lia)
                                  Hs))
      as (w1 & E1 & _).
    rewrite E1, Hs. cbn [fst openrouter_body]. unfold decoded.
    rewrite (all_malformed_fragments json_loads _ Hall). reflexivity.
  - intros py_str json_loads l1 l2 bad w Hbad.
    destruct (decode_stream_run py_str json_loads (l1 ++ bad :: l2) w) as (w1 & E1 & _).
    destruct (decode_stream_run py_str json_loads (l1 ++ l2) w) as (w2 & E2 & _).
    rewrite E1, E2. cbn [fst].
    rewrite (fragments_drop_malformed json_loads bad l2 (malformed_classify _ _ Hbad)).
    reflexivity.
Qed.

(** C7.  In review.py a failure that survives the retries does not always
    come back as an error text: for an HTTP error whose JSON body holds a
    string under [error], the handler's own look-up of the detail message
    raises an [AttributeError], which none of its clauses catches, and the
    exception leaves [call_openrouter].  When the handler does return, the
    text starts with [ERROR:]. *)
Theorem http_error_detail_escapes :
  fst (Review.call_openrouter Json.str Json.loads "" "" "" (Some "sk-test")
         script_400_text_error (review_config 200000) "code" ctx_diff false world0)
  = Raise (mk_exn AttributeError "'str' object has no attribute 'get'")
  /\ calls (snd (Review.call_openrouter Json.str Json.loads "" "" "" (Some "sk-test")
                   script_400_text_error (review_config 200000) "code" ctx_diff false
                   world0))
     = 1%nat
  /\ (forall py_str e v, Review.on_failure py_str e = Ret v -> is_error_text v = true).
Proof.
  split; [vm_compute; reflexivity|]. split; [vm_compute; reflexivity|].
  exact on_failure_error_text.
Qed.

(** ** Sorting by key *)

Section SortByKey.

Context {A : Type} (key : A -> nat).

Lemma insert_by_key_perm x l : Permutation (insert_by_key key x l) (x :: l).
Proof.
  induction l as [|y l IH]; cbn; [reflexivity|].
  destruct (key x <=? key y)%nat; [reflexivity|].
  rewrite IH. apply perm_swap.
Qed.

Lemma sort_by_key_perm l : Permutation (sort_by_key key l) l.
Proof.
  induction l as [|x l IH]; cbn; [reflexivity|].
  rewrite insert_by_key_perm, IH. reflexivity.
Qed.

Lemma insert_by_key_sorted x l :
  StronglySorted (fun a b => (key a <= key b)%nat) l ->
  StronglySorted (fun a b => (key a <= key b)%nat) (insert_by_key key x l).
Proof.
  induction l as [|y l IH]; intros Hs; cbn.
  - constructor; constructor.
  - inversion Hs as [|? ? Hl Hy]; subst.
    destruct (key x <=? key y)%nat eqn:E.
    + apply Nat.leb_le in E. constructor; [exact Hs|].
      constructor; [exact E|].
      eapply Forall_impl; [exact Hy|]. cbn. intros a Ha. lia.
    + apply Nat.leb_gt in E. constructor; [apply IH; exact Hl|].
      apply (Permutation_Forall (x := x :: l)).
      * symmetry. apply insert_by_key_perm.
      * constructor; [lia|exact Hy].
Qed.

Lemma sort_by_key_sorted l :
  StronglySorted (fun a b => (key a <= key b)%nat) (sort_by_key key l).
Proof.
  induction l as [|x l IH]; cbn; [constructor|]. apply insert_by_key_sorted, IH.
Qed.

(** A list in strictly increasing key order is the only sorted
    arrangement of its elements. *)
Lemma sorted_arrangement_unique l1 :
  forall l2,
    StronglySorted (fun a b => (key a < key b)%nat) l1 ->
    StronglySorted (fun a b => (key a <= key b)%nat) l2 ->
    Permutation l1 l2 ->
    l1 = l2.
Proof.
  induction l1 as [|a l1 IH]; intros l2 H1 H2 HP.
  - apply Permutation_nil in HP. symmetry. exact HP.
  - destruct l2 as [|b l2].
    + symmetry in HP. apply Permutation_nil in HP. discriminate.
    + inversion H1 as [|? ? H1' Ha]; subst. inversion H2 as [|? ? H2' Hb]; subst.
      assert (Hab : a = b).
      { assert (Hb_in : In b (a :: l1)).
        { apply (Permutation_in b (Permutation_sym HP)). left. reflexivity. }
        destruct Hb_in as [E|Hb_in]; [exact E|].
        assert (Ha_in : In a (b :: l2)).
        { apply (Permutation_in a HP). left. reflexivity. }
        rewrite List.Forall_forall in Ha, Hb.
        specialize (Ha b Hb_in). destruct Ha_in as [E|Ha_in]; [congruence|].
        specialize (Hb a Ha_in). lia. }
      subst b. f_equal. apply IH; [exact H1'|exact H2'|].
      apply Permutation_cons_inv with a. exact HP.
Qed.

(** Whatever the order in which they arrive, elements with distinct keys
    are sorted into the one order that has the keys increasing. *)
Lemma sort_by_key_canonical l0 l :
  StronglySorted (fun a b => (key a < key b)%nat) l0 ->
  Permutation l l0 ->
  sort_by_key key l = l0.
Proof.
  intros Hs HP. symmetry. apply sorted_arrangement_unique.
  - exact Hs.
  - apply sort_by_key_sorted.
  - rewrite sort_by_key_perm. symmetry. exact HP.
Qed.

End SortByKey.

(** ** One reviewer call of the council *)

Lemma benign_get j k d : benign (Py.get j k d).
Proof. destruct j; cbn; trivial. Qed.

Lemma benign_index0 j : benign (Py.index0 j).
Proof. destruct j as [| | |[|c s]|[|x l]|]; cbn; trivial. Qed.

Lemma benign_item j k : benign (Py.item j k).
Proof. destruct j; cbn; trivial. destruct (Py.dict_lookup k l); cbn; trivial. Qed.

Lemma benign_response_json r : benign (Py.response_json r).
Proof. unfold Py.response_json. destruct (json_body r); cbn; trivial. Qed.

Lemma benign_pbind {A B} (c : py_result A) (k : A -> py_result B) :
  benign c -> (forall a, benign (k a)) -> benign (Py.pbind c k).
Proof. destruct c; cbn; auto. Qed.

Lemma benign_catch {A} (c : py_result A) caught h :
  benign c -> (forall e, benign (h e)) -> benign (Py.catch c caught h).
Proof. destruct c as [a|e]; cbn; auto. intros He Hh. destruct (caught e); auto. Qed.

Ltac benign_steps :=
  repeat first
    [ exact I
    | apply benign_get | apply benign_index0 | apply benign_item
    | apply benign_response_json
    | apply benign_catch
    | apply benign_pbind
    | intro
    | match goal with
      | |- benign (if ?b then _ else _) => destruct b
      | |- benign (Ret _) => exact I
      end ].

Lemma benign_extract_content py_str result :
  benign (Council.extract_content py_str result).
Proof. unfold Council.extract_content. benign_steps. Qed.

Lemma elapsed_nonneg (start now : Q) :
  (start <= now)%Q -> 0 <= elapsed_millis start now.
Proof.
  intros H. unfold elapsed_millis, py_int.
  apply Z.quot_pos; [|apply Pos2Z.is_pos].
  assert (Hq : (0 <= (now - start) * 1000)%Q).
  { apply Qmult_le_0_compat; [|discriminate].
    apply Qle_minus_iff in H. exact H. }
  unfold Qle in Hq. cbn [Qnum Qden] in Hq.
  rewrite Z.mul_0_l, Z.mul_1_r in Hq. exact Hq.
Qed.

Ltac slot_done := eexists; repeat split; reflexivity.

Ltac reviewer_done Hsame Hsk Hsent :=
  repeat split;
  first
    [ solve [lia]
    | solve [f_equal; f_equal; lia]
    | solve [left; reflexivity]
    | solve [right; slot_done]
    | solve [ let q := fresh "q" in
              let Hq := fresh "Hq" in
              intros q Hq; rewrite Hsent in Hq; apply repeat_spec in Hq; exact Hq ]
    | match goal with
      | Hs : settles_at _ _ _ ?k', He : _ ?k' = Raise ?e |- _ =>
          let X := fresh "X" in
          pose proof (Hsame k' e Hs He) as X;
          first [ discriminate X
                | injection X as <-; first [reflexivity | slot_done] ]
      end ].

Section CallReviewer.

Variable py_str : json -> string.
Variables C1 C2 C3 C4 C5 C6 : string.
Variable script : nat -> py_result response.
Variable clock : nat -> Q.
Variables role model name user_message review_type api_key reasoning : string.
Variable search_engine : option string.

Lemma call_reviewer_run w0 :
  sent w0 = [] ->
  raises_only_exceptions script ->
  exists r w' j,
    Council.call_reviewer py_str C1 C2 C3 C4 C5 C6 script clock role model name
                          user_message review_type api_key reasoning search_engine w0
    = (Ret r, w')
    /\ Council.role r = role /\ Council.name r = name /\ Council.model r = model
    /\ (0 < j)%nat
    /\ Council.elapsed_ms r
       = elapsed_millis (clock (ticks w0)) (clock (ticks w0 + j)%nat)
    /\ (Council.error r = None \/ error_slot r)
    /\ (forall k e, settles_at script 0 MAX_RETRIES k -> script k = Raise e ->
                    Council.error r = Some (exn_msg e) /\ error_slot r)
    /\ (forall q, In q (sent w') ->
                  q = Council.build_payload C1 C2 C3 C4 C5 C6 role model user_message
                                            review_type reasoning search_engine).
Proof.
  intros Hsent Hexc.
  destruct (settles_exists script MAX_RETRIES 0) as (k & Hk);
    [unfold MAX_RETRIES; lia|].
  unfold Council.call_reviewer.
  set (p := Council.build_payload C1 C2 C3 C4 C5 C6 role model user_message review_type
                                  reasoning search_engine).
  unfold bind at 1. unfold time_time at 1.
  set (w1 := {| sent := sent w0; ticks := S (ticks w0); sleeps := sleeps w0;
                stdout := stdout w0; stderr := stderr w0 |}).
  destruct (council_retry_run p script name MAX_RETRIES k w1 Hsent Hk)
    as (w2 & E & _ & _ & Hsent2 & Hticks).
  assert (Hsame : forall k' e, settles_at script 0 MAX_RETRIES k' ->
                               script k' = Raise e -> script k = Raise e).
  { intros k' e Hk' He.
    destruct (council_retry_run p script name MAX_RETRIES k' w1 Hsent Hk')
      as (w2' & E' & _).
    rewrite E in E'. injection E' as E' _. rewrite E'. exact He. }
  unfold bind at 1. unfold try_ at 1. unfold bind at 1. rewrite E.
  destruct (script k) as [resp|e0] eqn:Hsk.
  - unfold bind at 1. unfold lift at 1.
    pose proof (benign_response_json resp) as Hb0.
    destruct (Py.response_json resp) as [result|e1].
    + unfold bind at 1. unfold time_time at 1.
      unfold bind at 1. unfold lift at 1.
      pose proof (benign_extract_content py_str result) as Hb1.
      destruct (Council.extract_content py_str result) as [text1|e1];
        [|cbn in Hb1; rewrite Hb1; run_step; rewrite Hticks;
          eexists _, _, 2%nat; split; [reflexivity|]; cbn; reviewer_done Hsame Hsk Hsent2].
      unfold bind at 1. unfold lift at 1.
      pose proof (benign_get result "usage" (JObj [])) as Hb2.
      destruct (Py.get result "usage" (JObj [])) as [usage|e1];
        [|cbn in Hb2; rewrite Hb2; run_step; rewrite Hticks;
          eexists _, _, 2%nat; split; [reflexivity|]; cbn; reviewer_done Hsame Hsk Hsent2].
      unfold bind at 1. unfold lift at 1.
      pose proof (benign_get usage "prompt_tokens" (JNum 0)) as Hb3.
      destruct (Py.get usage "prompt_tokens" (JNum 0)) as [tokens_in|e1];
        [|cbn in Hb3; rewrite Hb3; run_step; rewrite Hticks;
          eexists _, _, 2%nat; split; [reflexivity|]; cbn; reviewer_done Hsame Hsk Hsent2].
      unfold bind at 1. unfold lift at 1. unfold bind at 1. unfold lift at 1.
      pose proof (benign_get usage "completion_tokens" (JNum 0)) as Hb4.
      destruct (Py.get usage "completion_tokens" (JNum 0)) as [tokens_out|e1];
        [|cbn in Hb4; rewrite Hb4; run_step; rewrite Hticks;
          eexists _, _, 2%nat; split; [reflexivity|]; cbn; reviewer_done Hsame Hsk Hsent2].
      run_step. rewrite Hticks.
      eexists _, _, 1%nat. split; [reflexivity|]. cbn. reviewer_done Hsame Hsk Hsent2.
    + cbn in Hb0. rewrite Hb0. run_step. rewrite Hticks.
      eexists _, _, 1%nat. split; [reflexivity|]. cbn. reviewer_done Hsame Hsk Hsent2.
  - rewrite (Hexc k e0 Hsk). run_step. rewrite Hticks.
    eexists _, _, 1%nat. split; [reflexivity|]. cbn. reviewer_done Hsame Hsk Hsent2.
Qed.

End CallReviewer.

(** ** The Council Orchestrator *)

Lemma collect_map (run : Council.member -> py_result Council.review)
      (f : Council.member -> Council.review) (l : list Council.member) :
  forall acc,
    (forall m, In m l -> run m = Ret (f m)) ->
    Council.collect run l acc = Ret (acc ++ map f l)%list.
Proof.
  induction l as [|m l IH]; intros acc Hrun; cbn [Council.collect map].
  - rewrite app_nil_r. reflexivity.
  - rewrite (Hrun m (or_introl eq_refl)). cbn [Py.pbind].
    rewrite IH; [|intros m' Hm'; apply Hrun; right; exact Hm'].
    rewrite <- app_assoc. reflexivity.
Qed.

Lemma sorted_of_keys {A} (key : A -> nat) (l : list A) :
  StronglySorted lt (map key l) ->
  StronglySorted (fun a b => (key a < key b)%nat) l.
Proof.
  induction l as [|a l IH]; cbn [map]; intros Hs; [constructor|].
  inversion Hs as [|? ? Hl Ha]; subst. constructor; [apply IH; exact Hl|].
  rewrite List.Forall_forall in *. intros b Hb. apply Ha, in_map, Hb.
Qed.

(** Every member of a council is looked up at its own position. *)
Lemma council_keys cfg council_type :
  let council := Council.get_council_config cfg council_type in
  map (fun m => Council.opt_default 99%nat
                  (Council.role_order council !! Council.m_role m)) council
  = [0; 1; 2]%nat.
Proof.
  unfold Council.get_council_config.
  destruct (String.eqb council_type "code"); vm_compute; reflexivity.
Qed.

Lemma council_roles cfg review_type :
  map Council.m_role (Council.get_council_config cfg (council_type_of review_type))
  = if String.eqb review_type "plan"
    then ["design"; "scalability"; "security"]
    else ["correctness"; "performance"; "security"].
Proof.
  unfold council_type_of. destruct (String.eqb review_type "plan"); reflexivity.
Qed.

Section RunCouncil.

Variable py_str : json -> string.
Variables C1 C2 C3 C4 C5 C6 : string.
Variable key : string.
Variable cfg : Council.config.
Variable net : string -> nat -> py_result response.
Variable clocks : string -> nat -> Q.
Variable main_clock : nat -> Q.
Variable ctx : context.
Variable review_type : string.

Let council := Council.get_council_config cfg (council_type_of review_type).
Let reviewed :=
  review_of py_str C1 C2 C3 C4 C5 C6 net clocks
            (Council.user_message_for cfg ctx review_type) review_type key
            (Council.opt_default "high" (Council.reasoning cfg)).

Hypothesis key_present : PyStr.truthy key = true.
Hypothesis net_raises : forall role, raises_only_exceptions (net role).

Lemma worker_run m :
  Council.worker py_str C1 C2 C3 C4 C5 C6 net clocks
                 (Council.user_message_for cfg ctx review_type) review_type key
                 (Council.opt_default "high" (Council.reasoning cfg)) m
  = Ret (reviewed m)
  /\ Council.role (reviewed m) = Council.m_role m
  /\ (exists j, (0 < j)%nat
                /\ Council.elapsed_ms (reviewed m)
                   = elapsed_millis (clocks (Council.m_role m) 0%nat)
                                    (clocks (Council.m_role m) j))
  /\ (Council.error (reviewed m) = None \/ error_slot (reviewed m))
  /\ (forall k e, settles_at (net (Council.m_role m)) 0 MAX_RETRIES k ->
                  net (Council.m_role m) k = Raise e ->
                  Council.error (reviewed m) = Some (exn_msg e)
                  /\ error_slot (reviewed m)).
Proof.
  unfold reviewed, review_of, Council.worker.
  destruct (call_reviewer_run py_str C1 C2 C3 C4 C5 C6 (net (Council.m_role m))
              (clocks (Council.m_role m)) (Council.m_role m) (Council.m_model m)
              (Council.m_name m) (Council.user_message_for cfg ctx review_type)
              review_type key (Council.opt_default "high" (Council.reasoning cfg))
              (Council.m_search_engine m) world0 eq_refl (net_raises _))
    as (r & w' & j & E & Hrole & _ & _ & Hj & Hel & Herr & Hfail & _).
  rewrite E. cbn [fst].
  split; [reflexivity|]. split; [exact Hrole|]. split; [|split; [exact Herr|exact Hfail]].
  exists j. split; [exact Hj|exact Hel].
Qed.

Lemma reviewed_sorted :
  StronglySorted (fun a b => (Council.sort_key council a < Council.sort_key council b)%nat)
                 (map reviewed council).
Proof.
  apply sorted_of_keys. rewrite map_map.
  rewrite (map_ext_in _ (fun m => Council.opt_default 99%nat
                                    (Council.role_order council !! Council.m_role m))).
  - unfold council. rewrite council_keys.
    repeat constructor; lia.
  - intros m _. unfold Council.sort_key.
    rewrite (proj1 (proj2 (worker_run m))). reflexivity.
Qed.

Lemma run_council_run completion :
  Permutation completion council ->
  exists w',
    Council.run_council py_str C1 C2 C3 C4 C5 C6 (Some key) cfg net clocks main_clock
                        completion ctx review_type world0
    = (Ret {| Council.reviews := map reviewed council;
              Council.total_ms := elapsed_millis (main_clock 0%nat) (main_clock 2%nat);
              Council.council_type := council_type_of review_type |}, w').
Proof.
  intros HP. unfold Council.run_council, get_api_key. rewrite key_present.
  fold (council_type_of review_type). fold council.
  run_step.
  rewrite (collect_map _ reviewed completion []);
    [|intros m _; apply worker_run].
  cbn [app]. rewrite (sort_by_key_canonical _ (map reviewed council)).
  - eexists. reflexivity.
  - apply reviewed_sorted.
  - apply Permutation_map. exact HP.
Qed.

End RunCouncil.

Lemma error_slot_text r : error_slot r -> is_error_text (Council.content r) = true.
Proof. intros (msg & _ & _ & ->). reflexivity. Qed.

(** C1.  A council run, for any context and review type and whatever the
    order in which the three workers finish, returns a reviews list with
    exactly one entry per configured member, three in all, also when member
    calls fail.  The slot of a member whose request fails, after the retries
    or at once, carries an error tag and a content that begins with
    [ERROR:]; every entry, success or failure, has its elapsed milliseconds
    set to an integer that is [>= 0].  (The API key is present, the network
    fails with exceptions only, and each worker's clock does not run
    backwards.) *)
Theorem council_slots :
  forall (py_str : json -> string) (C1 C2 C3 C4 C5 C6 key : string)
         (cfg : Council.config) (net : string -> nat -> py_result response)
         (clocks : string -> nat -> Q) (main_clock : nat -> Q)
         (completion : list Council.member) (ctx : context) (review_type : string),
    PyStr.truthy key = true ->
    Permutation completion
                (Council.get_council_config cfg (council_type_of review_type)) ->
    (forall role, raises_only_exceptions (net role)) ->
    (forall role, monotone_clock (clocks role)) ->
    exists res w',
      Council.run_council py_str C1 C2 C3 C4 C5 C6 (Some key) cfg net clocks main_clock
                          completion ctx review_type world0
      = (Ret res, w')
      /\ length (Council.reviews res) = 3%nat
      /\ map Council.role (Council.reviews res)
         = map Council.m_role
               (Council.get_council_config cfg (council_type_of review_type))
      /\ (forall r,
             In r (Council.reviews res) ->
             0 <= Council.elapsed_ms r
             /\ (Council.error r = None \/ error_slot r)
             /\ (Council.error r <> None -> is_error_text (Council.content r) = true)
             /\ (forall k e,
                    settles_at (net (Council.role r)) 0 MAX_RETRIES k ->
                    net (Council.role r) k = Raise e ->
                    Council.error r = Some (exn_msg e)
                    /\ is_error_text (Council.content r) = true)).
Proof.
  intros py_str C1 C2 C3 C4 C5 C6 key cfg net clocks main_clock completion ctx
         review_type Hkey HP Hnet Hclk.
  destruct (run_council_run py_str C1 C2 C3 C4 C5 C6 key cfg net clocks main_clock ctx
              review_type Hkey Hnet completion HP) as (w' & E).
  eexists _, w'. split; [exact E|]. cbn [Council.reviews].
  split; [|split].
  - rewrite length_map.
    rewrite <- (length_map Council.m_role), council_roles.
    destruct (String.eqb review_type "plan"); reflexivity.
  - rewrite map_map. apply map_ext. intros m.
    apply (worker_run py_str C1 C2 C3 C4 C5 C6 key cfg net clocks ctx review_type
                      Hnet m).
  - intros r Hr. apply in_map_iff in Hr as (m & <- & _).
    destruct (worker_run py_str C1 C2 C3 C4 C5 C6 key cfg net clocks ctx review_type
                         Hnet m) as (_ & Hrole & (j & Hj & Hel) & Herr & Hfail).
    split; [|split; [exact Herr|split]].
    + rewrite Hel. apply elapsed_nonneg, Hclk. lia.
    + intros Hne. destruct Herr as [Hnone|Hslot]; [contradiction|].
      apply error_slot_text, Hslot.
    + rewrite Hrole. intros k e Hk He. destruct (Hfail k e Hk He) as (Htag & Hslot).
      split; [exact Htag|apply error_slot_text, Hslot].
Qed.

Lemma some_completion_perm :
  Permutation some_completion
              (Council.get_council_config (council_config 200000) (council_type_of "code")).
Proof. vm_compute. apply (Permutation_cons_append [_; _] _). Qed.

Lemma net_one_timeout_raises role : raises_only_exceptions (net_one_timeout role).
Proof.
  intros k e H. unfold net_one_timeout in H.
  destruct (String.eqb role "performance"); [injection H as <-; reflexivity|discriminate].
Qed.

Lemma ticking_monotone role : monotone_clock (ticking role).
Proof.
  intros i j Hij. unfold ticking. rewrite <- Zle_Qle. lia.
Qed.

Lemma council_slots_witness :
  PyStr.truthy "sk-test" = true
  /\ Permutation some_completion
                 (Council.get_council_config (council_config 200000)
                                             (council_type_of "code"))
  /\ (forall role, raises_only_exceptions (net_one_timeout role))
  /\ (forall role, monotone_clock (ticking role))
  /\ exists res w',
      Council.run_council Json.str "" "" "" "" "" "" (Some "sk-test")
                          (council_config 200000) net_one_timeout ticking (ticking "")
                          some_completion ctx_diff "code" world0
      = (Ret res, w')
      /\ length (Council.reviews res) = 3%nat.
Proof.
  split; [reflexivity|]. split; [exact some_completion_perm|].
  split; [exact net_one_timeout_raises|]. split; [exact ticking_monotone|].
  destruct (council_slots Json.str "" "" "" "" "" "" "sk-test" (council_config 200000)
              net_one_timeout ticking (ticking "") some_completion ctx_diff "code"
              eq_refl some_completion_perm net_one_timeout_raises ticking_monotone)
    as (res & w' & E & L & _).
  exists res, w'. split; [exact E|exact L].
Defined.

(** C2.  A council run returns its reviews in the council's canonical role
    order, correctness, performance, security for a code or PR review and
    design, scalability, security for a plan review: whatever the order in
    which the three workers finish, the run returns the same result. *)
Theorem council_canonical_order :
  forall (py_str : json -> string) (C1 C2 C3 C4 C5 C6 key : string)
         (cfg : Council.config) (net : string -> nat -> py_result response)
         (clocks : string -> nat -> Q) (main_clock : nat -> Q)
         (completion : list Council.member) (ctx : context) (review_type : string),
    PyStr.truthy key = true ->
    Permutation completion
                (Council.get_council_config cfg (council_type_of review_type)) ->
    (forall role, raises_only_exceptions (net role)) ->
    exists res w',
      Council.run_council py_str C1 C2 C3 C4 C5 C6 (Some key) cfg net clocks main_clock
                          completion ctx review_type world0
      = (Ret res, w')
      /\ map Council.role (Council.reviews res)
         = (if String.eqb review_type "plan"
            then ["design"; "scalability"; "security"]
            else ["correctness"; "performance"; "security"])
      /\ (forall completion',
             Permutation completion'
                         (Council.get_council_config cfg (council_type_of review_type)) ->
             fst (Council.run_council py_str C1 C2 C3 C4 C5 C6 (Some key) cfg net clocks
                                      main_clock completion' ctx review_type world0)
             = Ret res).
Proof.
  intros py_str C1 C2 C3 C4 C5 C6 key cfg net clocks main_clock completion ctx
         review_type Hkey HP Hnet.
  destruct (run_council_run py_str C1 C2 C3 C4 C5 C6 key cfg net clocks main_clock ctx
              review_type Hkey Hnet completion HP) as (w' & E).
  eexists _, w'. split; [exact E|]. cbn [Council.reviews]. split.
  - rewrite <- (council_roles cfg review_type), map_map. apply map_ext. intros m.
    apply (worker_run py_str C1 C2 C3 C4 C5 C6 key cfg net clocks ctx review_type
                      Hnet m).
  - intros completion' HP'.
    destruct (run_council_run py_str C1 C2 C3 C4 C5 C6 key cfg net clocks main_clock ctx
                review_type Hkey Hnet completion' HP') as (w'' & E').
    rewrite E'. reflexivity.
Qed.

Lemma council_canonical_order_witness :
  PyStr.truthy "sk-test" = true
  /\ Permutation some_completion
                 (Council.get_council_config (council_config 200000)
                                             (council_type_of "code"))
  /\ exists res w',
      Council.run_council Json.str "" "" "" "" "" "" (Some "sk-test")
                          (council_config 200000) net_one_timeout ticking (ticking "")
                          some_completion ctx_diff "code" world0
      = (Ret res, w')
      /\ map Council.role (Council.reviews res)
         = ["correctness"; "performance"; "security"].
Proof.
  split; [reflexivity|]. split; [exact some_completion_perm|].
  destruct (council_canonical_order Json.str "" "" "" "" "" "" "sk-test"
              (council_config 200000) net_one_timeout ticking (ticking "")
              some_completion ctx_diff "code"
              eq_refl some_completion_perm net_one_timeout_raises)
    as (res & w' & E & R & _).
  exists res, w'. split; [exact E|exact R].
Defined.

(** * Further properties of the scripts *)

(** ** The two copies of the Backoff Executor *)

Lemma sum_app (l1 l2 : list Z) :
  fold_right Z.add 0 (l1 ++ l2)%list = fold_right Z.add 0 l1 + fold_right Z.add 0 l2.
Proof. induction l1 as [|x l1 IH]; cbn; [reflexivity|]. rewrite IH. lia. Qed.

(** The waits before attempts [1 .. k] add up to [2^(k+1) - 2] seconds. *)
Lemma total_backoff (k : nat) :
  fold_right Z.add 0 (map backoff_wait (seq 0 k)) = 2 ^ (Z.of_nat k + 1) - 2.
Proof.
  induction k as [|k IH]; [reflexivity|].
  rewrite seq_S, map_app, sum_app, IH. cbn [map fold_right plus].
  unfold backoff_wait, INITIAL_BACKOFF_SECONDS.
  replace (Z.of_nat (S k) + 1) with (Z.succ (Z.of_nat k + 1)) by lia.
  rewrite (Z.pow_succ_r 2 (Z.of_nat k + 1)) by lia.
  rewrite (Z.pow_add_r 2 (Z.of_nat k) 1) by lia. lia.
Qed.

(** X1.  The two scripts carry their own copy of [retry_with_backoff]; on
    the same network and with the same attempt limit [max_retries >= 1]
    the two copies behave alike: they are settled by the same attempt [k],
    with [k < max_retries], hand back the same outcome, make the same
    [k + 1] requests and sleep the same waits.  The waits of a run add up
    to [2^(k+1) - 2] seconds, so that a run never sleeps more than
    [2^max_retries - 2] seconds in all (6 seconds with the default of 3
    attempts). *)
Theorem retry_copies_agree :
  forall (py_str : json -> string) (p : payload) (script : nat -> py_result response)
         (role_name : string) (max_retries : nat),
    (0 < max_retries)%nat ->
    exists k w1 w2,
      (k < max_retries)%nat
      /\ Review.retry_with_backoff py_str (make_request p script) max_retries world0
         = (script k, w1)
      /\ Council.retry_with_backoff (make_request p script) role_name max_retries world0
         = (script k, w2)
      /\ sent w1 = repeat p (S k) /\ sent w2 = repeat p (S k)
      /\ sleeps w1 = sleeps w2
      /\ fold_right Z.add 0 (sleeps w1) = 2 ^ (Z.of_nat k + 1) - 2
      /\ fold_right Z.add 0 (sleeps w1) <= 2 ^ Z.of_nat max_retries - 2.
Proof.
  intros py_str p script role_name max_retries Hmax.
  destruct (settles_exists script max_retries 0 Hmax) as (k & Hk).
  destruct (review_retry_run py_str p script max_retries k world0 eq_refl Hk)
    as (w1 & E1 & _ & S1 & T1 & _).
  destruct (council_retry_run p script role_name max_retries k world0 eq_refl Hk)
    as (w2 & E2 & _ & S2 & T2 & _).
  exists k, w1, w2. cbn [sleeps world0 app] in S1, S2.
  assert (Hlt : (k < max_retries)%nat) by apply Hk.
  repeat split; try assumption.
  - congruence.
  - rewrite S1. apply total_backoff.
  - rewrite S1, total_backoff.
    assert (2 ^ (Z.of_nat k + 1) <= 2 ^ Z.of_nat max_retries)
      by (apply Z.pow_le_mono_r; lia).
    lia.
Qed.

Lemma retry_copies_agree_witness :
  (0 < MAX_RETRIES)%nat
  /\ exists k w1 w2,
      (k < MAX_RETRIES)%nat
      /\ Review.retry_with_backoff Json.str (make_request some_payload script_always_500)
                                   MAX_RETRIES world0
         = (script_always_500 k, w1)
      /\ Council.retry_with_backoff (make_request some_payload script_always_500)
                                    "Security Analyst" MAX_RETRIES world0
         = (script_always_500 k, w2)
      /\ sleeps w1 = sleeps w2
      /\ fold_right Z.add 0 (sleeps w1) <= 6.
Proof.
  assert (H : (0 < MAX_RETRIES)%nat) by (unfold MAX_RETRIES; lia).
  split; [exact H|].
  destruct (retry_copies_agree Json.str some_payload script_always_500
              "Security Analyst" MAX_RETRIES H)
    as (k & w1 & w2 & Hk & E1 & E2 & _ & _ & Hs & _ & Hle).
  exists k, w1, w2. repeat split; assumption.
Defined.

(** ** The two copies of the Context Renderer *)

Lemma take_length_le (n : nat) (s : string) :
  (String.length (PyStr.take n s) <= n)%nat.
Proof.
  revert s. induction n as [|n IH]; intros s; [destruct s; cbn; lia|].
  destruct s as [|c s]; cbn; [lia|]. specialize (IH s). lia.
Qed.

Lemma take_length_min (n : nat) (s : string) :
  String.length (PyStr.take n s) = Nat.min n (String.length s).
Proof.
  revert s. induction n as [|n IH]; intros s; [destruct s; reflexivity|].
  destruct s as [|c s]; [reflexivity|]. cbn [PyStr.take String.length Nat.min].
  rewrite IH. reflexivity.
Qed.

Lemma take_drop (n : nat) (s : string) : s = PyStr.take n s +:+ PyStr.drop n s.
Proof.
  revert s. induction n as [|n IH]; intros s; [destruct s; reflexivity|].
  destruct s as [|c s]; [reflexivity|]. cbn [PyStr.take PyStr.drop].
  rewrite str_app_cons, <- IH. reflexivity.
Qed.



(** X3.  Every exchange of the relevant discussion is rendered, by both
    scripts and in every review mode, as one line [- **Role:** text]: the
    role is [User] for the role [user] and [Agent] for anything else, and
    the text is the first 500 characters of the exchange's content (all of
    it when it is no longer), cut without a marker: it is the prefix of
    the content whose length is the smaller of 500 and the length of the
    content. *)
Theorem exchange_content_capped :
  forall (ctx : context) (cc : conversation) (ms : list exchange) (m : exchange)
         (review_type : string),
    conversation_context ctx = Some cc ->
    relevant_exchanges cc = Some ms ->
    In m ms ->
    exists shown rest,
      Ctx.fmt "" (ex_content m) = shown +:+ rest
      /\ String.length shown = Nat.min 500 (String.length (Ctx.fmt "" (ex_content m)))
      /\ shown = PyStr.take 500 (Ctx.fmt "" (ex_content m))
      /\ (String.length shown <= 500)%nat
      /\ ((String.length (Ctx.fmt "" (ex_content m)) <= 500)%nat -> rest = "")
      /\ Ctx.exchange_part m
         = "- **" +:+ (if Ctx.str_truthy (ex_role m) && String.eqb (Ctx.fmt "" (ex_role m)) "user"
                       then "User" else "Agent")
             +:+ ":** " +:+ shown +:+ PyStr.nl
      /\ In (Ctx.exchange_part m) (Review.build_parts ctx review_type)
      /\ In (Ctx.exchange_part m) (Council.build_parts ctx review_type).
Proof.
  intros ctx cc ms m review_type Hcc Hms Hm.
  exists (PyStr.take 500 (Ctx.fmt "" (ex_content m))),
         (PyStr.drop 500 (Ctx.fmt "" (ex_content m))).
  split; [apply take_drop|]. split; [apply take_length_min|].
  split; [reflexivity|]. split; [apply take_length_le|]. split.
  - intros Hlen. pose proof (take_drop 500 (Ctx.fmt "" (ex_content m))) as E.
    rewrite (take_all 500 _ Hlen) in E.
    assert (L : String.length (Ctx.fmt "" (ex_content m))
                = (String.length (Ctx.fmt "" (ex_content m))
                   + String.length (PyStr.drop 500 (Ctx.fmt "" (ex_content m))))%nat)
      by (rewrite <- str_length_app, <- E; reflexivity).
    destruct (PyStr.drop 500 (Ctx.fmt "" (ex_content m))); [reflexivity|].
    cbn [String.length] in L. lia.
  - split.
    + unfold Ctx.exchange_part. destruct (ex_role m) as [r|]; cbn [Ctx.str_truthy Ctx.fmt].
      * destruct (String.eqb_spec r "user") as [->|Hr]; [reflexivity|].
        rewrite andb_false_r. reflexivity.
      * reflexivity.
    + assert (Hin : In (Ctx.exchange_part m) (Ctx.developer_intent_parts ctx)).
      { unfold Ctx.developer_intent_parts. rewrite Hcc.
        assert (Hne : Ctx.conversation_nonempty cc = true).
        { unfold Ctx.conversation_nonempty. rewrite Hms. cbn.
          rewrite !orb_true_r. reflexivity. }
        rewrite Hne, Hms. destruct ms as [|m0 ms]; [destruct Hm|].
        rewrite !in_app_iff. right. right. right. left. right. left.
        apply in_map. exact Hm. }
      split.
      * apply (review_section_in_parts DeveloperIntent). exact Hin.
      * apply (council_section_in_parts DeveloperIntent). exact Hin.
Qed.

Lemma exchange_content_capped_witness :
  conversation_context ctx_discussion
  = Some {| original_request := Some "Add a login form"; approach_notes := None;
            relevant_exchanges := Some [long_answer];
            previous_review_findings := None |}
  /\ In long_answer [long_answer]
  /\ String.length (Ctx.fmt "" (ex_content long_answer)) = 600%nat
  /\ exists shown rest,
      Ctx.fmt "" (ex_content long_answer) = shown +:+ rest
      /\ String.length shown = 500%nat
      /\ String.length rest = 100%nat
      /\ In (Ctx.exchange_part long_answer) (Review.build_parts ctx_discussion "code").
Proof.
  split; [reflexivity|]. split; [left; reflexivity|].
  assert (H600 : String.length (Ctx.fmt "" (ex_content long_answer)) = 600%nat)
    by (vm_compute; reflexivity).
  split; [exact H600|].
  destruct (exchange_content_capped ctx_discussion _ [long_answer] long_answer "code"
              eq_refl eq_refl (or_introl eq_refl))
    as (shown & rest & E & L & _ & _ & _ & _ & Hr & _).
  exists shown, rest. rewrite H600 in L. change (Nat.min 500 600) with 500%nat in L.
  split; [exact E|]. split; [exact L|]. split; [|exact Hr].
  pose proof (f_equal String.length E) as HL.
  rewrite str_length_app, H600, L in HL. lia.
Defined.

(** X4.  The plan block depends on the review mode alone.  In a plan
    review both scripts write the [## Plan to Review] header also when the
    context carries no plan, followed by a placeholder ([No plan content
    provided] in review.py, [No plan content] in council.py); an empty plan
    is rendered as it is, without the placeholder.  In every other mode the
    plan is never rendered: the message does not depend on the plan content
    of the context. *)
Theorem plan_block_by_mode :
  forall (ctx : context),
    (exists before after,
        Review.build_parts (with_plan_content ctx None) "plan"
        = (before ++ ["## Plan to Review" +:+ PyStr.nl; "No plan content provided";
                      PyStr.nl +:+ PyStr.nl] ++ after)%list
        /\ Council.build_parts (with_plan_content ctx None) "plan"
           = (before ++ ["## Plan to Review" +:+ PyStr.nl; "No plan content";
                         PyStr.nl +:+ PyStr.nl] ++ after)%list
        /\ Review.build_parts (with_plan_content ctx (Some "")) "plan"
           = (before ++ ["## Plan to Review" +:+ PyStr.nl; ""; PyStr.nl +:+ PyStr.nl]
                ++ after)%list
        /\ Council.build_parts (with_plan_content ctx (Some "")) "plan"
           = (before ++ ["## Plan to Review" +:+ PyStr.nl; ""; PyStr.nl +:+ PyStr.nl]
                ++ after)%list)
    /\ (forall (plan : option string) (review_type : string),
           String.eqb review_type "plan" = false ->
           Review.build_user_message (with_plan_content ctx plan) review_type
           = Review.build_user_message ctx review_type
           /\ Council.build_user_message (with_plan_content ctx plan) review_type
              = Council.build_user_message ctx review_type).
Proof.
  intros ctx. split.
  - exists (Ctx.developer_intent_parts ctx),
           (Ctx.diff_parts ctx ++ Ctx.file_contents_parts ctx
              ++ Ctx.documentation_parts ctx ++ Ctx.test_files_parts ctx
              ++ Ctx.dependent_files_parts ctx)%list.
    repeat split; reflexivity.
  - intros plan review_type Hrt.
    unfold Review.build_user_message, Council.build_user_message,
      Review.build_parts, Council.build_parts, Ctx.plan_parts.
    rewrite Hrt. split; reflexivity.
Qed.

(** ** The Stream Decoder, line by line *)

Section StreamLines.

Variable py_str : json -> string.
Variable json_loads : string -> option json.

Lemma stream_loop_stop line l2 l2' :
  classify json_loads line = Stop ->
  forall l1 acc n w,
    Review.stream_loop py_str json_loads (l1 ++ line :: l2) acc n w
    = Review.stream_loop py_str json_loads (l1 ++ line :: l2') acc n w.
Proof.
  intros Hs. induction l1 as [|x l1 IH]; intros acc n w; cbn [app];
    rewrite !stream_loop_step.
  - rewrite Hs. reflexivity.
  - destruct (classify json_loads x); try reflexivity; apply IH.
Qed.

Lemma stream_loop_skip line l2 :
  classify json_loads line = Skip ->
  forall l1 acc n w,
    Review.stream_loop py_str json_loads (l1 ++ line :: l2) acc n w
    = Review.stream_loop py_str json_loads (l1 ++ l2) acc n w.
Proof.
  intros Hs. induction l1 as [|x l1 IH]; intros acc n w; cbn [app].
  - rewrite stream_loop_step, Hs. reflexivity.
  - rewrite !stream_loop_step.
    destruct (classify json_loads x); try reflexivity; apply IH.
Qed.

(** What the loop prints is what it gathers: one chunk per fragment. *)
Lemma stream_loop_stdout lines :
  forall acc n w f m w',
    Review.stream_loop py_str json_loads lines acc n w = (Ret (f, m), w') ->
    exists g, f = (acc ++ g)%list
              /\ stdout w' = (stdout w ++ map py_str g)%list.
Proof.
  induction lines as [|line rest IH]; intros acc n w f m w' E.
  - cbn in E. injection E as <- <- <-. exists []. rewrite !app_nil_r.
    split; reflexivity.
  - rewrite stream_loop_step in E.
    destruct (classify json_loads line) as [| | |c|e].
    + apply (IH _ _ _ _ _ _ E).
    + injection E as <- <- <-. exists []. rewrite !app_nil_r. split; reflexivity.
    + apply (IH _ _ _ _ _ _ E).
    + destruct (IH _ _ _ _ _ _ E) as (g & Ef & Eo). exists (c :: g).
      cbn [stdout] in Eo. rewrite Ef, Eo, <- !app_assoc. split; reflexivity.
    + discriminate.
Qed.

End StreamLines.

Lemma join_app (a b : list string) :
  PyStr.join (a ++ b)%list = PyStr.join a +:+ PyStr.join b.
Proof.
  induction a as [|x a IH]; [reflexivity|].
  cbn [app]. unfold PyStr.join in *. cbn [fold_right]. rewrite IH, str_app_assoc.
  reflexivity.
Qed.

(** When [''.join] succeeds every fragment is a string, and the text is
    the fragments one after the other. *)
Lemma join_content_text (py_str : json -> string) (g : list json) :
  (forall x, py_str (JStr x) = x) ->
  forall i s, Review.join_content i g = Ret s -> PyStr.join (map py_str g) = s.
Proof.
  intros Hstr. induction g as [|j g IH]; intros i s E.
  - cbn in E. injection E as <-. reflexivity.
  - destruct j; try discriminate. cbn [Review.join_content] in E.
    destruct (Review.join_content (S i) g) as [r|e] eqn:Er; [|discriminate].
    cbn in E. injection E as <-.
    cbn [map]. unfold PyStr.join. cbn [fold_right]. fold (PyStr.join (map py_str g)).
    rewrite Hstr, (IH (S i) r Er). reflexivity.
Qed.

(** X5.  The stream decoder stops at the first payload that is the
    sentinel [[DONE]] (surrounding blanks apart): whatever follows it in
    the stream is not read, so it changes neither the text returned nor
    anything printed or logged. *)
Theorem stream_stops_at_sentinel :
  forall (py_str : json -> string) (json_loads : string -> option json)
         (before after after' : list string) (d : string) (w : world),
    is_done d = true ->
    Review.decode_stream py_str json_loads (before ++ ("data: " +:+ d) :: after) w
    = Review.decode_stream py_str json_loads (before ++ ("data: " +:+ d) :: after') w.
Proof.
  intros py_str json_loads before after after' d w Hd.
  assert (Hs : classify json_loads ("data: " +:+ d) = Stop).
  { unfold classify. change (data_payload ("data: " +:+ d)) with (Some d).
    cbv beta iota. rewrite Hd. reflexivity. }
  unfold Review.decode_stream. unfold bind at 1 5.
  rewrite (stream_loop_stop py_str json_loads _ after after' Hs). reflexivity.
Qed.

Lemma stream_stops_at_sentinel_witness :
  is_done " [DONE] " = true
  /\ Review.decode_stream Json.str Json.loads [line_A; "data:  [DONE] "; line_B] world0
     = Review.decode_stream Json.str Json.loads [line_A; "data:  [DONE] "] world0.
Proof.
  split; [reflexivity|].
  apply (stream_stops_at_sentinel Json.str Json.loads [line_A] [line_B] [] " [DONE] "
           world0).
  reflexivity.
Defined.

(** X6.  A line of the stream that does not begin with the six characters
    [data: ] is passed over: an empty keep-alive line, a comment line, an
    [event:] line, and also a [data:] line without the blank after the
    colon.  Removing such a line from the stream changes neither the text
    returned nor anything printed or logged. *)
Theorem stream_ignores_unprefixed_lines :
  forall (py_str : json -> string) (json_loads : string -> option json)
         (before after : list string) (line : string) (w : world),
    PyStr.startswith line "data: " = false ->
    Review.decode_stream py_str json_loads (before ++ line :: after) w
    = Review.decode_stream py_str json_loads (before ++ after) w.
Proof.
  intros py_str json_loads before after line w Hl.
  unfold Review.decode_stream. unfold bind at 1 5.
  rewrite (stream_loop_skip py_str json_loads line after
             (unprefixed_skipped json_loads line Hl)).
  reflexivity.
Qed.

Lemma stream_ignores_unprefixed_lines_witness :
  PyStr.startswith (Json.dq "data:{'choices':[{'delta':{'content':'X'}}]}") "data: "
  = false
  /\ Review.decode_stream Json.str Json.loads
       [line_A; Json.dq "data:{'choices':[{'delta':{'content':'X'}}]}"; line_B; line_done]
       world0
     = Review.decode_stream Json.str Json.loads [line_A; line_B; line_done] world0.
Proof.
  split; [reflexivity|].
  apply (stream_ignores_unprefixed_lines Json.str Json.loads [line_A] [line_B; line_done]
           (Json.dq "data:{'choices':[{'delta':{'content':'X'}}]}") world0).
  reflexivity.
Defined.

(** X7.  What the streaming decoder shows is what it returns: when it
    returns the text [s], the chunks it has written to the primary
    output, one per fragment as it arrived, make up [s] followed by one
    newline.  ([str()] of a string is the string itself.) *)
Theorem stream_output_is_returned_text :
  forall (py_str : json -> string) (json_loads : string -> option json)
         (lines : list string) (w w' : world) (s : string),
    (forall x, py_str (JStr x) = x) ->
    Review.decode_stream py_str json_loads lines w = (Ret (JStr s), w') ->
    PyStr.join (stdout w') = PyStr.join (stdout w) +:+ s +:+ PyStr.nl.
Proof.
  intros py_str json_loads lines w w' s Hstr E.
  unfold Review.decode_stream in E. unfold bind at 1 in E.
  destruct (Review.stream_loop py_str json_loads lines [] 0%nat w) as [[[f m]|e] w1] eqn:El;
    [|discriminate].
  destruct (stream_loop_stdout py_str json_loads lines _ _ _ _ _ _ El) as (g & Ef & Eo).
  cbn [app] in Ef. subst f. cbn [fst snd] in E. run_step.
  assert (Hout : forall w2, stdout w2 = (stdout w1 ++ [PyStr.nl])%list ->
                   (let (r, w3) := (Review.join_content 0 g, w2) in
                    match r with
                    | Ret a => (Ret (JStr a), w3)
                    | Raise e => (Raise e, w3)
                    end) = (Ret (JStr s), w') ->
                   PyStr.join (stdout w') = PyStr.join (stdout w) +:+ s +:+ PyStr.nl).
  { intros w2 Hw2 E2. destruct (Review.join_content 0 g) as [a|e] eqn:Ej; [|discriminate].
    injection E2 as <- <-. rewrite Hw2, Eo, !join_app.
    rewrite (join_content_text py_str g Hstr 0%nat a Ej), str_app_assoc.
    reflexivity. }
  destruct (0 <? m)%nat; cbn in E; eapply Hout; try exact E; reflexivity.
Qed.

Lemma stream_output_is_returned_text_witness :
  Review.decode_stream Json.str Json.loads [line_A; line_malformed; line_B; line_done] world0
  = (Ret (JStr "AB"),
     snd (Review.decode_stream Json.str Json.loads
            [line_A; line_malformed; line_B; line_done] world0))
  /\ PyStr.join (stdout (snd (Review.decode_stream Json.str Json.loads
                                [line_A; line_malformed; line_B; line_done] world0)))
     = PyStr.join (stdout world0) +:+ "AB" +:+ PyStr.nl.
Proof.
  split; [vm_compute; reflexivity|].
  apply (stream_output_is_returned_text Json.str Json.loads
           [line_A; line_malformed; line_B; line_done] world0 _ "AB");
    [intros x; reflexivity|vm_compute; reflexivity].
Defined.

(** ** Extraction from a buffered response *)

Lemma lookup_step_get j k d : lookup_step (Py.get j k d).
Proof. destruct j; cbn; trivial. Qed.

Lemma lookup_step_index0 j : lookup_step (Py.index0 j).
Proof. destruct j as [| | |[|c s]|[|x l]|]; cbn; trivial. Qed.

Lemma lookup_step_item j k : lookup_step (Py.item j k).
Proof. destruct j; cbn; trivial. destruct (Py.dict_lookup k l); cbn; trivial. Qed.

Lemma lookup_step_gt0 j : lookup_step (Review.gt0 j).
Proof. destruct j; cbn; trivial. Qed.

Lemma true_or_lookup_error_bind {A} (c : py_result A) (k : A -> py_result json) :
  lookup_step c -> (forall a, true_or_lookup_error (k a)) ->
  true_or_lookup_error (Py.pbind c k).
Proof. destruct c; cbn; auto. Qed.

(** A handler that catches the index, key and type errors leaves values
    that are true and attribute errors. *)
Lemma caught_lookup_errors (body : py_result json) (h : exn -> string) :
  true_or_lookup_error body ->
  let r := Py.catch body
             (fun e => match exn_cls e with
                       | IndexError | KeyError | TypeError => true
                       | _ => false
                       end)
             (fun e => Ret (JStr ("ERROR: " +:+ h e))) in
  (forall v, r = Ret v -> Py.truthy v = true)
  /\ (forall e, r = Raise e -> exn_cls e = AttributeError).
Proof.
  destruct body as [v|e]; cbn.
  - intros Hv. split; [intros v' [= <-]; exact Hv|discriminate].
  - unfold lookup_error. destruct (exn_cls e) eqn:Ec; try discriminate; intros _; cbn;
      split; try discriminate; try (intros v [= <-]; reflexivity).
    intros e' [= <-]. exact Ec.
Qed.

Ltac extraction_steps :=
  repeat first
    [ apply true_or_lookup_error_bind;
      [ first [ apply lookup_step_get | apply lookup_step_index0
              | apply lookup_step_item | apply lookup_step_gt0 ]
      | intros ? ]
    | match goal with
      | |- true_or_lookup_error (if negb (Py.truthy ?c) then _ else _) =>
          let E := fresh "E" in destruct (Py.truthy c) eqn:E; cbn [negb]
      | |- true_or_lookup_error (if ?b then _ else _) => destruct b
      | |- true_or_lookup_error (Ret (JStr _)) => reflexivity
      | H : Py.truthy ?c = true |- true_or_lookup_error (Ret ?c) => exact H
      end ].

Lemma review_extraction_body py_str result :
  exists body h,
    Review.extract_content py_str result
    = Py.catch body
        (fun e => match exn_cls e with
                  | IndexError | KeyError | TypeError => true
                  | _ => false
                  end)
        (fun e => Ret (JStr ("ERROR: " +:+ h e)))
    /\ true_or_lookup_error body.
Proof.
  eexists _, (fun e => "Unexpected response format from API: " +:+ exn_msg e).
  split; [reflexivity|]. extraction_steps.
Qed.

Lemma council_extraction_body py_str result :
  exists body h,
    Council.extract_content py_str result
    = Py.catch body
        (fun e => match exn_cls e with
                  | IndexError | KeyError | TypeError => true
                  | _ => false
                  end)
        (fun e => Ret (JStr ("ERROR: " +:+ h e)))
    /\ true_or_lookup_error body.
Proof.
  eexists _, (fun e => "Unexpected response format: " +:+ exn_msg e).
  split; [reflexivity|]. extraction_steps.
Qed.

(** X8.  [extract_content], in review.py and in council.py, never hands
    back an empty or false value: whatever the decoded response, what it
    returns is true in Python's sense (the content of the first choice
    when that one is not empty, an [ERROR:] text otherwise).  It is not
    total: index, key and type errors are turned into an [ERROR:] text,
    but an [AttributeError] (a [.get] on a value that is not an object)
    is raised to the caller, and no other exception is. *)
Theorem extract_content_never_empty :
  forall (py_str : json -> string) (result : json),
    (forall v, Review.extract_content py_str result = Ret v -> Py.truthy v = true)
    /\ (forall e, Review.extract_content py_str result = Raise e ->
                  exn_cls e = AttributeError)
    /\ (forall v, Council.extract_content py_str result = Ret v -> Py.truthy v = true)
    /\ (forall e, Council.extract_content py_str result = Raise e ->
                  exn_cls e = AttributeError)
    /\ (forall c, Review.extract_content py_str (JArr c) = Raise
                    (mk_exn AttributeError "'list' object has no attribute 'get'"))
    /\ Review.extract_content py_str (JObj [("choices", JArr [JStr "x"])])
       = Raise (mk_exn AttributeError "'str' object has no attribute 'get'").
Proof.
  intros py_str result.
  destruct (review_extraction_body py_str result) as (b1 & h1 & E1 & H1).
  destruct (council_extraction_body py_str result) as (b2 & h2 & E2 & H2).
  rewrite E1, E2.
  destruct (caught_lookup_errors b1 h1 H1) as [R1 R2].
  destruct (caught_lookup_errors b2 h2 H2) as [C1 C2].
  repeat split; try assumption; reflexivity.
Qed.

(** A well-formed body: the content of the first choice is returned, by
    both scripts. *)
Lemma extract_content_of_first_choice py_str body first rest message c :
  Py.dict_lookup "choices" body = Some (JArr (JObj first :: rest)) ->
  Py.dict_lookup "message" first = Some (JObj message) ->
  Py.dict_lookup "content" message = Some c ->
  Py.truthy c = true ->
  Review.extract_content py_str (JObj body) = Ret c
  /\ Council.extract_content py_str (JObj body) = Ret c.
Proof.
  intros Hc Hm Hk Ht. unfold Review.extract_content, Council.extract_content.
  cbn [Py.get Py.pbind]. rewrite Hc. cbn [Py.truthy negb Py.index0 Py.pbind Py.get].
  rewrite Hm. cbn [Py.pbind Py.get]. rewrite Hk, Ht. split; reflexivity.
Qed.

(** ** The Single Reviewer Client, end to end *)

(** X9.  A buffered review, end to end: when the attempt that settles the
    retries is answered with a JSON object whose first choice carries a
    message with a non-empty content, [call_openrouter] without streaming
    returns that content, untouched, after exactly as many requests as
    attempts were made, each carrying the same payload; the other entries
    of the body play no role. *)
Theorem buffered_review_returned :
  forall (py_str : json -> string) (json_loads : string -> option json)
         (P1 P2 P3 key : string) (script : nat -> py_result response)
         (cfg : Review.config) (review_type : string) (ctx : context)
         (k : nat) (resp : response) (body first message : list (string * json))
         (rest : list json) (c : json),
    PyStr.truthy key = true ->
    settles_at script 0 MAX_RETRIES k ->
    script k = Ret resp ->
    json_body resp = Some (JObj body) ->
    Py.dict_lookup "choices" body = Some (JArr (JObj first :: rest)) ->
    Py.dict_lookup "message" first = Some (JObj message) ->
    Py.dict_lookup "content" message = Some c ->
    Py.truthy c = true ->
    exists w',
      Review.call_openrouter py_str json_loads P1 P2 P3 (Some key) script cfg review_type
                             ctx false world0
      = (Ret c, w')
      /\ sent w'
         = repeat (Review.build_payload P1 P2 P3 cfg review_type ctx false) (S k).
Proof.
  intros py_str json_loads P1 P2 P3 key script cfg review_type ctx k resp body first
         message rest c Hkey Hk Hs Hb Hc Hm Hct Ht.
  destruct (call_openrouter_run py_str json_loads P1 P2 P3 key script cfg review_type ctx
              false k Hkey Hk) as (w' & E & Hsent).
  exists w'. split; [|exact Hsent]. rewrite E, Hs. unfold openrouter_body.
  unfold Py.response_json. rewrite Hb. cbn [Py.pbind].
  rewrite (proj1 (extract_content_of_first_choice py_str body first rest message c
                    Hc Hm Hct Ht)).
  reflexivity.
Qed.

Lemma settles_503_503_answer : settles_at script_503_503_answer 0 MAX_RETRIES 2.
Proof.
  split; [unfold MAX_RETRIES; lia|]. split; [|left; reflexivity].
  intros [|[|i]] Hi; [reflexivity|reflexivity|lia].
Qed.

Lemma buffered_review_returned_witness :
  PyStr.truthy "sk-test" = true
  /\ script_503_503_answer 2%nat = Ret answer
  /\ exists w',
      Review.call_openrouter Json.str Json.loads "" "" "" (Some "sk-test")
                             script_503_503_answer (review_config 200000) "code" ctx_diff
                             false world0
      = (Ret (JStr "Looks fine."), w')
      /\ length (sent w') = 3%nat.
Proof.
  split; [reflexivity|]. split; [reflexivity|].
  destruct (buffered_review_returned Json.str Json.loads "" "" "" "sk-test"
              script_503_503_answer (review_config 200000) "code" ctx_diff 2 answer
              _ _ _ _ (JStr "Looks fine.")
              eq_refl settles_503_503_answer eq_refl eq_refl eq_refl eq_refl eq_refl
              eq_refl) as (w' & E & Hsent).
  exists w'. split; [exact E|]. rewrite Hsent. reflexivity.
Defined.

Lemma http_error_detail_readable py_str e :
  isinstance_HTTPError e = true ->
  if detail_readable e
  then Review.on_failure py_str e
       = Ret (JStr ("ERROR: API request failed: " +:+ exn_msg e +:+ PyStr.nl
                      +:+ py_str (readable_detail e)))
  else exists e', Review.on_failure py_str e = Raise e'
                  /\ exn_cls e' = AttributeError.
Proof.
  intros HH.
  unfold detail_readable, readable_detail, Review.on_failure, Review.http_error_detail.
  assert (HT : isinstance_Timeout e = false).
  { unfold isinstance_HTTPError, isinstance_Timeout in *.
    destruct (exn_cls e); try discriminate; reflexivity. }
  rewrite HT, HH. cbn [negb orb].
  destruct (exn_response e) as [resp|]; [|reflexivity].
  unfold Py.response_json.
  destruct (json_body resp) as [[| | | | |d]|]; cbn;
    try reflexivity; try (eexists; split; reflexivity).
  destruct (Py.dict_lookup "error" d) as [[| | | | |d']|]; cbn;
    try reflexivity; try (eexists; split; reflexivity).
Qed.

(** X10.  A request that fails for good is reported, not raised, by
    [call_openrouter] in all cases but one.  When the failure that
    settles the retries is a timeout, the text is the fixed timeout
    message; when it is any other exception that is not an HTTP error, the
    text is [ERROR: Unexpected error: ] followed by the exception's
    message; when it is an HTTP error whose response is missing, is not
    JSON, or is a JSON object whose [error] entry is absent or an object,
    the text is [ERROR: API request failed: ] followed by the exception's
    message, a newline and the [message] of that [error] object (nothing
    when there is none).  In the remaining case, an HTTP error whose JSON
    body is not an object or whose [error] entry is not an object, an
    [AttributeError] leaves the function. *)
Theorem request_failure_reported :
  forall (py_str : json -> string) (json_loads : string -> option json)
         (P1 P2 P3 key : string) (script : nat -> py_result response)
         (cfg : Review.config) (review_type : string) (ctx : context) (stream : bool)
         (k : nat) (e : exn),
    PyStr.truthy key = true ->
    settles_at script 0 MAX_RETRIES k ->
    script k = Raise e ->
    isinstance_Exception e = true ->
    let outcome :=
      fst (Review.call_openrouter py_str json_loads P1 P2 P3 (Some key) script cfg
             review_type ctx stream world0) in
    (isinstance_Timeout e = true ->
     outcome = Ret (JStr "ERROR: Request timed out after retries. The model may be overloaded. Try again later."))
    /\ (isinstance_Timeout e = false -> isinstance_HTTPError e = false ->
        outcome = Ret (JStr ("ERROR: Unexpected error: " +:+ exn_msg e)))
    /\ (detail_readable e = true ->
        exists s, outcome = Ret (JStr s) /\ PyStr.startswith s "ERROR:" = true)
    /\ (detail_readable e = false ->
        exists e', outcome = Raise e' /\ exn_cls e' = AttributeError)
    /\ (isinstance_HTTPError e = true -> detail_readable e = true ->
        outcome = Ret (JStr ("ERROR: API request failed: " +:+ exn_msg e +:+ PyStr.nl
                               +:+ py_str (readable_detail e)))).
Proof.
  intros py_str json_loads P1 P2 P3 key script cfg review_type ctx stream k e
         Hkey Hk Hs Hexc outcome.
  destruct (call_openrouter_run py_str json_loads P1 P2 P3 key script cfg review_type ctx
              stream k Hkey Hk) as (w' & E & _).
  assert (Ho : outcome = Review.on_failure py_str e).
  { unfold outcome. rewrite E, Hs. reflexivity. }
  rewrite Ho. clear Ho E outcome.
  assert (Hplain : isinstance_Timeout e = false -> isinstance_HTTPError e = false ->
                   Review.on_failure py_str e
                   = Ret (JStr ("ERROR: Unexpected error: " +:+ exn_msg e))).
  { intros HT HH. unfold Review.on_failure. rewrite HT, HH, Hexc. reflexivity. }
  assert (Htimeout : isinstance_Timeout e = true ->
                     Review.on_failure py_str e
                     = Ret (JStr "ERROR: Request timed out after retries. The model may be overloaded. Try again later.")).
  { intros HT. unfold Review.on_failure. rewrite HT. reflexivity. }
  split; [exact Htimeout|]. split; [exact Hplain|].
  destruct (isinstance_Timeout e) eqn:HT.
  - split; [|split; [unfold detail_readable; rewrite HT; discriminate|]].
    + intros _. eexists. split; [apply Htimeout; reflexivity|reflexivity].
    + intros HH. unfold isinstance_HTTPError, isinstance_Timeout in *.
      destruct (exn_cls e); discriminate.
  - destruct (isinstance_HTTPError e) eqn:HH.
    + pose proof (http_error_detail_readable py_str e HH) as Hd.
      destruct (detail_readable e).
      * split; [|split; [discriminate|]].
        -- intros _. eexists. split; [exact Hd|reflexivity].
        -- intros _ _. exact Hd.
      * split; [discriminate|]. split; [intros _; exact Hd|discriminate].
    + split; [|split; [unfold detail_readable; rewrite HT, HH; discriminate
                      |discriminate]].
      intros _. eexists. split; [apply Hplain; reflexivity|reflexivity].
Qed.

Lemma settles_401 : settles_at script_401 0 MAX_RETRIES 0.
Proof.
  split; [unfold MAX_RETRIES; lia|]. split; [intros i Hi; lia|left; reflexivity].
Qed.

Lemma request_failure_reported_witness :
  PyStr.truthy "sk-test" = true
  /\ isinstance_Exception
       (http_error
          (http_response 401
             (Some (JObj [("error", JObj [("message", JStr "No auth credentials found")])]))))
     = true
  /\ fst (Review.call_openrouter Json.str Json.loads "" "" "" (Some "sk-test") script_401
            (review_config 200000) "code" ctx_diff true world0)
     = Ret (JStr ("ERROR: API request failed: 401 Error" +:+ PyStr.nl
                    +:+ "No auth credentials found")).
Proof.
  split; [reflexivity|]. split; [reflexivity|].
  refine (let H := request_failure_reported Json.str Json.loads "" "" "" "sk-test"
                     script_401 (review_config 200000) "code" ctx_diff true 0 _ eq_refl
                     settles_401 eq_refl eq_refl in _).
  destruct H as (_ & _ & _ & _ & H). exact (H eq_refl eq_refl).
Defined.

(** ** Web search and the model name *)

Lemma rev_involutive (s : string) : String.rev (String.rev s) = s.
Proof.
  induction s as [|c s IH]; [reflexivity|].
  change (String c s) with (String c "" +:+ s).
  rewrite rev_app_distr, rev_app_distr, IH. reflexivity.
Qed.

Lemma contains_app_r (a b : string) : PyStr.contains (a +:+ b) b = true.
Proof. apply contains_occurs. exists a, "". rewrite str_app_nil_r. reflexivity. Qed.

Lemma endswith_contains (s p : string) :
  PyStr.endswith s p = true -> PyStr.contains s p = true.
Proof.
  unfold PyStr.endswith. intros H. apply startswith_occurs in H as (t & E).
  apply contains_occurs. exists (String.rev t), "".
  rewrite str_app_nil_r, <- (rev_involutive s), E, rev_app_distr, rev_involutive.
  reflexivity.
Qed.

(** X11.  The web search rules of review.py.  With web search switched off
    the model name is sent as configured and no plugin is attached.  With
    web search on (the default) the name is given the suffix [:online]
    unless it ends with it already or names a [:free] model, so the rule
    applied twice adds nothing more; a name without [:free] is always sent
    ending in [:online] and with the [exa] plugin, and a [:free] model is
    sent as configured.  The plugin is attached exactly when web search is
    on and the name sent contains [:online]. *)
Theorem web_search_rules :
  forall (P1 P2 P3 : string) (cfg : Review.config) (review_type : string) (ctx : context)
         (stream : bool),
    let p := Review.build_payload P1 P2 P3 cfg review_type ctx stream in
    (web_search cfg = false -> p_model p = Review.model cfg /\ p_plugins p = None)
    /\ (web_search cfg = true -> PyStr.contains (Review.model cfg) ":free" = false ->
        PyStr.endswith (p_model p) ":online" = true /\ p_plugins p = Some "exa")
    /\ (web_search cfg = true -> PyStr.contains (Review.model cfg) ":free" = true ->
        p_model p = Review.model cfg)
    /\ Review.effective_model (with_model cfg (Review.effective_model cfg))
       = Review.effective_model cfg
    /\ (p_plugins p = Some "exa"
        <-> web_search cfg = true /\ PyStr.contains (p_model p) ":online" = true).
Proof.
  intros P1 P2 P3 cfg review_type ctx stream p. subst p.
  unfold web_search, Review.build_payload, Review.effective_model, with_model.
  cbn [p_model p_plugins Review.model Review.enable_web_search].
  destruct (Review.opt_default true (Review.enable_web_search cfg)) eqn:Hw; cbn [andb].
  - destruct (PyStr.endswith (Review.model cfg) ":online") eqn:He; cbn [negb andb].
    + rewrite He. cbn [negb andb]. rewrite (endswith_contains _ _ He).
      repeat split; try discriminate; try reflexivity; intros; assumption.
    + destruct (PyStr.contains (Review.model cfg) ":free") eqn:Hf; cbn [negb].
      * rewrite He, Hf. cbn [negb andb].
        destruct (PyStr.contains (Review.model cfg) ":online");
          repeat split; try discriminate; try reflexivity; try tauto;
          intros []; discriminate.
      * rewrite endswith_app, contains_app_r. cbn [negb andb].
        repeat split; try discriminate; reflexivity.
  - repeat split; try discriminate; try reflexivity. intros []. discriminate.
Qed.

(** ** The [--model] argument *)

Lemma lower_char_idem (c : ascii) :
  PyStr.lower_char (PyStr.lower_char c) = PyStr.lower_char c.
Proof. destruct c as [[] [] [] [] [] [] [] []]; reflexivity. Qed.

Lemma lower_idem (s : string) : PyStr.lower (PyStr.lower s) = PyStr.lower s.
Proof.
  induction s as [|c s IH]; [reflexivity|].
  cbn [PyStr.lower]. rewrite lower_char_idem, IH. reflexivity.
Qed.

Lemma lower_app (a b : string) :
  PyStr.lower (a +:+ b) = PyStr.lower a +:+ PyStr.lower b.
Proof.
  induction a as [|c a IH]; [reflexivity|].
  rewrite str_app_cons. cbn [PyStr.lower]. rewrite IH. reflexivity.
Qed.




(** ** The environment and the [.env] file *)







Section StripWith.

Variable P : ascii -> bool.






End StripWith.

















(** ** The council's configuration *)

Lemma configured_model_lookup (cfg : Council.config) (key : string) :
  In key council_keys_read ->
  Council.opt_default ""
    ((Council.council_models cfg ∪ Council.DEFAULT_COUNCIL_MODELS) !! key)
  = configured_model cfg key.
Proof.
  intros Hk. unfold configured_model. rewrite lookup_union.
  destruct (Council.council_models cfg !! key) as [m|].
  - destruct (Council.DEFAULT_COUNCIL_MODELS !! key); reflexivity.
  - destruct Hk as [<-|[<-|[<-|[]]]]; reflexivity.
Qed.

(** X15.  The council is configured through three keys.  Whatever the
    council type, the members' models are, in order, the models
    configured under [correctness], [performance] and [security] (the
    entry of [council_models] when there is one, the default otherwise),
    so the plan council runs the models of the code council; an entry
    under any other key, such as [design] or [scalability], changes
    nothing.  With web search on, every model name is given the suffix
    [:online], also when it ends with it already, and the members search
    with [native], [exa] and [exa]; with web search off (the default)
    names are sent as configured and no member has a search engine. *)
Theorem council_configuration :
  forall (cfg : Council.config) (council_type : string),
    map Council.m_model (Council.get_council_config cfg council_type)
    = map (fun key => configured_model cfg key
                        +:+ (if council_web_search cfg then ":online" else ""))
          council_keys_read
    /\ map Council.m_search_engine (Council.get_council_config cfg council_type)
       = (if council_web_search cfg
          then [Some "native"; Some "exa"; Some "exa"]
          else [None; None; None])
    /\ (forall role model,
           ~ In role council_keys_read ->
           Council.get_council_config (with_council_model cfg role model) council_type
           = Council.get_council_config cfg council_type)
    /\ (forall key model,
           In key council_keys_read ->
           configured_model (with_council_model cfg key model) key = model).
Proof.
  intros cfg council_type.
  assert (Hmodels : forall c,
             map Council.m_model (Council.get_council_config c council_type)
             = map (fun key => configured_model c key
                                 +:+ (if council_web_search c then ":online" else ""))
                   council_keys_read).
  { intros c. unfold Council.get_council_config, council_web_search.
    destruct (String.eqb council_type "code"); cbn [map Council.m_model council_keys_read];
      rewrite !configured_model_lookup by (cbn; tauto); reflexivity. }
  split; [apply Hmodels|]. split; [|split].
  - unfold Council.get_council_config, council_web_search.
    destruct (String.eqb council_type "code");
      destruct (Council.opt_default false (Council.enable_web_search cfg)); reflexivity.
  - intros role model Hrole.
    assert (Hsame : forall key, In key council_keys_read ->
               (Council.council_models (with_council_model cfg role model)
                  ∪ Council.DEFAULT_COUNCIL_MODELS) !! key
               = (Council.council_models cfg ∪ Council.DEFAULT_COUNCIL_MODELS) !! key).
    { intros key Hk. rewrite !lookup_union. cbn [with_council_model Council.council_models].
      rewrite lookup_insert_ne; [reflexivity|]. intros ->. exact (Hrole Hk). }
    unfold Council.get_council_config.
    rewrite !Hsame by (cbn; tauto). reflexivity.
  - intros key model Hk. unfold configured_model.
    cbn [with_council_model Council.council_models]. rewrite lookup_insert_eq.
    reflexivity.
Qed.

(** X16.  Every member of the council is given the prompt of its own
    role.  For the review types of the command line, [plan], [code] and
    [pr], the prompts of the members are, in order, those of design,
    scalability and security for a plan review and those of correctness,
    performance and security otherwise: the fall-back to the prompt of
    [correctness] is never used.  For any other review type the code
    council is paired with the plan prompts, and its correctness and
    performance members get an empty system prompt. *)
Theorem council_prompts :
  forall (C1 C2 C3 D1 D2 D3 : string) (cfg : Council.config) (review_type : string),
    let prompts :=
      map (fun m => Council.system_prompt_for C1 C2 C3 D1 D2 D3 (Council.m_role m)
                      review_type)
          (Council.get_council_config cfg (council_type_of review_type)) in
    (cli_review_type review_type = true ->
     prompts = if String.eqb review_type "plan" then [D1; D3; D2] else [C1; C3; C2])
    /\ (cli_review_type review_type = false -> prompts = [""; ""; D2]).
Proof.
  intros C1 C2 C3 D1 D2 D3 cfg review_type prompts. subst prompts.
  unfold cli_review_type, council_type_of, Council.system_prompt_for.
  destruct (String.eqb review_type "plan") eqn:Hp.
  - split; [|discriminate]. intros _.
    apply String.eqb_eq in Hp. subst review_type. reflexivity.
  - cbn [orb]. destruct (String.eqb review_type "code" || String.eqb review_type "pr").
    + split; [intros _; reflexivity|discriminate].
    + split; [discriminate|intros _; reflexivity].
Qed.

Lemma council_prompts_witness :
  cli_review_type "pr" = true
  /\ map (fun m => Council.system_prompt_for "correct?" "secure?" "fast?" "design?"
                     "threats?" "scale?" (Council.m_role m) "pr")
         (Council.get_council_config (council_config 200000) (council_type_of "pr"))
     = ["correct?"; "fast?"; "secure?"].
Proof.
  split; [reflexivity|].
  apply (council_prompts "correct?" "secure?" "fast?" "design?" "threats?" "scale?"
           (council_config 200000) "pr").
  reflexivity.
Defined.

(** ** What a reviewer sends and hands back *)

Lemma member_engine (cfg : Council.config) (council_type : string) (m : Council.member) :
  In m (Council.get_council_config cfg council_type) ->
  match Council.m_search_engine m with
  | Some eng => if PyStr.truthy eng then Some eng else None
  | None => None
  end = Council.m_search_engine m.
Proof.
  unfold Council.get_council_config.
  destruct (String.eqb council_type "code");
    destruct (Council.opt_default false (Council.enable_web_search cfg));
    intros [<-|[<-|[<-|[]]]]; reflexivity.
Qed.

(** X17.  Every request that the worker of a council member sends, the
    first attempt and each retry, is the same request: it carries the
    member's model, the system prompt of the member's role, the user
    message of the run, rendered once and cut to [max_context], and the
    web plugin with the member's search engine when there is one; it asks
    neither for streaming nor for a limit on the output.  (The network
    fails with exceptions only.) *)
Theorem reviewer_requests :
  forall (py_str : json -> string) (C1 C2 C3 D1 D2 D3 key : string)
         (cfg : Council.config) (net : string -> nat -> py_result response)
         (clocks : string -> nat -> Q) (ctx : context) (review_type : string)
         (m : Council.member) (q : payload),
    (forall role, raises_only_exceptions (net role)) ->
    In m (Council.get_council_config cfg (council_type_of review_type)) ->
    In q (sent (snd (Council.call_reviewer py_str C1 C2 C3 D1 D2 D3
                       (net (Council.m_role m)) (clocks (Council.m_role m))
                       (Council.m_role m) (Council.m_model m) (Council.m_name m)
                       (Council.user_message_for cfg ctx review_type) review_type key
                       (Council.opt_default "high" (Council.reasoning cfg))
                       (Council.m_search_engine m) world0))) ->
    p_user q = Council.user_message_for cfg ctx review_type
    /\ p_model q = Council.m_model m
    /\ p_system q
       = Council.system_prompt_for C1 C2 C3 D1 D2 D3 (Council.m_role m) review_type
    /\ p_plugins q = Council.m_search_engine m
    /\ p_stream q = None
    /\ p_max_output_tokens q = None.
Proof.
  intros py_str C1 C2 C3 D1 D2 D3 key cfg net clocks ctx review_type m q Hnet Hm Hq.
  destruct (call_reviewer_run py_str C1 C2 C3 D1 D2 D3 (net (Council.m_role m))
              (clocks (Council.m_role m)) (Council.m_role m) (Council.m_model m)
              (Council.m_name m) (Council.user_message_for cfg ctx review_type)
              review_type key (Council.opt_default "high" (Council.reasoning cfg))
              (Council.m_search_engine m) world0 eq_refl (Hnet _))
    as (r & w' & j & E & _ & _ & _ & _ & _ & _ & _ & Hsent).
  rewrite E in Hq. cbn [snd] in Hq. rewrite (Hsent q Hq).
  unfold Council.build_payload. cbn [p_user p_model p_system p_plugins p_stream
                                      p_max_output_tokens].
  rewrite (member_engine cfg _ m Hm). repeat split; reflexivity.
Qed.

Lemma reviewer_requests_witness :
  (forall role, raises_only_exceptions (net_one_timeout role))
  /\ In performance_critic
        (Council.get_council_config (council_config 10) (council_type_of "code"))
  /\ exists q,
      In q (sent (snd (Council.call_reviewer Json.str "" "" "" "" "" ""
                         (net_one_timeout "performance") (ticking "performance")
                         "performance" "google/gemini-3-pro-preview"
                         "Performance Critic"
                         (Council.user_message_for (council_config 10) ctx_diff "code")
                         "code" "sk-test" "high" None world0)))
      /\ p_user q = Council.user_message_for (council_config 10) ctx_diff "code"
      /\ p_model q = "google/gemini-3-pro-preview".
Proof.
  split; [exact net_one_timeout_raises|]. split; [right; left; reflexivity|].
  eexists. split; [left; reflexivity|].
  refine (let H := reviewer_requests Json.str "" "" "" "" "" "" "sk-test"
                     (council_config 10) net_one_timeout ticking ctx_diff "code"
                     performance_critic _ net_one_timeout_raises
                     (or_intror (or_introl eq_refl)) (or_introl eq_refl) in _).
  destruct H as (Hu & Hmo & _). split; [exact Hu|exact Hmo].
Defined.

Section ReviewerAnswered.

Variable py_str : json -> string.
Variables C1 C2 C3 D1 D2 D3 : string.
Variable script : nat -> py_result response.
Variable clock : nat -> Q.
Variables role model name user_message review_type api_key reasoning : string.
Variable search_engine : option string.


End ReviewerAnswered.




(** ** The table of free models *)

Lemma occurs_app_l (kw a b : string) : PyStr.occurs kw a -> PyStr.occurs kw (a +:+ b).
Proof.
  intros (x & y & ->). exists x, (y +:+ b). rewrite !str_app_assoc. reflexivity.
Qed.

Lemma occurs_app_r (kw a b : string) : PyStr.occurs kw b -> PyStr.occurs kw (a +:+ b).
Proof.
  intros (x & y & ->). exists (a +:+ x), y. rewrite !str_app_assoc. reflexivity.
Qed.

Lemma status_cases (model_id model_name : string) :
  FreeModels.is_thinking_model model_id model_name = "THINKING"
  \/ FreeModels.is_thinking_model model_id model_name = "STANDARD"
  \/ FreeModels.is_thinking_model model_id model_name = "UNKNOWN".
Proof.
  unfold FreeModels.is_thinking_model.
  destruct (existsb _ FreeModels.THINKING_KEYWORDS); [left; reflexivity|].
  destruct (existsb _ FreeModels.NON_THINKING_KEYWORDS); auto.
Qed.

(** X19.  [is_thinking_model] classifies by keywords, without regard to
    letter case, and a thinking keyword takes precedence.  The answer is
    one of [THINKING], [STANDARD] and [UNKNOWN], and it is the same for
    the lower-cased id and name.  A model whose id or name contains a
    thinking keyword ([r1], [think], [cot], ...) in any letter case is
    [THINKING] whatever else the id or name says, also when it contains
    [mini], [chat] or another keyword of the standard models; a model is
    [UNKNOWN] only when neither its id nor its name contains a keyword of
    either list. *)
Theorem thinking_keywords_take_precedence :
  forall (model_id model_name : string),
    let status := FreeModels.is_thinking_model model_id model_name in
    (status = "THINKING" \/ status = "STANDARD" \/ status = "UNKNOWN")
    /\ FreeModels.is_thinking_model (PyStr.lower model_id) (PyStr.lower model_name)
       = status
    /\ (forall kw,
           In kw FreeModels.THINKING_KEYWORDS ->
           PyStr.occurs kw (PyStr.lower model_id)
           \/ PyStr.occurs kw (PyStr.lower model_name) ->
           status = "THINKING")
    /\ (status = "UNKNOWN" ->
        forall kw,
          In kw (FreeModels.THINKING_KEYWORDS ++ FreeModels.NON_THINKING_KEYWORDS)%list ->
          ~ PyStr.occurs kw (PyStr.lower model_id)
          /\ ~ PyStr.occurs kw (PyStr.lower model_name)).
Proof.
  intros model_id model_name status. subst status.
  split; [apply status_cases|]. split; [|split].
  - unfold FreeModels.is_thinking_model. rewrite !lower_app, !lower_idem. reflexivity.
  - intros kw Hkw Hocc. unfold FreeModels.is_thinking_model.
    assert (Hin : PyStr.contains (PyStr.lower (model_id +:+ " " +:+ model_name)) kw = true).
    { apply contains_occurs. rewrite !lower_app. destruct Hocc as [H|H].
      - apply occurs_app_l. exact H.
      - apply occurs_app_r, occurs_app_r. exact H. }
    assert (He : existsb (PyStr.contains (PyStr.lower (model_id +:+ " " +:+ model_name)))
                         FreeModels.THINKING_KEYWORDS = true).
    { apply existsb_exists. exists kw. split; assumption. }
    rewrite He. reflexivity.
  - unfold FreeModels.is_thinking_model.
    destruct (existsb _ FreeModels.THINKING_KEYWORDS) eqn:Ht; [discriminate|].
    destruct (existsb _ FreeModels.NON_THINKING_KEYWORDS) eqn:Hn; [discriminate|].
    intros _ kw Hkw.
    assert (Hno : PyStr.contains (PyStr.lower (model_id +:+ " " +:+ model_name)) kw
                  = false).
    { apply in_app_iff in Hkw as [Hkw|Hkw].
      - destruct (PyStr.contains _ kw) eqn:Hc; [|reflexivity].
        rewrite <- Ht. symmetry. apply existsb_exists. exists kw. split; assumption.
      - destruct (PyStr.contains _ kw) eqn:Hc; [|reflexivity].
        rewrite <- Hn. symmetry. apply existsb_exists. exists kw. split; assumption. }
    rewrite !lower_app in Hno.
    split; intros Hocc.
    + assert (PyStr.contains (PyStr.lower model_id +:+ PyStr.lower " "
                                +:+ PyStr.lower model_name) kw = true)
        by (apply contains_occurs, occurs_app_l; exact Hocc).
      congruence.
    + assert (PyStr.contains (PyStr.lower model_id +:+ PyStr.lower " "
                                +:+ PyStr.lower model_name) kw = true)
        by (apply contains_occurs, occurs_app_r, occurs_app_r; exact Hocc).
      congruence.
Qed.

Lemma spaces_length (n : nat) : String.length (FreeModels.spaces n) = n.
Proof. induction n as [|n IH]; cbn; [reflexivity|]. rewrite IH. reflexivity. Qed.

Lemma ljust_length (w : nat) (s : string) :
  String.length (FreeModels.ljust w s) = Nat.max w (String.length s).
Proof. unfold FreeModels.ljust. rewrite str_length_app, spaces_length. lia. Qed.

(** X20.  The rows of the table stay aligned whatever the model is
    called.  The model id is shown in full when it has at most 41
    characters and otherwise as its first 38 characters followed by three
    dots, 41 characters in all, so that the Model ID column is always
    exactly 43 characters wide and begins with the id as shown; the Type
    column is always exactly 10 characters wide. *)
Theorem table_columns_aligned :
  forall (model_id model_name : string),
    (String.length (FreeModels.display_id model_id) <= 41)%nat
    /\ ((String.length model_id <= 41)%nat -> FreeModels.display_id model_id = model_id)
    /\ ((41 < String.length model_id)%nat ->
        FreeModels.display_id model_id = PyStr.take 38 model_id +:+ "..."
        /\ String.length (FreeModels.display_id model_id) = 41%nat)
    /\ String.length (FreeModels.id_column model_id) = 43%nat
    /\ PyStr.startswith (FreeModels.id_column model_id) (FreeModels.display_id model_id)
       = true
    /\ String.length (FreeModels.type_column model_id model_name) = 10%nat.
Proof.
  intros model_id model_name.
  assert (Hlong : (41 < String.length model_id)%nat ->
                  FreeModels.display_id model_id = PyStr.take 38 model_id +:+ "..."
                  /\ String.length (FreeModels.display_id model_id) = 41%nat).
  { intros H. unfold FreeModels.display_id.
    replace (String.length model_id <=? 41)%nat with false
      by (symmetry; apply Nat.leb_gt; exact H).
    split; [reflexivity|]. rewrite str_length_app, take_length by lia. reflexivity. }
  assert (Hshort : (String.length model_id <= 41)%nat ->
                   FreeModels.display_id model_id = model_id).
  { intros H. unfold FreeModels.display_id.
    replace (String.length model_id <=? 41)%nat with true
      by (symmetry; apply Nat.leb_le; exact H).
    reflexivity. }
  assert (Hle : (String.length (FreeModels.display_id model_id) <= 41)%nat).
  { destruct (Nat.le_gt_cases (String.length model_id) 41) as [H|H].
    - rewrite (Hshort H). exact H.
    - rewrite (proj2 (Hlong H)). lia. }
  split; [exact Hle|]. split; [exact Hshort|]. split; [exact Hlong|]. split; [|split].
  - unfold FreeModels.id_column. rewrite ljust_length. lia.
  - unfold FreeModels.id_column, FreeModels.ljust. apply startswith_app.
  - unfold FreeModels.type_column. rewrite ljust_length.
    destruct (status_cases model_id model_name) as [E|[E|E]]; rewrite E; reflexivity.
Qed.

(** ** A streamed review, end to end *)

Section StreamedReview.

Variable json_loads : string -> option json.

Lemma chunk_fragment (chunk : string * string) :
  chunk_carries json_loads chunk ->
  classify json_loads (data_line (fst chunk)) = Fragment (JStr (snd chunk)).
Proof.
  intros (Hd & Ht & data & Hl & Hc). unfold classify.
  change (data_payload (data_line (fst chunk))) with (Some (fst chunk)).
  cbv beta iota. rewrite Hd, Hl, Hc. cbn [Py.truthy]. rewrite Ht. reflexivity.
Qed.

Lemma fragments_of_chunks (chunks : list (string * string)) (tail : list string) :
  Forall (chunk_carries json_loads) chunks ->
  forall acc,
    fragments_of json_loads (map (fun c => data_line (fst c)) chunks ++ tail) acc
    = fragments_of json_loads tail (acc ++ map (fun c => JStr (snd c)) chunks).
Proof.
  induction chunks as [|c chunks IH]; intros Hall acc.
  - cbn [map app]. rewrite app_nil_r. reflexivity.
  - apply List.Forall_cons_iff in Hall as [Hc Hall].
    cbn [map app fragments_of]. rewrite (chunk_fragment c Hc), (IH Hall).
    rewrite <- app_assoc. reflexivity.
Qed.

Lemma fragments_of_end (tail : list string) (acc : list json) :
  stream_end tail -> fragments_of json_loads tail acc = Ret acc.
Proof. intros [->|(after & ->)]; reflexivity. Qed.

End StreamedReview.

Lemma join_content_strings (l : list string) :
  forall i, Review.join_content i (map JStr l) = Ret (PyStr.join l).
Proof.
  induction l as [|s l IH]; intros i; [reflexivity|].
  cbn [map Review.join_content]. rewrite IH. reflexivity.
Qed.

(** X21.  A streamed review, end to end: when the attempt that settles
    the retries is answered with a stream of well-formed chunks, each
    carrying a non-empty text fragment, [call_openrouter] returns the
    fragments joined in the order of arrival, with nothing added between
    them; the stream may end with the sentinel [[DONE]], followed by
    anything, or simply end after its last chunk. *)
Theorem streamed_review_returned :
  forall (py_str : json -> string) (json_loads : string -> option json)
         (P1 P2 P3 key : string) (script : nat -> py_result response)
         (cfg : Review.config) (review_type : string) (ctx : context)
         (k : nat) (resp : response) (chunks : list (string * string))
         (tail : list string),
    PyStr.truthy key = true ->
    settles_at script 0 MAX_RETRIES k ->
    script k = Ret resp ->
    iter_lines resp = (map (fun c => data_line (fst c)) chunks ++ tail)%list ->
    Forall (chunk_carries json_loads) chunks ->
    stream_end tail ->
    exists w',
      Review.call_openrouter py_str json_loads P1 P2 P3 (Some key) script cfg review_type
                             ctx true world0
      = (Ret (JStr (PyStr.join (map snd chunks))), w')
      /\ length (sent w') = S k.
Proof.
  intros py_str json_loads P1 P2 P3 key script cfg review_type ctx k resp chunks tail
         Hkey Hk Hs Hlines Hall Hend.
  destruct (call_openrouter_run py_str json_loads P1 P2 P3 key script cfg review_type ctx
              true k Hkey Hk) as (w' & E & Hsent).
  exists w'. split; [|rewrite Hsent; apply repeat_length].
  rewrite E, Hs. unfold openrouter_body, decoded. rewrite Hlines.
  rewrite (fragments_of_chunks json_loads chunks tail Hall), (fragments_of_end _ _ _ Hend).
  cbn [app]. rewrite <- (map_map snd JStr), join_content_strings. reflexivity.
Qed.

Lemma streamed_review_returned_witness :
  PyStr.truthy "sk-test" = true
  /\ stream_end [data_line "[DONE]"]
  /\ exists w',
      Review.call_openrouter Json.str Json.loads "" "" "" (Some "sk-test")
                             script_three_chunks (review_config 200000) "code" ctx_diff
                             true world0
      = (Ret (JStr "First Second Third"), w')
      /\ length (sent w') = 1%nat.
Proof.
  split; [reflexivity|].
  assert (Hend : stream_end [data_line "[DONE]"]) by (right; exists []; reflexivity).
  split; [exact Hend|].
  apply (streamed_review_returned Json.str Json.loads "" "" "" "sk-test"
           script_three_chunks (review_config 200000) "code" ctx_diff 0 _
           [(Json.dq "{'choices':[{'delta':{'content':'First'}}]}", "First");
            (Json.dq "{'choices':[{'delta':{'content':' Second'}}]}", " Second");
            (Json.dq "{'choices':[{'delta':{'content':' Third'}}]}", " Third")]
           [data_line "[DONE]"] eq_refl
           (settles_first_ok script_three_chunks _ MAX_RETRIES
              ltac:(unfold MAX_RETRIES; lia) eq_refl)
           eq_refl eq_refl).
  - repeat constructor; cbn [fst snd]; eexists; split; vm_compute; reflexivity.
  - exact Hend.
Defined.

(** ** The metadata of a council run *)

(** X22.  The metadata of a council run.  With a key present, a network
    that fails with exceptions only and a clock that does not run
    backwards, [run_council] returns for every review type and whatever
    the order in which the workers finish: its [total_ms] is an integer
    that is [>= 0], measured from before the workers start to after the
    reviews are sorted, and its [council_type] is [plan] for a plan review
    and [code] for every other review type, a PR review included. *)
Theorem council_metadata :
  forall (py_str : json -> string) (C1 C2 C3 D1 D2 D3 key : string)
         (cfg : Council.config) (net : string -> nat -> py_result response)
         (clocks : string -> nat -> Q) (main_clock : nat -> Q)
         (completion : list Council.member) (ctx : context) (review_type : string),
    PyStr.truthy key = true ->
    Permutation completion
                (Council.get_council_config cfg (council_type_of review_type)) ->
    (forall role, raises_only_exceptions (net role)) ->
    monotone_clock main_clock ->
    exists res w',
      Council.run_council py_str C1 C2 C3 D1 D2 D3 (Some key) cfg net clocks main_clock
                          completion ctx review_type world0
      = (Ret res, w')
      /\ 0 <= Council.total_ms res
      /\ Council.total_ms res = elapsed_millis (main_clock 0%nat) (main_clock 2%nat)
      /\ Council.council_type res
         = (if String.eqb review_type "plan" then "plan" else "code")
      /\ ticks w' = 3%nat.
Proof.
  intros py_str C1 C2 C3 D1 D2 D3 key cfg net clocks main_clock completion ctx
         review_type Hkey HP Hnet Hclock.
  destruct (run_council_run py_str C1 C2 C3 D1 D2 D3 key cfg net clocks main_clock ctx
              review_type Hkey Hnet completion HP) as (w' & E).
  pose proof E as E'. unfold Council.run_council, get_api_key in E'. rewrite Hkey in E'.
  run_step.
  destruct (Council.collect _ completion []) as [rs|e]; [|discriminate].
  cbn in E'. injection E' as _ Hw.
  eexists _, w'. split; [exact E|]. cbn [Council.total_ms Council.council_type].
  split; [apply elapsed_nonneg, Hclock; lia|]. split; [reflexivity|].
  split; [reflexivity|]. rewrite <- Hw. reflexivity.
Qed.

Lemma council_metadata_witness :
  PyStr.truthy "sk-test" = true
  /\ Permutation some_completion
                 (Council.get_council_config (council_config 200000)
                                             (council_type_of "pr"))
  /\ monotone_clock (ticking "")
  /\ exists res w',
      Council.run_council Json.str "" "" "" "" "" "" (Some "sk-test")
                          (council_config 200000) net_one_timeout ticking (ticking "")
                          some_completion ctx_diff "pr" world0
      = (Ret res, w')
      /\ 0 <= Council.total_ms res
      /\ Council.council_type res = "code".
Proof.
  split; [reflexivity|]. split; [exact some_completion_perm|].
  split; [exact (ticking_monotone "")|].
  destruct (council_metadata Json.str "" "" "" "" "" "" "sk-test" (council_config 200000)
              net_one_timeout ticking (ticking "") some_completion ctx_diff "pr"
              eq_refl some_completion_perm net_one_timeout_raises (ticking_monotone ""))
    as (res & w' & E & H0 & _ & Ht & _).
  exists res, w'. split; [exact E|]. split; [exact H0|exact Ht].
Defined.

(** ** The progress notes of the Backoff Executor *)

Ltac no_notes :=
  exists []; cbn; rewrite ?app_nil_r;
  split; [reflexivity|split; [reflexivity|intros ? ?; lia]].

Section RetryNotes.

Variable p : payload.
Variable script : nat -> py_result response.

Lemma council_retry_loop_notes role_name k :
  forall n c last w,
    length (sent w) = c ->
    settles_at script c n k ->
    exists notes,
      stdout (snd (Council.retry_loop (make_request p script) role_name (c + n)
                     (seq c n) last w))
      = (stdout w ++ notes)%list
      /\ length notes = k
      /\ forall i, (i < k)%nat ->
                   exists what,
                     nth i notes "" = Council.retry_note role_name what (c + i) (c + n).
Proof.
  induction k as [|k IH]; intros n c last w Hc (Hk & Hpre & Hlast).
  - destruct n as [|n]; [lia|]. cbn [seq Council.retry_loop].
    run_step. rewrite Hc, Nat.add_0_r in *.
    destruct (script c) as [v|e] eqn:Hs.
    + no_notes.
    + cbn in Hlast. destruct Hlast as [Hnt|Hn].
      * destruct (transient_cases e Hnt) as (HT & HH & HC). rewrite HT.
        destruct (isinstance_HTTPError e) eqn:EH.
        -- specialize (HH eq_refl). destruct (exn_response e) as [resp|].
           ++ rewrite HH. no_notes.
           ++ no_notes.
        -- rewrite (HC eq_refl). no_notes.
      * assert (n = 0)%nat by lia. subst n.
        replace (c <? c + 1 - 1)%nat with false by (symmetry; apply Nat.ltb_ge; lia).
        cbn [seq Council.retry_loop].
        destruct (isinstance_Timeout e).
        { run_step. no_notes. }
        destruct (isinstance_HTTPError e).
        { destruct (exn_response e) as [resp|];
            [destruct (retryable_status (status_code resp))|];
            no_notes. }
        destruct (isinstance_ConnectionError e).
        { run_step. no_notes. }
        no_notes.
  - destruct n as [|n]; [lia|].
    assert (Hc0 : transient_failure (script c) = true).
    { specialize (Hpre 0%nat). rewrite Nat.add_0_r in Hpre. apply Hpre. lia. }
    cbn [seq Council.retry_loop]. run_step. rewrite Hc.
    destruct (script c) as [v|e] eqn:Hs; [discriminate|]. cbn in Hc0.
    replace (c <? c + S n - 1)%nat with true by (symmetry; apply Nat.ltb_lt; lia).
    assert (Hrec : forall what w2,
               sent w2 = (sent w ++ [p])%list ->
               stdout w2
               = (stdout w ++ [Council.retry_note role_name what c (c + S n)])%list ->
               exists notes,
                 stdout (snd (Council.retry_loop (make_request p script) role_name
                                (c + S n) (seq (S c) n) (Some e) w2))
                 = (stdout w ++ notes)%list
                 /\ length notes = S k
                 /\ forall i, (i < S k)%nat ->
                              exists what',
                                nth i notes ""
                                = Council.retry_note role_name what' (c + i) (c + S n)).
    { intros what w2 Hsent Hout.
      destruct (IH n (S c) (Some e) w2) as (notes & E & L & N).
      - rewrite Hsent, length_app. cbn. lia.
      - split; [lia|]. split.
        + intros i Hi. replace (S c + i)%nat with (c + S i)%nat by lia.
          apply Hpre. lia.
        + replace (S c + k)%nat with (c + S k)%nat by lia.
          destruct Hlast; [left; assumption|right; lia].
      - replace (S c + n)%nat with (c + S n)%nat in E, N by lia.
        exists (Council.retry_note role_name what c (c + S n) :: notes).
        run_step. rewrite E, Hout, <- app_assoc. split; [reflexivity|].
        split; [cbn; lia|]. intros [|i] Hi.
        + exists what. rewrite Nat.add_0_r. reflexivity.
        + destruct (N i) as (what' & En); [lia|]. exists what'. cbn [nth].
          rewrite En. f_equal. lia. }
    unfold transient in Hc0.
    destruct (isinstance_Timeout e); [eapply Hrec; reflexivity|].
    cbn in Hc0. destruct (isinstance_HTTPError e).
    + destruct (exn_response e) as [resp|]; [|discriminate].
      rewrite Hc0. eapply Hrec; reflexivity.
    + rewrite Hc0. eapply Hrec; reflexivity.
Qed.

Lemma review_retry_loop_notes py_str k :
  forall n c last w,
    length (sent w) = c ->
    settles_at script c n k ->
    exists notes,
      stdout (snd (Review.retry_loop py_str (make_request p script) (c + n)
                     (seq c n) last w))
      = (stdout w ++ notes)%list
      /\ length notes = k
      /\ forall i, (i < k)%nat ->
                   exists what,
                     nth i notes "" = Review.retry_note what (c + i) (c + n).
Proof.
  induction k as [|k IH]; intros n c last w Hc (Hk & Hpre & Hlast).
  - destruct n as [|n]; [lia|]. cbn [seq Review.retry_loop].
    run_step. rewrite Hc, Nat.add_0_r in *.
    destruct (script c) as [v|e] eqn:Hs.
    + no_notes.
    + cbn in Hlast. destruct Hlast as [Hnt|Hn].
      * destruct (transient_cases e Hnt) as (HT & HH & HC). rewrite HT.
        destruct (isinstance_HTTPError e) eqn:EH.
        -- specialize (HH eq_refl). destruct (exn_response e) as [resp|].
           ++ rewrite HH.
              destruct (Py.truthy (Review.http_error_message py_str resp)); no_notes.
           ++ no_notes.
        -- rewrite (HC eq_refl). no_notes.
      * assert (n = 0)%nat by lia. subst n.
        replace (c <? c + 1 - 1)%nat with false by (symmetry; apply Nat.ltb_ge; lia).
        cbn [seq Review.retry_loop].
        destruct (isinstance_Timeout e).
        { run_step. no_notes. }
        destruct (isinstance_HTTPError e).
        { destruct (exn_response e) as [resp|];
            [destruct (Py.truthy (Review.http_error_message py_str resp));
             destruct (retryable_status (status_code resp))|];
            no_notes. }
        destruct (isinstance_ConnectionError e).
        { run_step. no_notes. }
        no_notes.
  - destruct n as [|n]; [lia|].
    assert (Hc0 : transient_failure (script c) = true).
    { specialize (Hpre 0%nat). rewrite Nat.add_0_r in Hpre. apply Hpre. lia. }
    cbn [seq Review.retry_loop]. run_step. rewrite Hc.
    destruct (script c) as [v|e] eqn:Hs; [discriminate|]. cbn in Hc0.
    replace (c <? c + S n - 1)%nat with true by (symmetry; apply Nat.ltb_lt; lia).
    assert (Hrec : forall what w2,
               sent w2 = (sent w ++ [p])%list ->
               stdout w2 = (stdout w ++ [Review.retry_note what c (c + S n)])%list ->
               exists notes,
                 stdout (snd (Review.retry_loop py_str (make_request p script)
                                (c + S n) (seq (S c) n) (Some e) w2))
                 = (stdout w ++ notes)%list
                 /\ length notes = S k
                 /\ forall i, (i < S k)%nat ->
                              exists what',
                                nth i notes "" = Review.retry_note what' (c + i) (c + S n)).
    { intros what w2 Hsent Hout.
      destruct (IH n (S c) (Some e) w2) as (notes & E & L & N).
      - rewrite Hsent, length_app. cbn. lia.
      - split; [lia|]. split.
        + intros i Hi. replace (S c + i)%nat with (c + S i)%nat by lia.
          apply Hpre. lia.
        + replace (S c + k)%nat with (c + S k)%nat by lia.
          destruct Hlast; [left; assumption|right; lia].
      - replace (S c + n)%nat with (c + S n)%nat in E, N by lia.
        exists (Review.retry_note what c (c + S n) :: notes).
        run_step. rewrite E, Hout, <- app_assoc. split; [reflexivity|].
        split; [cbn; lia|]. intros [|i] Hi.
        + exists what. rewrite Nat.add_0_r. reflexivity.
        + destruct (N i) as (what' & En); [lia|]. exists what'. cbn [nth].
          rewrite En. f_equal. lia. }
    unfold transient in Hc0.
    destruct (isinstance_Timeout e); [eapply Hrec; reflexivity|].
    cbn in Hc0. destruct (isinstance_HTTPError e).
    + destruct (exn_response e) as [resp|]; [|discriminate].
      rewrite Hc0.
      destruct (Py.truthy (Review.http_error_message py_str resp));
        eapply Hrec; reflexivity.
    + rewrite Hc0. eapply Hrec; reflexivity.
Qed.

End RetryNotes.

(** X23.  The Backoff Executor announces every retry.  In a run that is
    settled by attempt [k], each script writes exactly [k] progress notes
    to the primary output, one before each sleep and none after the
    attempt that settles the run: the note before retry [i + 1] names the
    wait of [2 * 2^i] seconds and the number [i + 2] of the attempt to
    come out of [max_retries] (in council.py after the reviewer's name in
    brackets). *)
Theorem retry_progress_notes :
  forall (py_str : json -> string) (p : payload) (script : nat -> py_result response)
         (role_name : string) (max_retries k : nat),
    settles_at script 0 max_retries k ->
    exists notes_r notes_c,
      stdout (snd (Review.retry_with_backoff py_str (make_request p script) max_retries
                     world0)) = notes_r
      /\ stdout (snd (Council.retry_with_backoff (make_request p script) role_name
                        max_retries world0)) = notes_c
      /\ length notes_r = k /\ length notes_c = k
      /\ length (sleeps (snd (Review.retry_with_backoff py_str (make_request p script)
                                max_retries world0))) = k
      /\ forall i, (i < k)%nat ->
                   (exists what,
                       nth i notes_r ""
                       = what +:+ " Retrying in " +:+ pretty (backoff_wait i)
                           +:+ "s... (attempt " +:+ pretty (i + 2)%nat +:+ "/"
                           +:+ pretty max_retries +:+ ")")
                   /\ (exists what,
                          nth i notes_c ""
                          = "[" +:+ role_name +:+ "] " +:+ what +:+ " Retrying in "
                              +:+ pretty (backoff_wait i) +:+ "s... ("
                              +:+ pretty (i + 2)%nat +:+ "/" +:+ pretty max_retries
                              +:+ ")").
Proof.
  intros py_str p script role_name max_retries k Hk.
  destruct (review_retry_loop_notes p script py_str k max_retries 0%nat None world0
              eq_refl Hk) as (notes_r & Er & Lr & Nr).
  destruct (council_retry_loop_notes p script role_name k max_retries 0%nat None world0
              eq_refl Hk) as (notes_c & Ec & Lc & Nc).
  destruct (review_retry_run py_str p script max_retries k world0 eq_refl Hk)
    as (w1 & E1 & _ & S1 & _).
  exists notes_r, notes_c. cbn [Nat.add stdout world0 app] in Er, Ec.
  unfold Review.retry_with_backoff, Council.retry_with_backoff.
  split; [exact Er|]. split; [exact Ec|]. split; [exact Lr|]. split; [exact Lc|].
  split.
  - unfold Review.retry_with_backoff in E1. rewrite E1. cbn [snd]. rewrite S1.
    cbn [sleeps world0 app]. rewrite length_map, length_seq. reflexivity.
  - intros i Hi. split.
    + destruct (Nr i Hi) as (what & E). exists what. exact E.
    + destruct (Nc i Hi) as (what & E). exists what. exact E.
Qed.

Lemma retry_progress_notes_witness :
  settles_at script_always_500 0 MAX_RETRIES 2
  /\ exists notes_r notes_c,
      stdout (snd (Review.retry_with_backoff Json.str
                     (make_request some_payload script_always_500) MAX_RETRIES world0))
      = notes_r
      /\ stdout (snd (Council.retry_with_backoff
                        (make_request some_payload script_always_500)
                        "Security Analyst" MAX_RETRIES world0)) = notes_c
      /\ length notes_r = 2%nat /\ length notes_c = 2%nat.
Proof.
  split; [exact settles_always_500|].
  destruct (retry_progress_notes Json.str some_payload script_always_500
              "Security Analyst" MAX_RETRIES 2 settles_always_500)
    as (nr & nc & Er & Ec & Lr & Lc & _).
  exists nr, nc. repeat split; assumption.
Defined.

(** ** What the single reviewer sends *)


